(** * Moltbook client: the library plugin ([src/index.ts]) and the shell client
    ([scripts/moltbook.sh]) as Rocq functions

    Definitions:
    - [Str]: helpers on byte strings;
    - [JS]: the fragment of the JavaScript runtime the plugin relies on
      (values, truthiness, [||], property reads, [String(v)], [+],
      [JSON.stringify], [encodeURIComponent]);
    - [Reference]: a [JSON.parse] to run the plugin on concrete responses
      (the statements hold for every [JSON.parse]);
    - [Wire]: HTTP exchanges as both clients put them on the network;
    - [Host]: files;
    - [Index]: the functions of [src/index.ts], written in a monad that
      threads the log of transport invocations and carries thrown errors;
    - [Script]: the functions of [scripts/moltbook.sh], each command
      returning what it prints and either its exit status or the [curl]
      invocation it makes, with the redirect engine of [curl] beside it;
    - [Sample]: concrete processes, transports and networks.

    Properties follow, by component: the dispatcher, credential resolution,
    the actions, redirects, the commands of the script, query values.

    Strings are byte strings: a JavaScript string is represented by its UTF-8
    encoding, a shell string by its bytes. *)

From Stdlib Require Import String Ascii List Bool ZArith QArith Lia.
From Stdlib Require Import DecimalString.
Import ListNotations.
Close Scope Q_scope.
Local Open Scope list_scope.
Local Open Scope string_scope.

Set Implicit Arguments.

(** ** Strings *)

Module Str.

(** The double quote character, as a one-character string. *)
Definition dq : string := String (ascii_of_nat 34) EmptyString.

(** The backslash character, as a one-character string. *)
Definition bs : string := String (ascii_of_nat 92) EmptyString.

Definition of_ascii (c : ascii) : string := String c EmptyString.

Definition is_empty (s : string) : bool :=
  match s with EmptyString => true | String _ _ => false end.

(** [contains needle hay]: [needle] occurs in [hay] as a contiguous run. *)
Fixpoint contains (needle hay : string) : bool :=
  String.prefix needle hay
  || match hay with
     | EmptyString => false
     | String _ rest => contains needle rest
     end.

Fixpoint mem (c : ascii) (s : string) : bool :=
  match s with
  | EmptyString => false
  | String d rest => Ascii.eqb c d || mem c rest
  end.

Fixpoint forallb (p : ascii -> bool) (s : string) : bool :=
  match s with
  | EmptyString => true
  | String c rest => p c && forallb p rest
  end.

Definition hex_digit (upper : bool) (n : nat) : ascii :=
  if Nat.ltb n 10 then ascii_of_nat (48 + n)
  else ascii_of_nat ((if upper then 55 else 87) + n).

(** The two hexadecimal digits of a byte. *)
Definition hex2 (upper : bool) (c : ascii) : string :=
  let n := nat_of_ascii c in
  String (hex_digit upper (Nat.div n 16))
    (String (hex_digit upper (Nat.modulo n 16)) EmptyString).

Definition in_range (lo hi : nat) (c : ascii) : bool :=
  let n := nat_of_ascii c in Nat.leb lo n && Nat.leb n hi.

Definition is_alnum (c : ascii) : bool :=
  in_range 48 57 c || in_range 65 90 c || in_range 97 122 c.

(** Decimal digits of an integer, with a leading minus sign when negative. *)
Definition of_Z (z : Z) : string := NilZero.string_of_int (Z.to_int z).

End Str.

(** ** The JavaScript runtime fragment *)

Module JS.

(** A JavaScript number: the rational value of a finite double, or one of the
    three non-finite doubles.  Both zeros are [Finite 0]. *)
Inductive number : Type :=
| NaN
| Infinity (negative : bool)
| Finite (q : Q).

Definition of_Z (z : Z) : number := Finite (inject_Z z).
Definition of_nat (n : nat) : number := of_Z (Z.of_nat n).

(** JavaScript values as they arise here: what [JSON.parse] returns, what the
    program builds as object and array literals, and [undefined]. *)
#[warnings="-register-all"] Inductive value : Type :=
| VUndefined
| VNull
| VBool (b : bool)
| VNum (n : number)
| VStr (s : string)
| VArr (elements : list value)
| VObj (fields : list (string * value)).

Definition number_truthy (n : number) : bool :=
  match n with
  | NaN => false
  | Infinity _ => true
  | Finite q => negb (Qeq_bool q 0)
  end.

(** [ToBoolean]: the test of [if (v)], [!v], [v || w], [v && w]. *)
Definition truthy (v : value) : bool :=
  match v with
  | VUndefined | VNull => false
  | VBool b => b
  | VNum n => number_truthy n
  | VStr s => negb (Str.is_empty s)
  | VArr _ | VObj _ => true
  end.

(** [v || w]. *)
Definition or_else (v w : value) : value := if truthy v then v else w.

(** [n <= 0] on numbers: false on [NaN]. *)
Definition number_le0 (n : number) : bool :=
  match n with
  | NaN => false
  | Infinity negative => negative
  | Finite q => Qle_bool q 0
  end.

Fixpoint assoc (k : string) (fields : list (string * value)) : option value :=
  match fields with
  | [] => None
  | (k', v) :: rest => if String.eqb k k' then Some v else assoc k rest
  end.

(** [v.k] for the property names this program reads ([error], [message],
    [api_key], [posts], [agents], [submolts], [pools], [id], [url]), none of
    which is defined on a built-in prototype: an own property of an object,
    [undefined] on every other value, and a [TypeError] ([None]) on [null]
    and [undefined]. *)
Definition get_prop (k : string) (v : value) : option value :=
  match v with
  | VUndefined | VNull => None
  | VObj fields =>
      match assoc k fields with Some x => Some x | None => Some VUndefined end
  | _ => Some VUndefined
  end.

(** [v?.k]: [undefined] instead of a [TypeError]. *)
Definition get_prop_opt (k : string) (v : value) : value :=
  match get_prop k v with Some x => x | None => VUndefined end.

(** A UTF-8 continuation byte (10xxxxxx). *)
Definition is_continuation (c : ascii) : bool := Str.in_range 128 191 c.

(** The code points of a string, each as a string of its own: what iterating
    a string yields. *)
Fixpoint code_points (s : string) : list string :=
  match s with
  | EmptyString => []
  | String c rest =>
      match code_points rest with
      | [] => [Str.of_ascii c]
      | p :: ps =>
          match rest with
          | String d _ =>
              if is_continuation d then String c p :: ps
              else Str.of_ascii c :: p :: ps
          | EmptyString => [Str.of_ascii c]
          end
      end
  end.

(** The [length] of a string, in UTF-16 code units: a code point of four
    UTF-8 bytes takes two units, every other one takes one. *)
Fixpoint utf16_length (s : string) : nat :=
  match s with
  | EmptyString => 0
  | String c rest =>
      (if is_continuation c then 0
       else if Str.in_range 240 255 c then 2 else 1) + utf16_length rest
  end.

(** [[...v]]: the elements of an array, the code points of a string, and a
    [TypeError] ([None]) on every value that is not iterable. *)
Definition spread (v : value) : option (list value) :=
  match v with
  | VArr elements => Some elements
  | VStr s => Some (map VStr (code_points s))
  | _ => None
  end.

(** [v?.length]. *)
Definition length_opt (v : value) : value :=
  match v with
  | VArr elements => VNum (of_nat (List.length elements))
  | VStr s => VNum (of_nat (utf16_length s))
  | _ => get_prop_opt "length" v
  end.

(** Addition of numbers, on the exact values: the rounding of a sum that is
    not a double is not modelled (sums of array lengths are exact). *)
Definition number_add (a b : number) : number :=
  match a, b with
  | NaN, _ | _, NaN => NaN
  | Infinity x, Infinity y => if Bool.eqb x y then Infinity x else NaN
  | Infinity x, Finite _ | Finite _, Infinity x => Infinity x
  | Finite p, Finite q => Finite (Qred (Qplus p q))
  end.

(** [ToNumber] on the primitives that are not strings. *)
Definition ToNumber (v : value) : number :=
  match v with
  | VNull => Finite 0
  | VBool b => if b then of_Z 1 else Finite 0
  | VNum n => n
  | _ => NaN
  end.

Section Numbers.

(** [Number::toString] outside the integers below 10^21 (fractions and
    exponent notation) is the runtime's digit-generation algorithm; it is a
    parameter of the development. *)
Variable fraction_toString : Q -> string.

Definition is_plain_integer (q : Q) : bool :=
  let r := Qred q in
  Pos.eqb (Qden r) 1 && Z.ltb (Z.abs (Qnum r)) (10 ^ 21).

Definition Number_toString (n : number) : string :=
  match n with
  | NaN => "NaN"
  | Infinity negative => if negative then "-Infinity" else "Infinity"
  | Finite q =>
      if is_plain_integer q then Str.of_Z (Qnum (Qred q))
      else fraction_toString q
  end.

(** [String(v)], as in a template literal or [new Error(v)]: arrays join
    their elements with commas, [null] and [undefined] elements being
    empty. *)
Fixpoint ToString (v : value) : string :=
  match v with
  | VUndefined => "undefined"
  | VNull => "null"
  | VBool b => if b then "true" else "false"
  | VNum n => Number_toString n
  | VStr s => s
  | VArr elements =>
      String.concat ","
        ((fix each (l : list value) : list string :=
            match l with
            | [] => []
            | x :: rest =>
                match x with
                | VUndefined | VNull => EmptyString
                | _ => ToString x
                end :: each rest
            end) elements)
  | VObj _ => "[object Object]"
  end.

(** [ToPrimitive] on parsed JSON: arrays and plain objects become their
    string. *)
Definition ToPrimitive (v : value) : value :=
  match v with
  | VArr _ | VObj _ => VStr (ToString v)
  | _ => v
  end.

(** [a + b]: concatenation as soon as one side is a string, addition of
    numbers otherwise. *)
Definition js_add (a b : value) : value :=
  match ToPrimitive a, ToPrimitive b with
  | VStr x, pb => VStr (x ++ ToString pb)
  | pa, VStr y => VStr (ToString pa ++ y)
  | pa, pb => VNum (number_add (ToNumber pa) (ToNumber pb))
  end.

(** [QuoteJSONString]: one character. *)
Definition quote_char (c : ascii) : string :=
  let n := nat_of_ascii c in
  if Nat.eqb n 34 then Str.bs ++ Str.dq
  else if Nat.eqb n 92 then Str.bs ++ Str.bs
  else if Nat.eqb n 8 then Str.bs ++ "b"
  else if Nat.eqb n 9 then Str.bs ++ "t"
  else if Nat.eqb n 10 then Str.bs ++ "n"
  else if Nat.eqb n 12 then Str.bs ++ "f"
  else if Nat.eqb n 13 then Str.bs ++ "r"
  else if Nat.ltb n 32 then Str.bs ++ "u00" ++ Str.hex2 false c
  else Str.of_ascii c.

Fixpoint quote_chars (s : string) : string :=
  match s with
  | EmptyString => EmptyString
  | String c rest => quote_char c ++ quote_chars rest
  end.

Definition quote (s : string) : string := Str.dq ++ quote_chars s ++ Str.dq.

(** [SerializeJSONProperty] without indentation: a non-finite number is
    [null], an [undefined] array element is [null], an [undefined] field is
    left out. *)
Fixpoint serialize (v : value) : string :=
  match v with
  | VUndefined | VNull => "null"
  | VBool b => if b then "true" else "false"
  | VNum n =>
      match n with
      | Finite _ => Number_toString n
      | _ => "null"
      end
  | VStr s => quote s
  | VArr elements =>
      "[" ++ String.concat ","
        ((fix each (l : list value) : list string :=
            match l with
            | [] => []
            | x :: rest => serialize x :: each rest
            end) elements) ++ "]"
  | VObj fields =>
      "{" ++ String.concat ","
        ((fix each (l : list (string * value)) : list string :=
            match l with
            | [] => []
            | (k, x) :: rest =>
                match x with
                | VUndefined => each rest
                | _ => (quote k ++ ":" ++ serialize x)%string :: each rest
                end
            end) fields) ++ "}"
  end.

(** [JSON.stringify(v)]: [undefined] ([None]) on [undefined]. *)
Definition JSON_stringify (v : value) : option string :=
  match v with
  | VUndefined => None
  | _ => Some (serialize v)
  end.

End Numbers.

(** The characters [encodeURIComponent] leaves alone. *)
Definition uri_unreserved (c : ascii) : bool :=
  Str.is_alnum c || Str.mem c "-_.!~*'()".

(** The characters an encoded component is made of: the unreserved ones
    (the hexadecimal digits among them) and the percent sign. *)
Definition uri_safe (c : ascii) : bool :=
  uri_unreserved c || Ascii.eqb c "%".

(** [encodeURIComponent] on the UTF-8 bytes of the string: every byte outside
    the unreserved set becomes [%XX]. *)
Fixpoint encodeURIComponent (s : string) : string :=
  match s with
  | EmptyString => EmptyString
  | String c rest =>
      (if uri_unreserved c then Str.of_ascii c else "%" ++ Str.hex2 true c)
        ++ encodeURIComponent rest
  end.

End JS.

(** ** A reference [JSON.parse]

    The plugin is verified for every [JSON.parse]; this one, written after
    the JSON grammar, instantiates the general statements on concrete
    responses.  A number is the exact value of its literal: the rounding to
    a double is not modelled. *)

Module Reference.
Import JS.

Definition is_ws (c : ascii) : bool :=
  let n := nat_of_ascii c in
  Nat.eqb n 32 || Nat.eqb n 9 || Nat.eqb n 10 || Nat.eqb n 13.

Fixpoint skip_ws (s : string) : string :=
  match s with
  | String c rest => if is_ws c then skip_ws rest else s
  | EmptyString => s
  end.

Definition digit (c : ascii) : option Z :=
  if Str.in_range 48 57 c then Some (Z.of_nat (nat_of_ascii c - 48)) else None.

Definition hex (c : ascii) : option Z :=
  let n := nat_of_ascii c in
  if Str.in_range 48 57 c then Some (Z.of_nat (n - 48))
  else if Str.in_range 65 70 c then Some (Z.of_nat (n - 55))
  else if Str.in_range 97 102 c then Some (Z.of_nat (n - 87))
  else None.

(** A run of digits: its value continuing [acc], how many there are, and
    what follows. *)
Fixpoint digits (s : string) (acc : Z) (count : nat) : Z * nat * string :=
  match s with
  | String c rest =>
      match digit c with
      | Some v => digits rest (10 * acc + v)%Z (S count)
      | None => (acc, count, s)
      end
  | EmptyString => (acc, count, s)
  end.

(** The value [m * 10^scale]. *)
Definition scaled (m scale : Z) : number :=
  if Z.leb 0 scale then Finite (inject_Z (m * 10 ^ scale))
  else Finite (Qred (Qmake m (Z.to_pos (10 ^ (- scale))))).

Definition exponent (s : string) : option (Z * string) :=
  match s with
  | String c rest =>
      if Ascii.eqb c "e" || Ascii.eqb c "E" then
        let (negative, after) :=
          match rest with
          | String "-"%char r => (true, r)
          | String "+"%char r => (false, r)
          | _ => (false, rest)
          end in
        match digits after 0 0 with
        | (_, O, _) => None
        | (e, _, tail) => Some (if negative then (- e)%Z else e, tail)
        end
      else Some (0%Z, s)
  | EmptyString => Some (0%Z, s)
  end.

Definition fraction (s : string) (whole : Z) : option (Z * nat * string) :=
  match s with
  | String "."%char rest =>
      match digits rest whole 0 with
      | (_, O, _) => None
      | found => Some found
      end
  | _ => Some (whole, O, s)
  end.

Definition parse_number (s : string) : option (number * string) :=
  let (negative, unsigned) :=
    match s with
    | String "-"%char r => (true, r)
    | _ => (false, s)
    end in
  let whole :=
    match unsigned with
    | String "0"%char r => Some (0%Z, r)
    | _ =>
        match digits unsigned 0 0 with
        | (_, O, _) => None
        | (n, _, r) => Some (n, r)
        end
    end in
  match whole with
  | None => None
  | Some (n, r) =>
      match fraction r n with
      | None => None
      | Some (m, k, r') =>
          match exponent r' with
          | None => None
          | Some (e, tail) =>
              Some (scaled (if negative then - m else m) (e - Z.of_nat k),
                    tail)
          end
      end
  end.

Definition byte (z : Z) : ascii := ascii_of_nat (Z.to_nat z).

(** The UTF-8 bytes of a code point. *)
Definition utf8 (cp : Z) : string :=
  if Z.ltb cp 128 then Str.of_ascii (byte cp)
  else if Z.ltb cp 2048 then
    String (byte (192 + cp / 64)) (Str.of_ascii (byte (128 + cp mod 64)))
  else if Z.ltb cp 65536 then
    String (byte (224 + cp / 4096))
      (String (byte (128 + (cp / 64) mod 64))
         (Str.of_ascii (byte (128 + cp mod 64))))
  else
    String (byte (240 + cp / 262144))
      (String (byte (128 + (cp / 4096) mod 64))
         (String (byte (128 + (cp / 64) mod 64))
            (Str.of_ascii (byte (128 + cp mod 64))))).

(** Four hexadecimal digits. *)
Definition hex4 (s : string) : option (Z * string) :=
  match s with
  | String a (String b (String c (String d rest))) =>
      match hex a, hex b, hex c, hex d with
      | Some w, Some x, Some y, Some z =>
          Some (((w * 16 + x) * 16 + y) * 16 + z, rest)%Z
      | _, _, _, _ => None
      end
  | _ => None
  end.

(** The code point of a [\u] escape, joined with the low surrogate that
    follows a high one. *)
Definition unicode_escape (s : string) : option (Z * string) :=
  match hex4 s with
  | None => None
  | Some (hi, rest) =>
      if Z.leb 55296 hi && Z.ltb hi 56320 then
        match rest with
        | String bsl (String "u"%char after) =>
            match hex4 after with
            | Some (lo, tail) =>
                if Nat.eqb (nat_of_ascii bsl) 92
                   && Z.leb 56320 lo && Z.ltb lo 57344 then
                  Some (65536 + (hi - 55296) * 1024 + (lo - 56320), tail)%Z
                else Some (hi, rest)
            | None => Some (hi, rest)
            end
        | _ => Some (hi, rest)
        end
      else Some (hi, rest)
  end.

(** The characters of a string literal after its opening quote, up to the
    closing quote. *)
Fixpoint string_body (fuel : nat) (s : string) : option (string * string) :=
  match fuel with
  | O => None
  | S f =>
      match s with
      | EmptyString => None
      | String c rest =>
          let n := nat_of_ascii c in
          if Nat.eqb n 34 then Some (EmptyString, rest)
          else if Nat.ltb n 32 then None
          else if Nat.eqb n 92 then
            match rest with
            | EmptyString => None
            | String e after =>
                let plain (x : nat) :=
                  match string_body f after with
                  | Some (text, tail) => Some (String (ascii_of_nat x) text, tail)
                  | None => None
                  end in
                let k := nat_of_ascii e in
                if Nat.eqb k 34 then plain 34
                else if Nat.eqb k 92 then plain 92
                else if Nat.eqb k 47 then plain 47
                else if Nat.eqb k 98 then plain 8
                else if Nat.eqb k 102 then plain 12
                else if Nat.eqb k 110 then plain 10
                else if Nat.eqb k 114 then plain 13
                else if Nat.eqb k 116 then plain 9
                else if Nat.eqb k 117 then
                  match unicode_escape after with
                  | Some (cp, tail) =>
                      match string_body f tail with
                      | Some (text, tail') => Some (utf8 cp ++ text, tail')
                      | None => None
                      end
                  | None => None
                  end
                else None
            end
          else
            match string_body f rest with
            | Some (text, tail) => Some (String c text, tail)
            | None => None
            end
      end
  end.

Definition parse_string (s : string) : option (string * string) :=
  string_body (S (String.length s)) s.

(** A field set in an object under construction: a repeated name keeps its
    place and takes the last value. *)
Fixpoint set_field (k : string) (v : value) (fields : list (string * value))
  : list (string * value) :=
  match fields with
  | [] => [(k, v)]
  | (k', v') :: rest =>
      if String.eqb k k' then (k, v) :: rest
      else (k', v') :: set_field k v rest
  end.

Definition literal (word : string) (v : value) (s : string)
  : option (value * string) :=
  if String.prefix word s then
    Some (v, String.substring (String.length word)
               (String.length s - String.length word) s)
  else None.

Fixpoint parse_value (fuel : nat) (s : string) {struct fuel}
  : option (value * string) :=
  match fuel with
  | O => None
  | S f =>
      match skip_ws s with
      | EmptyString => None
      | String c rest =>
          let n := nat_of_ascii c in
          if Nat.eqb n 123 then
            match skip_ws rest with
            | String "}"%char tail => Some (VObj [], tail)
            | _ => parse_members f rest []
            end
          else if Nat.eqb n 91 then
            match skip_ws rest with
            | String "]"%char tail => Some (VArr [], tail)
            | _ => parse_elements f rest []
            end
          else if Nat.eqb n 34 then
            match parse_string rest with
            | Some (text, tail) => Some (VStr text, tail)
            | None => None
            end
          else if Nat.eqb n 116 then literal "true" (VBool true) (String c rest)
          else if Nat.eqb n 102 then
            literal "false" (VBool false) (String c rest)
          else if Nat.eqb n 110 then literal "null" VNull (String c rest)
          else
            match parse_number (String c rest) with
            | Some (x, tail) => Some (VNum x, tail)
            | None => None
            end
      end
  end
with parse_elements (fuel : nat) (s : string) (acc : list value) {struct fuel}
  : option (value * string) :=
  match fuel with
  | O => None
  | S f =>
      match parse_value f s with
      | None => None
      | Some (v, after) =>
          match skip_ws after with
          | String ","%char tail => parse_elements f tail (acc ++ [v])%list
          | String "]"%char tail => Some (VArr (acc ++ [v])%list, tail)
          | _ => None
          end
      end
  end
with parse_members (fuel : nat) (s : string) (acc : list (string * value))
  {struct fuel} : option (value * string) :=
  match fuel with
  | O => None
  | S f =>
      match skip_ws s with
      | String q after =>
          if Nat.eqb (nat_of_ascii q) 34 then
            match parse_string after with
            | None => None
            | Some (k, after_key) =>
                match skip_ws after_key with
                | String ":"%char after_colon =>
                    match parse_value f after_colon with
                    | None => None
                    | Some (v, after_value) =>
                        match skip_ws after_value with
                        | String ","%char tail =>
                            parse_members f tail (set_field k v acc)
                        | String "}"%char tail =>
                            Some (VObj (set_field k v acc), tail)
                        | _ => None
                        end
                    end
                | _ => None
                end
            end
          else None
      | EmptyString => None
      end
  end.

Definition JSON_parse (text : string) : option value :=
  match parse_value (2 * String.length text + 2) text with
  | Some (v, rest) =>
      match skip_ws rest with
      | EmptyString => Some v
      | String _ _ => None
      end
  | None => None
  end.

(** The least number of decimal places, from [k] on and among [fuel] of
    them, at which [n / d] is exact. *)
Fixpoint places (fuel k : nat) (n d : Z) : option nat :=
  match fuel with
  | O => None
  | S f =>
      if Z.eqb ((n * 10 ^ Z.of_nat k) mod d) 0 then Some k
      else places f (S k) n d
  end.

Fixpoint zeros (n : nat) : string :=
  match n with
  | O => EmptyString
  | S m => String "0"%char (zeros m)
  end.

(** A stand-in for the digits of a number that is not an integer: its
    decimal expansion in positional notation when it ends within thirty
    places, and the fraction itself otherwise. *)
Definition fraction_toString (q : Q) : string :=
  let n := Qnum (Qred q) in
  let d := Zpos (Qden (Qred q)) in
  match places 30 0 n d with
  | Some k =>
      let scale := (10 ^ Z.of_nat k)%Z in
      let m := (Z.abs n * scale / d)%Z in
      let digits := Str.of_Z (m mod scale) in
      (if Z.ltb n 0 then "-" else EmptyString)
        ++ Str.of_Z (m / scale) ++ "."
        ++ zeros (k - String.length digits) ++ digits
  | None => Str.of_Z n ++ "/" ++ Str.of_Z d
  end.

End Reference.

(** ** HTTP exchanges on the network *)

Module Wire.

(** Where a request goes: the origin (scheme, host and port, as in
    [https://www.moltbook.com]) and the path with its query. *)
Record Target : Type := { origin : string; path : string }.

Record Request : Type := {
  target : Target;
  method : string;
  headers : list (string * string);
  body : option string
}.

(** An answer: the status, the target of its [Location] header when it has
    one (resolved against the request), and the body. *)
Record Response : Type := {
  status : Z;
  location : option Target;
  payload : string
}.

(** The network as seen by a client: an answer, or none (the host cannot be
    reached, the connection drops). *)
Definition server : Type := Request -> option Response.

Definition same_origin (a b : Target) : bool :=
  String.eqb (origin a) (origin b).

Fixpoint header (name : string) (hs : list (string * string)) : option string :=
  match hs with
  | [] => None
  | (k, v) :: rest => if String.eqb name k then Some v else header name rest
  end.

Definition url (t : Target) : string := origin t ++ path t.

End Wire.

(** ** The host: files *)

Module Host.

(** What the file system holds at a path: nothing, a directory, a regular
    file that cannot be read, or a regular file and its text. *)
Inductive file : Type :=
| NoFile
| Directory
| Unreadable
| File (contents : string).

(** The line feed, as a one-character string. *)
Definition nl : string := String (ascii_of_nat 10) EmptyString.

End Host.

(** ** The plugin: [src/index.ts] *)

Module Index.
Import JS.
Import Host.

(** The base of the [URL] object that [apiRequest] builds and does not
    use; the requests take their host and path prefix from the options of
    [https.request]. *)
Definition BASE_URL : string := "https://www.moltbook.com/api/v1".

(** The process the module is loaded in: [process.env.MOLTBOOK_API_KEY], the
    constant [CONFIG_FILE] (the path [.config/moltbook/credentials.json]
    joined to [process.env.HOME] when the module is loaded) and the file
    system. *)
Record Process : Type := {
  MOLTBOOK_API_KEY : option string;
  CONFIG_FILE : string;
  fs : string -> file
}.

Inductive Method : Type := GET | POST | PATCH | DELETE.

Definition Method_name (m : Method) : string :=
  match m with
  | GET => "GET" | POST => "POST" | PATCH => "PATCH" | DELETE => "DELETE"
  end.

Record RequestOptions : Type := {
  hostname : string;
  path : string;
  method : Method;
  headers : list (string * string)
}.

(** One invocation of [https.request]: its options and what [req.write] put
    in the body before [req.end()] ([None] when nothing was written). *)
Record ClientRequest : Type := {
  options : RequestOptions;
  written : option string
}.

(** What can be thrown, or reject a promise: [new Error(message)], a
    [TypeError] of the runtime, and the error of the [error] event of a
    request (no answer was obtained). *)
Inductive exn : Type :=
| Error (message : string)
| TypeError (message : string)
| NetworkError (code : string).

(** The response handed to the callback: [res.statusCode] and the
    concatenation of the [data] chunks. *)
Record IncomingMessage : Type := {
  statusCode : option Z;
  body : string
}.

(** What an invocation of the transport ends in: the [end] event of a
    response, or a rejection (the [error] event of the request, or an
    exception of [https.request] itself, which refuses for instance a path
    with a space in it). *)
Inductive exchange : Type :=
| Response (res : IncomingMessage)
| Failure (e : exn).

(** The transport answers a request knowing the requests made before it. *)
Definition transport : Type := list ClientRequest -> ClientRequest -> exchange.

Record World : Type := {
  process : Process;
  https_request : transport
}.

Inductive outcome (A : Type) : Type :=
| Return (a : A)
| Throw (e : exn).
Arguments Throw {A} e.

(** An [async] function: it runs in a world, extends the log of transport
    invocations, and returns or throws. *)
Definition M (A : Type) : Type :=
  World -> list ClientRequest -> list ClientRequest * outcome A.

Definition ret {A : Type} (a : A) : M A := fun _ log => (log, Return a).

Definition throw {A : Type} (e : exn) : M A := fun _ log => (log, Throw e).

Definition bind {A B : Type} (c : M A) (k : A -> M B) : M B :=
  fun w log =>
    match c w log with
    | (log', Return a) => k a w log'
    | (log', Throw e) => (log', Throw e)
    end.

Definition lift {A : Type} (f : Process -> outcome A) : M A :=
  fun w log => (log, f (process w)).

(** [https.request(options, callback)], [req.write], [req.end()] and the wait
    for the response: the one place where the network is used. *)
Definition request (req : ClientRequest) : M IncomingMessage :=
  fun w log =>
    ((log ++ [req])%list,
     match https_request w log req with
     | Response res => Return res
     | Failure e => Throw e
     end).

Declare Scope async_scope.
Delimit Scope async_scope with async.
Notation "x <- c ;; k" := (bind c (fun x => k))
  (at level 61, c at next level, right associativity) : async_scope.
Local Open Scope async_scope.

(** Running a function from an empty log. *)
Definition run {A : Type} (c : M A) (w : World) : list ClientRequest * outcome A :=
  c w [].

Definition calls {A : Type} (c : M A) (w : World) : list ClientRequest :=
  fst (run c w).

Definition result {A : Type} (c : M A) (w : World) : outcome A :=
  snd (run c w).

(** An optional string argument as a value: [undefined] when absent. *)
Definition opt_str (o : option string) : value :=
  match o with Some s => VStr s | None => VUndefined end.

(** [new Error(v)]: the message is [String(v)], empty for [undefined]. *)
Definition new_Error (to_s : value -> string) (v : value) : exn :=
  Error (match v with VUndefined => EmptyString | _ => to_s v end).

(** The envelope [apiRequest] resolves to; a field the object literal does
    not set is [undefined]. *)
Record ApiResponse : Type := {
  success : bool;
  data : value;
  error : value
}.

(** *** The option and result interfaces *)

Module DiscoverOptions.
Record t : Type := {
  query : option string;
  limit : option number;
  sort : option string;
  submolt : option string
}.
End DiscoverOptions.

Module DiscoverResult.
Record t : Type := {
  posts : list value;
  agents : value;
  submolts : value;
  total_results : value
}.
End DiscoverResult.

Module ContributeQFOptions.
Record t : Type := {
  pool_id : option string;
  amount : option number
}.
End ContributeQFOptions.

Module JoinPoolOptions.
Record t : Type := { pool_id : option string }.
End JoinPoolOptions.

Module PostUpdateOptions.
Record t : Type := {
  submolt : option string;
  title : option string;
  content : option string;
  url : option string
}.
End PostUpdateOptions.

Module PostUpdateResult.
Record t : Type := {
  success : bool;
  post_id : value;
  submolt : value;
  title : value;
  url : value;
  message : string
}.
End PostUpdateResult.

Section Runtime.

(** [JSON.parse]: the parsed value, or [None] when it throws a
    [SyntaxError]. *)
Variable JSON_parse : string -> option value.

(** See [JS.Number_toString]. *)
Variable fraction_toString : Q -> string.

Local Abbreviation ToString := (JS.ToString fraction_toString).
Local Abbreviation Number_toString := (JS.Number_toString fraction_toString).
Local Abbreviation JSON_stringify := (JS.JSON_stringify fraction_toString).
Local Abbreviation js_add := (JS.js_add fraction_toString).
Local Abbreviation new_Error := (new_Error ToString).

Definition no_api_key_message (p : Process) : string :=
  "No API key found. Set MOLTBOOK_API_KEY environment variable or create "
  ++ CONFIG_FILE p
  ++ " with {" ++ Str.dq ++ "api_key" ++ Str.dq ++ ": "
  ++ Str.dq ++ "your_key_here" ++ Str.dq ++ "}".

(** The [try] block of [getApiKey]: [Some k] when it returns [k], [None] when
    it falls through or an exception reaches the [catch]. *)
Definition config_api_key (p : Process) : option value :=
  match fs p (CONFIG_FILE p) with
  | NoFile => None
  | Directory | Unreadable => None
  | File contents =>
      match JSON_parse contents with
      | None => None
      | Some config =>
          match get_prop "api_key" config with
          | None => None
          | Some k => if truthy k then Some k else None
          end
      end
  end.

Definition getApiKey (p : Process) : outcome value :=
  if truthy (opt_str (MOLTBOOK_API_KEY p)) then
    Return (opt_str (MOLTBOOK_API_KEY p))
  else
    match config_api_key p with
    | Some k => Return k
    | None => Throw (Error (no_api_key_message p))
    end.

Definition status_2xx (statusCode : option Z) : bool :=
  match statusCode with
  | Some s => negb (Z.eqb s 0) && Z.leb 200 s && Z.ltb s 300
  | None => false
  end.

Definition parse_failure : ApiResponse :=
  {| success := false; data := VUndefined;
     error := VStr "Failed to parse response" |}.

(** [parsed.error || parsed.message || 'Request failed']; [None] when reading
    a property of [parsed] throws. *)
Definition error_of (parsed : value) : option value :=
  match get_prop "error" parsed with
  | None => None
  | Some e =>
      if truthy e then Some e
      else
        match get_prop "message" parsed with
        | None => None
        | Some m => Some (or_else m (VStr "Request failed"))
        end
  end.

(** The [end] handler of the response. *)
Definition on_end (res : IncomingMessage) : ApiResponse :=
  match JSON_parse (body res) with
  | None => parse_failure
  | Some parsed =>
      if status_2xx (statusCode res) then
        {| success := true; data := parsed; error := VUndefined |}
      else
        match error_of parsed with
        | Some e => {| success := false; data := VUndefined; error := e |}
        | None => parse_failure
        end
  end.

Definition request_headers (apiKey : value) : list (string * string) :=
  [ ("Authorization", ("Bearer " ++ ToString apiKey)%string);
    ("Content-Type", "application/json");
    ("User-Agent", "OpenClaw-Moltbook-Skill/1.0.0") ].

(** [apiRequest(method, endpoint, data)]; [data] is [undefined] when the
    argument is left out.  [client_request] is the request it makes: the
    options of [https.request] and the body [req.write] sends when [data] is
    truthy.  The [URL] object the source builds first is never used and is
    left out. *)
Definition client_request (apiKey : value) (method : Method)
  (endpoint : string) (data : value) : ClientRequest :=
  {| options := {| hostname := "www.moltbook.com";
                  path := "/api/v1" ++ endpoint;
                  method := method;
                  headers := request_headers apiKey |};
     written := if truthy data then JSON_stringify data else None |}.

Definition apiRequest (method : Method) (endpoint : string) (data : value)
  : M ApiResponse :=
  apiKey <- lift getApiKey ;;
  res <- request (client_request apiKey method endpoint data) ;;
  ret (on_end res).

(** *** The actions *)

Definition default {A : Type} (o : option A) (d : A) : A :=
  match o with Some x => x | None => d end.

(** [if (!result.success) throw new Error(result.error || fallback)]. *)
Definition failed (r : ApiResponse) (fallback : string) : exn :=
  new_Error (or_else (error r) (VStr fallback)).

Definition discover_opportunities (options : DiscoverOptions.t)
  : M DiscoverResult.t :=
  let query := opt_str (DiscoverOptions.query options) in
  let limit := default (DiscoverOptions.limit options) (of_Z 25) in
  let sort := default (DiscoverOptions.sort options) "hot" in
  let submolt := opt_str (DiscoverOptions.submolt options) in
  searchResult <- apiRequest GET
    ("/search?q=" ++ encodeURIComponent (ToString query)
       ++ "&limit=" ++ Number_toString limit) VUndefined ;;
  if negb (success searchResult) || negb (truthy (data searchResult)) then
    throw (failed searchResult "Failed to search")
  else
    submoltPosts <-
      (if truthy submolt then
         submoltResult <- apiRequest GET
           ("/submolts/" ++ ToString submolt ++ "/posts?sort=" ++ sort
              ++ "&limit=" ++ Number_toString limit) VUndefined ;;
         ret (if success submoltResult && truthy (data submoltResult) then
                or_else (get_prop_opt "posts" (data submoltResult)) (VArr [])
              else VArr [])
       else ret (VArr [])) ;;
    let found := data searchResult in
    match spread (or_else (get_prop_opt "posts" found) (VArr [])),
          spread submoltPosts with
    | Some searched, Some scoped =>
        ret {| DiscoverResult.posts := (searched ++ scoped)%list;
               DiscoverResult.agents :=
                 or_else (get_prop_opt "agents" found) (VArr []);
               DiscoverResult.submolts :=
                 or_else (get_prop_opt "submolts" found) (VArr []);
               DiscoverResult.total_results :=
                 js_add
                   (js_add
                      (or_else (length_opt (get_prop_opt "posts" found))
                         (VNum (of_Z 0)))
                      (or_else (length_opt (get_prop_opt "agents" found))
                         (VNum (of_Z 0))))
                   (or_else (length_opt (get_prop_opt "submolts" found))
                      (VNum (of_Z 0))) |}
    | _, _ => throw (TypeError "object is not iterable")
    end.

Definition contribute_qf (options : ContributeQFOptions.t) : M value :=
  let pool_id := opt_str (ContributeQFOptions.pool_id options) in
  if negb (truthy pool_id) then throw (Error "pool_id is required")
  else
    match ContributeQFOptions.amount options with
    | None => throw (Error "amount must be a positive number")
    | Some amount =>
        if negb (number_truthy amount) || number_le0 amount then
          throw (Error "amount must be a positive number")
        else
          result <- apiRequest POST
            ("/qf/pools/" ++ ToString pool_id ++ "/contribute")
            (VObj [("amount", VNum amount)]) ;;
          if negb (success result) then
            throw (failed result "Failed to contribute to QF pool")
          else
            ret (or_else (data result)
                   (VObj [ ("success", VBool true);
                           ("pool_id", pool_id);
                           ("amount_contributed", VNum amount);
                           ("new_total", VNum amount);
                           ("matching_multiplier", VNum (of_Z 1));
                           ("message", VStr "Contribution successful") ]))
    end.

Definition list_qf_pools : M value :=
  result <- apiRequest GET "/qf/pools" VUndefined ;;
  if negb (success result) then throw (failed result "Failed to list QF pools")
  else ret (or_else (get_prop_opt "pools" (data result)) (VArr [])).

Definition get_qf_pool (pool_id : string) : M value :=
  result <- apiRequest GET ("/qf/pools/" ++ pool_id) VUndefined ;;
  if negb (success result) || negb (truthy (data result)) then
    throw (failed result "Failed to get QF pool details")
  else ret (data result).

Definition join_pool (options : JoinPoolOptions.t) : M value :=
  let pool_id := opt_str (JoinPoolOptions.pool_id options) in
  if negb (truthy pool_id) then throw (Error "pool_id is required")
  else
    result <- apiRequest POST ("/pools/" ++ ToString pool_id ++ "/join")
      (VObj []) ;;
    if negb (success result) then throw (failed result "Failed to join pool")
    else
      ret (or_else (data result)
             (VObj [ ("success", VBool true);
                     ("pool_id", pool_id);
                     ("pool_name", VStr "Unknown");
                     ("member_count", VNum (of_Z 1));
                     ("message", VStr "Successfully joined pool") ])).

Definition leave_pool (pool_id : string) : M value :=
  result <- apiRequest DELETE ("/pools/" ++ pool_id ++ "/leave") VUndefined ;;
  if negb (success result) then throw (failed result "Failed to leave pool")
  else
    ret (or_else (data result)
           (VObj [ ("success", VBool true);
                   ("message", VStr "Left pool successfully") ])).

Definition list_joined_pools : M value :=
  result <- apiRequest GET "/pools/joined" VUndefined ;;
  if negb (success result) then
    throw (failed result "Failed to list joined pools")
  else ret (or_else (get_prop_opt "pools" (data result)) (VArr [])).

(** The object [postData] of [post_update]: [submolt] and [title], then
    [content] and [url] when they are truthy. *)
Definition postData (submolt title content url : value)
  : list (string * value) :=
  ([("submolt", submolt); ("title", title)]
     ++ (if truthy content then [("content", content)] else [])
     ++ (if truthy url then [("url", url)] else []))%list.

Definition post_update (options : PostUpdateOptions.t)
  : M PostUpdateResult.t :=
  let submolt := opt_str (PostUpdateOptions.submolt options) in
  let title := opt_str (PostUpdateOptions.title options) in
  let content := opt_str (PostUpdateOptions.content options) in
  let url := opt_str (PostUpdateOptions.url options) in
  if negb (truthy submolt) then throw (Error "submolt is required")
  else if negb (truthy title) then throw (Error "title is required")
  else if negb (truthy content) && negb (truthy url) then
    throw (Error "Either content or url is required")
  else
    result <- apiRequest POST "/posts"
      (VObj (postData submolt title content url)) ;;
    if negb (success result) then
      throw (failed result "Failed to create post")
    else
      ret {| PostUpdateResult.success := true;
             PostUpdateResult.post_id :=
               or_else (get_prop_opt "id" (data result)) (VStr EmptyString);
             PostUpdateResult.submolt := submolt;
             PostUpdateResult.title := title;
             PostUpdateResult.url :=
               or_else (get_prop_opt "url" (data result))
                 (VStr ("https://www.moltbook.com/m/" ++ ToString submolt
                          ++ "/posts/"
                          ++ ToString (get_prop_opt "id" (data result))));
             PostUpdateResult.message := "Post created successfully" |}.

Definition add_comment (post_id content : string) (parent_id : option string)
  : M value :=
  let comment :=
    ([("content", VStr content)]
       ++ (if truthy (opt_str parent_id) then
             [("parent_id", opt_str parent_id)]
           else []))%list in
  result <- apiRequest POST ("/posts/" ++ post_id ++ "/comments")
    (VObj comment) ;;
  if negb (success result) then throw (failed result "Failed to add comment")
  else
    ret (VObj [ ("success", VBool true);
                ("comment_id",
                 or_else (get_prop_opt "id" (data result))
                   (VStr EmptyString)) ]).

(** The four actions that post an empty object and return
    [{ success: true }]. *)
Definition post_empty (endpoint fallback : string) : M value :=
  result <- apiRequest POST endpoint (VObj []) ;;
  if negb (success result) then throw (failed result fallback)
  else ret (VObj [("success", VBool true)]).

Definition upvote_post (post_id : string) : M value :=
  post_empty ("/posts/" ++ post_id ++ "/upvote") "Failed to upvote post".

Definition downvote_post (post_id : string) : M value :=
  post_empty ("/posts/" ++ post_id ++ "/downvote") "Failed to downvote post".

Definition subscribe_submolt (submolt_name : string) : M value :=
  post_empty ("/submolts/" ++ submolt_name ++ "/subscribe")
    "Failed to subscribe to submolt".

Definition get_profile : M value :=
  result <- apiRequest GET "/agents/me" VUndefined ;;
  if negb (success result) || negb (truthy (data result)) then
    throw (failed result "Failed to get profile")
  else ret (data result).

Definition get_status : M value :=
  result <- apiRequest GET "/agents/status" VUndefined ;;
  if negb (success result) || negb (truthy (data result)) then
    throw (failed result "Failed to get status")
  else ret (data result).

Definition get_feed (sort : option string) (limit : option number)
  (submolt : option string) : M value :=
  let sort := default sort "hot" in
  let limit := default limit (of_Z 25) in
  let endpoint :=
    if truthy (opt_str submolt) then
      "/submolts/" ++ ToString (opt_str submolt) ++ "/posts?sort=" ++ sort
        ++ "&limit=" ++ Number_toString limit
    else "/posts?sort=" ++ sort ++ "&limit=" ++ Number_toString limit in
  result <- apiRequest GET endpoint VUndefined ;;
  if negb (success result) then throw (failed result "Failed to get feed")
  else
    match data result with
    | VArr _ => ret (data result)
    | _ => ret (or_else (get_prop_opt "posts" (data result)) (VArr []))
    end.

End Runtime.

(** *** Notions used in the statements *)

(** An optional string that is absent or empty. *)
Definition absent_or_empty (o : option string) : Prop :=
  o = None \/ o = Some EmptyString.

(** The configuration file yields no credential: there is no file, or it
    cannot be read, or its text does not parse, or the parsed value has no
    truthy [api_key]. *)
Inductive no_file_credential (JSON_parse : string -> option value)
  (p : Process) : Prop :=
| file_missing : fs p (CONFIG_FILE p) = NoFile -> no_file_credential JSON_parse p
| file_is_directory :
    fs p (CONFIG_FILE p) = Directory -> no_file_credential JSON_parse p
| file_unreadable :
    fs p (CONFIG_FILE p) = Unreadable -> no_file_credential JSON_parse p
| file_unparseable contents :
    fs p (CONFIG_FILE p) = File contents ->
    JSON_parse contents = None ->
    no_file_credential JSON_parse p
| file_without_key contents config :
    fs p (CONFIG_FILE p) = File contents ->
    JSON_parse contents = Some config ->
    truthy (get_prop_opt "api_key" config) = false ->
    no_file_credential JSON_parse p.

(** An optional string argument that was supplied: present and not
    empty. *)
Definition supplied (o : option string) : bool :=
  match o with
  | Some (String _ _) => true
  | _ => false
  end.

(** The field an argument contributes to a JSON object when it was
    supplied. *)
Definition supplied_field (name : string) (o : option string)
  : list (string * value) :=
  if supplied o then
    match o with Some text => [(name, VStr text)] | None => [] end
  else [].

(** Every request a function hands to the transport satisfies [P]: from any
    log, it extends the log by requests that satisfy [P]. *)
Definition sends {A : Type} (P : ClientRequest -> Prop) (c : M A) : Prop :=
  forall w log, exists extra out,
    c w log = ((log ++ extra)%list, out) /\ Forall P extra.

(** A request without a body. *)
Definition bodiless (r : ClientRequest) : Prop := written r = None.

(** A GET request without a body. *)
Definition bodiless_get (r : ClientRequest) : Prop :=
  method (options r) = GET /\ bodiless r.

(** The field [k] of a response is an array of [n] elements, or is absent
    or [null] and [n] is zero: the declared type of the list fields of a
    search response, each of which the code guards with [|| []]. *)
Definition list_field (k : string) (found : value) (n : nat) : Prop :=
  (exists l, get_prop_opt k found = VArr l /\ List.length l = n)
  \/ ((get_prop_opt k found = VUndefined \/ get_prop_opt k found = VNull)
      /\ n = O).

(** *** The transport of the runtime *)

(** The exchange of a request that is sent.  The path and the values of the
    headers are the strings given to [https.request], which writes them to
    the connection in Latin-1. *)
Definition wire_of (req : ClientRequest) : Wire.Request :=
  {| Wire.target :=
       {| Wire.origin := "https://" ++ hostname (options req);
          Wire.path := path (options req) |};
     Wire.method := Method_name (method (options req));
     Wire.headers := headers (options req);
     Wire.body := written req |}.

(** A character that [https.request] refuses in a path: one outside
    U+0021..U+00FF.  In the UTF-8 bytes of the string that is a byte up to
    the space, or the first byte of a code point above U+00FF. *)
Definition unescaped (c : ascii) : bool :=
  Nat.leb (nat_of_ascii c) 32 || Nat.leb 196 (nat_of_ascii c).

(** A character that it refuses in the value of a header: a control
    character other than the tab, or one above U+00FF. *)
Definition invalid_header_char (c : ascii) : bool :=
  (Nat.ltb (nat_of_ascii c) 32 && negb (Nat.eqb (nat_of_ascii c) 9))
  || Nat.eqb (nat_of_ascii c) 127
  || Nat.leb 196 (nat_of_ascii c).

(** The exception [https.request] throws before anything is sent, when it
    refuses the options: the path is tested first, then the value of each
    header.  Thrown inside the promise of [apiRequest], it rejects the
    promise. *)
Definition refusal (req : ClientRequest) : option exn :=
  if negb (Str.forallb (fun c => negb (unescaped c)) (path (options req)))
  then Some (TypeError "Request path contains unescaped characters")
  else
    match
      find (fun h => negb (Str.forallb (fun c => negb (invalid_header_char c))
                             (snd h)))
        (headers (options req))
    with
    | Some h =>
        Some (TypeError ("Invalid character in header content ["
                           ++ Str.dq ++ fst h ++ Str.dq ++ "]"))
    | None => None
    end.

(** [https.request] against a network.  A request it refuses is not sent.
    Otherwise there is one exchange, whose response goes to the callback
    whatever its status: the module has no redirect handling, a [Location]
    header is not looked at. *)
Definition node_https (srv : Wire.server) : transport :=
  fun _ req =>
    match refusal req with
    | Some e => Failure e
    | None =>
        match srv (wire_of req) with
        | Some r =>
            Response {| statusCode := Some (Wire.status r);
                        body := Wire.payload r |}
        | None => Failure (NetworkError "ECONNRESET")
        end
    end.

(** The exchanges a run of the plugin puts on the network: one for each
    invocation of [https.request] that was not refused. *)
Definition exchanges (log : list ClientRequest) : list Wire.Request :=
  map wire_of
    (filter (fun req => match refusal req with None => true | Some _ => false end)
       log).

End Index.

(** ** The shell client: [scripts/moltbook.sh] *)

Module Script.
Import Host.

Definition BASE_URL : string := "https://www.moltbook.com/api/v1".

(** *** The shell's own mechanisms *)

(** An option word of the [echo] builtin: a dash and one or more of the
    letters [n], [e], [E]. *)
Definition is_echo_option (s : string) : bool :=
  match s with
  | String "-"%char (String c rest) =>
      Str.forallb (fun x => Str.mem x "neE") (String c rest)
  | _ => false
  end.

(** What [echo "$x"] writes: the word and a line feed, unless the word is
    taken for options. *)
Definition echo (x : string) : string :=
  if is_echo_option x then
    (if Str.mem "n"%char x then EmptyString else nl)
  else x ++ nl.

Fixpoint strip_trailing_newlines (s : string) : string :=
  match s with
  | EmptyString => EmptyString
  | String c rest =>
      match strip_trailing_newlines rest with
      | EmptyString =>
          if Ascii.eqb c (ascii_of_nat 10) then EmptyString
          else Str.of_ascii c
      | kept => String c kept
      end
  end.

(** [$(command)]: the output of the command without its trailing line
    feeds. *)
Definition command_subst (stdout : string) : string :=
  strip_trailing_newlines stdout.

Fixpoint ends_with_newline (s : string) : bool :=
  match s with
  | EmptyString => false
  | String c EmptyString => Ascii.eqb c (ascii_of_nat 10)
  | String _ rest => ends_with_newline rest
  end.

(** A word that [echo] prints as it is and [$(...)] gives back whole: not an
    option word of [echo], and not ending in a line feed. *)
Definition plain_word (s : string) : bool :=
  negb (is_echo_option s) && negb (ends_with_newline s).

(** The environment of a run: [$MOLTBOOK_API_KEY] and [$HOME] (empty when
    unset) and the file system. *)
Record Env : Type := {
  MOLTBOOK_API_KEY : string;
  HOME : string;
  fs : string -> file
}.

Definition CONFIG_FILE (env : Env) : string :=
  HOME env ++ "/.config/moltbook/credentials.json".

(** [[ -f path ]]. *)
Definition is_regular_file (f : file) : bool :=
  match f with
  | Unreadable | File _ => true
  | NoFile | Directory => false
  end.

(** One invocation of [curl -s --location-trusted -X method url -H ... -H ...]
    with [-d data] when [data] is given. *)
Record curl : Type := {
  silent : bool;
  location_trusted : bool;
  X : string;
  url : string;
  H : list (string * string);
  d : option string
}.

(** What a run of the script does: it prints and exits, or it prints, runs
    one [curl] and pipes its output through [jq .]. *)
Inductive run : Type :=
| Exit (stdout : string) (status : Z)
| Request (stdout : string) (invocation : curl).

Section Commands.

(** The three uses of [jq] are parameters: [jq -r '.api_key // empty' file]
    (output and exit status), [jq -sRr @uri] on its input, and
    [jq -n --arg name value ... filter] (output, empty when [jq] fails). *)
Variable jq_api_key : file -> string * Z.
Variable jq_uri : string -> string.
Variable jq_n : list (string * string) -> string -> string.

(** The text of the here-document of [show_help]. *)
Variable help_text : string.

(** [get_api_key]: its output and exit status. *)
Definition get_api_key (env : Env) : string * Z :=
  if negb (Str.is_empty (MOLTBOOK_API_KEY env)) then
    (echo (MOLTBOOK_API_KEY env), 0%Z)
  else if is_regular_file (fs env (CONFIG_FILE env)) then
    jq_api_key (fs env (CONFIG_FILE env))
  else (echo EmptyString, 0%Z).

Variable env : Env.

(** [API_KEY=$(get_api_key)], once the assignment has succeeded. *)
Definition API_KEY : string := command_subst (fst (get_api_key env)).

Definition auth_error : string :=
  echo "Error: No API key found."
  ++ echo ("Set MOLTBOOK_API_KEY environment variable or create "
             ++ CONFIG_FILE env)
  ++ echo EmptyString
  ++ echo "To get an API key, register your agent:"
  ++ echo ("  curl -X POST " ++ BASE_URL ++ "/agents/register " ++ Str.bs)
  ++ echo ("    -H 'Content-Type: application/json' " ++ Str.bs)
  ++ echo ("    -d '{" ++ Str.dq ++ "name" ++ Str.dq ++ ": " ++ Str.dq
             ++ "YourAgentName" ++ Str.dq ++ ", " ++ Str.dq ++ "description"
             ++ Str.dq ++ ": " ++ Str.dq ++ "What your agent does" ++ Str.dq
             ++ "}'").

(** [check_auth], followed by the rest of the command. *)
Definition check_auth (rest : run) : run :=
  if Str.is_empty API_KEY then Exit auth_error 1 else rest.

(** [api_request method endpoint data]; an empty [data] stands for a missing
    third argument. *)
Definition api_request (method endpoint data : string) : curl :=
  {| silent := true;
     location_trusted := true;
     X := method;
     url := BASE_URL ++ endpoint;
     H := [ ("Authorization", "Bearer " ++ API_KEY);
            ("Content-Type", "application/json") ];
     d := if negb (Str.is_empty data) then Some data else None |}.

(** The test that opens most commands: a usage line and exit status 1 when
    one of the arguments is empty. *)
Definition require (args : list string) (usage : string) (rest : run) : run :=
  if existsb Str.is_empty args then Exit (echo usage) 1 else rest.

(** [local data=$(jq -n --arg ... filter)]. *)
Definition jq_data (args : list (string * string)) (filter : string) : string :=
  command_subst (jq_n args filter).

Definition uri (s : string) : string := command_subst (jq_uri (echo s)).

Definition cmd_discover (query : string) : run :=
  require [query] "Usage: moltbook.sh discover <query>"
    (check_auth
       (Request (echo ("Searching for: " ++ query))
          (api_request "GET" ("/search?q=" ++ uri query ++ "&limit=25")
             EmptyString))).

Definition cmd_search (query : string) : run :=
  require [query] "Usage: moltbook.sh search <query>"
    (check_auth
       (Request EmptyString
          (api_request "GET" ("/search?q=" ++ uri query ++ "&limit=25")
             EmptyString))).

Definition cmd_feed (sort submolt : string) : run :=
  let sort := if Str.is_empty sort then "hot" else sort in
  check_auth
    (Request EmptyString
       (api_request "GET"
          (if negb (Str.is_empty submolt) then
             "/submolts/" ++ submolt ++ "/posts?sort=" ++ sort ++ "&limit=25"
           else "/posts?sort=" ++ sort ++ "&limit=25")
          EmptyString)).

Definition cmd_qf_list : run :=
  check_auth
    (Request (echo "Fetching QF pools...")
       (api_request "GET" "/qf/pools" EmptyString)).

Definition cmd_qf_info (pool_id : string) : run :=
  require [pool_id] "Usage: moltbook.sh qf_info <pool_id>"
    (check_auth
       (Request EmptyString
          (api_request "GET" ("/qf/pools/" ++ pool_id) EmptyString))).

Definition cmd_qf_contribute (pool_id amount : string) : run :=
  require [pool_id; amount] "Usage: moltbook.sh qf_contribute <pool_id> <amount>"
    (check_auth
       (Request EmptyString
          (api_request "POST" ("/qf/pools/" ++ pool_id ++ "/contribute")
             (jq_data [("amt", amount)] "{amount: ($amt | tonumber)}")))).

Definition cmd_pool_join (pool_id : string) : run :=
  require [pool_id] "Usage: moltbook.sh pool_join <pool_id>"
    (check_auth
       (Request EmptyString
          (api_request "POST" ("/pools/" ++ pool_id ++ "/join") "{}"))).

Definition cmd_pool_list : run :=
  check_auth
    (Request EmptyString (api_request "GET" "/pools/joined" EmptyString)).

Definition cmd_pool_leave (pool_id : string) : run :=
  require [pool_id] "Usage: moltbook.sh pool_leave <pool_id>"
    (check_auth
       (Request EmptyString
          (api_request "DELETE" ("/pools/" ++ pool_id ++ "/leave")
             EmptyString))).

Definition cmd_post (submolt title content : string) : run :=
  require [submolt; title; content]
    "Usage: moltbook.sh post <submolt> <title> <content>"
    (check_auth
       (Request EmptyString
          (api_request "POST" "/posts"
             (jq_data
                [("submolt", submolt); ("title", title); ("content", content)]
                "{submolt: $submolt, title: $title, content: $content}")))).

Definition cmd_post_link (submolt title link : string) : run :=
  require [submolt; title; link]
    "Usage: moltbook.sh post_link <submolt> <title> <url>"
    (check_auth
       (Request EmptyString
          (api_request "POST" "/posts"
             (jq_data [("submolt", submolt); ("title", title); ("url", link)]
                "{submolt: $submolt, title: $title, url: $url}")))).

Definition cmd_comment (post_id content : string) : run :=
  require [post_id; content] "Usage: moltbook.sh comment <post_id> <content>"
    (check_auth
       (Request EmptyString
          (api_request "POST" ("/posts/" ++ post_id ++ "/comments")
             (jq_data [("content", content)] "{content: $content}")))).

Definition cmd_reply (post_id parent_id content : string) : run :=
  require [post_id; parent_id; content]
    "Usage: moltbook.sh reply <post_id> <parent_id> <content>"
    (check_auth
       (Request EmptyString
          (api_request "POST" ("/posts/" ++ post_id ++ "/comments")
             (jq_data [("content", content); ("parent", parent_id)]
                "{content: $content, parent_id: $parent}")))).

Definition cmd_upvote (post_id : string) : run :=
  require [post_id] "Usage: moltbook.sh upvote <post_id>"
    (check_auth
       (Request EmptyString
          (api_request "POST" ("/posts/" ++ post_id ++ "/upvote") "{}"))).

Definition cmd_downvote (post_id : string) : run :=
  require [post_id] "Usage: moltbook.sh downvote <post_id>"
    (check_auth
       (Request EmptyString
          (api_request "POST" ("/posts/" ++ post_id ++ "/downvote") "{}"))).

Definition cmd_submolts : run :=
  check_auth
    (Request EmptyString (api_request "GET" "/submolts" EmptyString)).

Definition cmd_submolt_info (name : string) : run :=
  require [name] "Usage: moltbook.sh submolt_info <name>"
    (check_auth
       (Request EmptyString
          (api_request "GET" ("/submolts/" ++ name) EmptyString))).

Definition cmd_submolt_create (name description : string) : run :=
  require [name; description]
    "Usage: moltbook.sh submolt_create <name> <description>"
    (check_auth
       (Request EmptyString
          (api_request "POST" "/submolts"
             (jq_data [("name", name); ("desc", description)]
                "{name: $name, description: $desc}")))).

Definition cmd_subscribe (name : string) : run :=
  require [name] "Usage: moltbook.sh subscribe <submolt_name>"
    (check_auth
       (Request EmptyString
          (api_request "POST" ("/submolts/" ++ name ++ "/subscribe") "{}"))).

Definition cmd_unsubscribe (name : string) : run :=
  require [name] "Usage: moltbook.sh unsubscribe <submolt_name>"
    (check_auth
       (Request EmptyString
          (api_request "DELETE" ("/submolts/" ++ name ++ "/subscribe")
             EmptyString))).

Definition cmd_status : run :=
  check_auth
    (Request EmptyString (api_request "GET" "/agents/status" EmptyString)).

Definition cmd_profile : run :=
  check_auth
    (Request EmptyString (api_request "GET" "/agents/me" EmptyString)).

Definition cmd_profile_update (description : string) : run :=
  require [description] "Usage: moltbook.sh profile_update <description>"
    (check_auth
       (Request EmptyString
          (api_request "PATCH" "/agents/me"
             (jq_data [("desc", description)] "{description: $desc}")))).

Definition cmd_follow (agent_name : string) : run :=
  require [agent_name] "Usage: moltbook.sh follow <agent_name>"
    (check_auth
       (Request EmptyString
          (api_request "POST" ("/agents/" ++ agent_name ++ "/follow") "{}"))).

Definition cmd_unfollow (agent_name : string) : run :=
  require [agent_name] "Usage: moltbook.sh unfollow <agent_name>"
    (check_auth
       (Request EmptyString
          (api_request "DELETE" ("/agents/" ++ agent_name ++ "/follow")
             EmptyString))).

Definition cmd_agent_info (agent_name : string) : run :=
  require [agent_name] "Usage: moltbook.sh agent_info <agent_name>"
    (check_auth
       (Request EmptyString
          (api_request "GET" ("/agents/profile?name=" ++ agent_name)
             EmptyString))).

Definition show_help : run := Exit help_text 0.

(** The positional parameter [$n] of the script; empty when it is not
    given. *)
Definition arg (n : nat) (argv : list string) : string :=
  nth (n - 1) argv EmptyString.

(** The script from its first line: the assignment of [API_KEY] (under
    [set -e] a failing [get_api_key] ends the script there) and the command
    router. *)
Definition main (argv : list string) : run :=
  if negb (Z.eqb (snd (get_api_key env)) 0) then
    Exit EmptyString (snd (get_api_key env))
  else
    let a := fun n => arg n argv in
    let command := if Str.is_empty (a 1) then "help" else a 1 in
    if String.eqb command "discover" then cmd_discover (a 2)
    else if String.eqb command "search" then cmd_search (a 2)
    else if String.eqb command "feed" then cmd_feed (a 2) (a 3)
    else if String.eqb command "qf_list" then cmd_qf_list
    else if String.eqb command "qf_info" then cmd_qf_info (a 2)
    else if String.eqb command "qf_contribute" then
      cmd_qf_contribute (a 2) (a 3)
    else if String.eqb command "pool_join" then cmd_pool_join (a 2)
    else if String.eqb command "pool_list" then cmd_pool_list
    else if String.eqb command "pool_leave" then cmd_pool_leave (a 2)
    else if String.eqb command "post" then cmd_post (a 2) (a 3) (a 4)
    else if String.eqb command "post_link" then
      cmd_post_link (a 2) (a 3) (a 4)
    else if String.eqb command "comment" then cmd_comment (a 2) (a 3)
    else if String.eqb command "reply" then cmd_reply (a 2) (a 3) (a 4)
    else if String.eqb command "upvote" then cmd_upvote (a 2)
    else if String.eqb command "downvote" then cmd_downvote (a 2)
    else if String.eqb command "submolts" then cmd_submolts
    else if String.eqb command "submolt_info" then cmd_submolt_info (a 2)
    else if String.eqb command "submolt_create" then
      cmd_submolt_create (a 2) (a 3)
    else if String.eqb command "subscribe" then cmd_subscribe (a 2)
    else if String.eqb command "unsubscribe" then cmd_unsubscribe (a 2)
    else if String.eqb command "status" then cmd_status
    else if String.eqb command "profile" then cmd_profile
    else if String.eqb command "profile_update" then
      cmd_profile_update (a 2)
    else if String.eqb command "follow" then cmd_follow (a 2)
    else if String.eqb command "unfollow" then cmd_unfollow (a 2)
    else if String.eqb command "agent_info" then cmd_agent_info (a 2)
    else if String.eqb command "help" || String.eqb command "--help"
            || String.eqb command "-h" then show_help
    else
      Exit (echo ("Unknown command: " ++ a 1)
              ++ echo "Run 'moltbook.sh help' for usage") 1.

End Commands.

(** The commands that take required arguments, with how many each takes
    (the positional parameters [$2], [$3], ...). *)
Definition required_arguments : list (string * nat) :=
  [ ("discover", 1); ("search", 1); ("qf_info", 1); ("qf_contribute", 2);
    ("pool_join", 1); ("pool_leave", 1); ("post", 3); ("post_link", 3);
    ("comment", 2); ("reply", 3); ("upvote", 1); ("downvote", 1);
    ("submolt_info", 1); ("submolt_create", 2); ("subscribe", 1);
    ("unsubscribe", 1); ("profile_update", 1); ("follow", 1);
    ("unfollow", 1); ("agent_info", 1) ]%list.

(** Whether one of the first [n] arguments after the command is empty or
    missing. *)
Definition lacks_argument (n : nat) (argv : list string) : bool :=
  existsb Str.is_empty (map (fun i => arg i argv) (seq 2 n)).

(** *** [curl] *)

(** The authority of a URL, up to the first [/], [?] or [#], and what
    follows it. *)
Fixpoint split_authority (s : string) : string * string :=
  match s with
  | EmptyString => (EmptyString, EmptyString)
  | String c rest =>
      if Str.mem c "/?#" then (EmptyString, s)
      else let (host, tail) := split_authority rest in (String c host, tail)
  end.

(** A URL split after its origin: the scheme, [://] and the authority on one
    side, the path and query on the other. *)
Fixpoint split_url (s : string) : string * string :=
  match s with
  | EmptyString => (EmptyString, EmptyString)
  | String c rest =>
      if String.prefix "://" s then
        let (host, tail) :=
          split_authority (String.substring 3 (String.length s - 3) s) in
        ("://" ++ host, tail)
      else let (scheme, tail) := split_url rest in (String c scheme, tail)
  end.

Definition target_of_url (u : string) : Wire.Target :=
  {| Wire.origin := fst (split_url u); Wire.path := snd (split_url u) |}.

(** The first request of an invocation. *)
Definition first_request (c : curl) : Wire.Request :=
  {| Wire.target := target_of_url (url c);
     Wire.method := X c;
     Wire.headers := H c;
     Wire.body := d c |}.

Definition is_credential_header (h : string * string) : bool :=
  String.eqb (fst h) "Authorization" || String.eqb (fst h) "Cookie".

(** The request that follows a redirect.  The method given with [-X] is used
    on every hop; the body is dropped after a 301, 302 or 303.  With
    [--location-trusted] the headers given with [-H] go to every host; with
    [--location] alone the [Authorization] and [Cookie] headers are kept only
    when the new target has the origin of the request redirected. *)
Definition next_hop (trusted : bool) (req : Wire.Request) (status : Z)
  (to : Wire.Target) : Wire.Request :=
  {| Wire.target := to;
     Wire.method := Wire.method req;
     Wire.headers :=
       if trusted || Wire.same_origin (Wire.target req) to then
         Wire.headers req
       else filter (fun h => negb (is_credential_header h)) (Wire.headers req);
     Wire.body :=
       if Z.eqb status 301 || Z.eqb status 302 || Z.eqb status 303 then None
       else Wire.body req |}.

Definition is_redirect (r : Wire.Response) : option Wire.Target :=
  if Z.leb 300 (Wire.status r) && Z.ltb (Wire.status r) 400 then
    Wire.location r
  else None.

(** Following redirects, at most [redirects] of them: the requests made, in
    order, and the last response ([None] when a host does not answer or the
    limit is passed). *)
Fixpoint follow (trusted : bool) (srv : Wire.server) (redirects : nat)
  (req : Wire.Request) : list Wire.Request * option Wire.Response :=
  match srv req with
  | None => ([req], None)
  | Some r =>
      match is_redirect r with
      | None => ([req], Some r)
      | Some to =>
          match redirects with
          | O => ([req], None)
          | S n =>
              let (hops, last) :=
                follow trusted srv n (next_hop trusted req (Wire.status r) to) in
              (req :: hops, last)
          end
      end
  end.

(** The default of [--max-redirs]. *)
Definition max_redirs : nat := 50.

(** [curl] does not use every argument as it is given.  It refuses a URL
    with a space or a control character; it expands braces and brackets in
    the URL into several URLs; it drops a fragment, removes dot segments
    from the path and percent-encodes the bytes above 127; it reads the body
    from a file when the argument of [-d] starts with [@]; it drops a header
    whose value is empty.  The definitions below single out the invocations
    where none of this applies, with a host in lower case and no port, so
    that two origins are the same exactly when their texts are; [perform]
    describes those invocations only. *)
Definition without_prefix (p s : string) : option string :=
  if String.prefix p s then
    Some (String.substring (String.length p)
            (String.length s - String.length p) s)
  else None.

Definition plain_host_char (c : ascii) : bool :=
  Str.in_range 97 122 c || Str.in_range 48 57 c || Str.mem c "-.".

Definition plain_url_char (c : ascii) : bool :=
  Str.in_range 33 126 c && negb (Str.mem c "{}[]#").

(** What follows the scheme of a plain URL: a host, then a path that starts
    with a slash and has no segment that starts with a dot. *)
Definition plain_after_scheme (s : string) : bool :=
  let (host, tail) := split_authority s in
  negb (Str.is_empty host)
  && Str.forallb plain_host_char host
  && String.prefix "/" tail
  && Str.forallb plain_url_char tail
  && negb (Str.contains "/." tail)
  && negb (Str.contains "/%2e" tail)
  && negb (Str.contains "/%2E" tail).

Definition plain_url (u : string) : bool :=
  match without_prefix "https://" u, without_prefix "http://" u with
  | Some s, _ => plain_after_scheme s
  | None, Some s => plain_after_scheme s
  | None, None => false
  end.

Definition plain_method (m : string) : bool :=
  negb (Str.is_empty m) && Str.forallb (Str.in_range 65 90) m.

Fixpoint ends_with_space (s : string) : bool :=
  match s with
  | EmptyString => false
  | String c EmptyString => Ascii.eqb c " "
  | String _ rest => ends_with_space rest
  end.

(** A header whose value is printable, not empty, and neither starts nor
    ends with a space. *)
Definition plain_header (h : string * string) : bool :=
  negb (Str.is_empty (fst h))
  && Str.forallb (fun c => Str.is_alnum c || Ascii.eqb c "-") (fst h)
  && negb (Str.is_empty (snd h))
  && Str.forallb (Str.in_range 32 126) (snd h)
  && negb (String.prefix " " (snd h))
  && negb (ends_with_space (snd h)).

Definition plain_data (data : option string) : bool :=
  match data with
  | Some text => negb (String.prefix "@" text)
  | None => true
  end.

Definition taken_literally (c : curl) : bool :=
  plain_url (url c) && plain_method (X c) && forallb plain_header (H c)
  && plain_data (d c).

(** The requests of an invocation that is taken literally, and its last
    response; [None] for an invocation that is not. *)
Definition perform (c : curl) (srv : Wire.server)
  : option (list Wire.Request * option Wire.Response) :=
  if taken_literally c then
    Some (follow (location_trusted c) srv max_redirs (first_request c))
  else None.

End Script.

(** ** Sample worlds *)

Module Sample.
Import JS Host.

(** [{"name":"value"}]. *)
Definition object1 (name value : string) : string :=
  "{" ++ Str.dq ++ name ++ Str.dq ++ ":" ++ Str.dq ++ value ++ Str.dq ++ "}".

Definition config_path : string :=
  "/home/agent/.config/moltbook/credentials.json".

(** A process with the key in its environment and another one in its
    configuration file. *)
Definition process_with_key : Index.Process :=
  {| Index.MOLTBOOK_API_KEY := Some "moltbook_sk_env";
     Index.CONFIG_FILE := config_path;
     Index.fs := fun path =>
       if String.eqb path config_path then
         File (object1 "api_key" "moltbook_sk_file")
       else NoFile |}.

(** A process with no key in its environment and the given file at the
    configuration path. *)
Definition process_with_file (f : file) : Index.Process :=
  {| Index.MOLTBOOK_API_KEY := None;
     Index.CONFIG_FILE := config_path;
     Index.fs := fun path => if String.eqb path config_path then f else NoFile |}.

(** A transport that answers every request with one response. *)
Definition answering (status : Z) (text : string) : Index.transport :=
  fun _ _ => Index.Response {| Index.statusCode := Some status;
                               Index.body := text |}.

Definition world (status : Z) (text : string) : Index.World :=
  {| Index.process := process_with_key;
     Index.https_request := answering status text |}.

Definition json (v : value) : string := serialize Reference.fraction_toString v.

(** The answer to a search: one post, no agent, one submolt. *)
Definition search_answer : string :=
  json (VObj [ ("posts", VArr [VObj [("id", VStr "p1")]]);
               ("agents", VArr []);
               ("submolts", VArr [VObj [("name", VStr "automation")]]) ]).

(** The answer to a scoped call: two posts. *)
Definition scoped_answer : string :=
  json (VObj [ ("posts", VArr [ VObj [("id", VStr "p7")];
                                VObj [("id", VStr "p8")] ]) ]).

(** The answer to a contribution, as in the end-to-end scenario of the
    specification. *)
Definition contribution : value :=
  VObj [ ("success", VBool true);
         ("pool_id", VStr "pool123");
         ("amount_contributed", VNum (of_Z 100));
         ("new_total", VNum (of_Z 500));
         ("matching_multiplier", VNum (Finite (5 # 2)));
         ("message", VStr "ok") ].

(** The options of a discovery: a query and nothing else. *)
Definition query_only (q : option string) : Index.DiscoverOptions.t :=
  {| Index.DiscoverOptions.query := q;
     Index.DiscoverOptions.limit := None;
     Index.DiscoverOptions.sort := None;
     Index.DiscoverOptions.submolt := None |}.

(** The headers of every request of [process_with_key]. *)
Definition headers_with_key : list (string * string) :=
  [ ("Authorization", "Bearer moltbook_sk_env");
    ("Content-Type", "application/json");
    ("User-Agent", "OpenClaw-Moltbook-Skill/1.0.0") ].

(** The request of [process_with_key] for a method, a path and a body. *)
Definition sent (m : Index.Method) (path : string) (body : option string)
  : Index.ClientRequest :=
  {| Index.options := {| Index.hostname := "www.moltbook.com";
                         Index.path := path;
                         Index.method := m;
                         Index.headers := headers_with_key |};
     Index.written := body |}.

(** The environment of a run of the script: the key in the variable, no
    configuration file. *)
Definition script_env : Script.Env :=
  {| Script.MOLTBOOK_API_KEY := "moltbook_sk_env";
     Script.HOME := "/home/agent";
     Script.fs := fun _ => NoFile |}.

(** A [jq] that is never asked for the key of the file. *)
Definition no_jq_api_key : file -> string * Z := fun _ => (EmptyString, 2%Z).

(** The headers of every [curl] invocation of the script under
    [script_env]. *)
Definition script_headers : list (string * string) :=
  [ ("Authorization", "Bearer moltbook_sk_env");
    ("Content-Type", "application/json") ].

(** The [curl] invocation of the script under [script_env]. *)
Definition curl_with_key (method url : string) (data : option string)
  : Script.curl :=
  {| Script.silent := true;
     Script.location_trusted := true;
     Script.X := method;
     Script.url := url;
     Script.H := script_headers;
     Script.d := data |}.

Definition moltbook (path : string) : Wire.Target :=
  {| Wire.origin := "https://www.moltbook.com"; Wire.path := path |}.

Definition elsewhere : Wire.Target :=
  {| Wire.origin := "https://evil.example"; Wire.path := "/collect" |}.

(** A network where [/api/v1/agents/me] on the trusted origin redirects to
    [/api/v1/agents/me/] on the same origin, which answers. *)
Definition redirecting_within : Wire.server :=
  fun req =>
    if String.eqb (Wire.path (Wire.target req)) "/api/v1/agents/me" then
      Some {| Wire.status := 301;
              Wire.location := Some (moltbook "/api/v1/agents/me/");
              Wire.payload := EmptyString |}
    else
      Some {| Wire.status := 200; Wire.location := None;
              Wire.payload := object1 "name" "agent" |}.

(** A network where the trusted origin redirects to another host, which
    answers. *)
Definition redirecting_elsewhere : Wire.server :=
  fun req =>
    if String.eqb (Wire.origin (Wire.target req)) "https://www.moltbook.com"
    then
      Some {| Wire.status := 302; Wire.location := Some elsewhere;
              Wire.payload := EmptyString |}
    else
      Some {| Wire.status := 200; Wire.location := None;
              Wire.payload := "{}" |}.

(** The exchange of the plugin, and of the script, for [GET /agents/me]
    under the sample key. *)
Definition get_me (headers : list (string * string)) (t : Wire.Target)
  : Wire.Request :=
  {| Wire.target := t; Wire.method := "GET"; Wire.headers := headers;
     Wire.body := None |}.

End Sample.

(** ** Notions for the statements on whole runs *)

Module Behaviour.
Import JS Index.

(** The actions the module exports (its default export), each with its
    arguments. *)
Inductive call : Type :=
| Discover (options : DiscoverOptions.t)
| ContributeQF (options : ContributeQFOptions.t)
| JoinPool (options : JoinPoolOptions.t)
| PostUpdate (options : PostUpdateOptions.t)
| ListQFPools
| GetQFPool (pool_id : string)
| LeavePool (pool_id : string)
| ListJoinedPools
| AddComment (post_id content : string) (parent_id : option string)
| UpvotePost (post_id : string)
| DownvotePost (post_id : string)
| SubscribeSubmolt (submolt_name : string)
| GetProfile
| GetStatus
| GetFeed (sort : option string) (limit : option number)
    (submolt : option string).

(** A function run for its requests and for whether it throws: its result
    is dropped. *)
Definition void {A : Type} (c : M A) : M unit := bind c (fun _ => ret tt).

Section Runtime.

Variable JSON_parse : string -> option value.
Variable fraction_toString : Q -> string.

(** One exported action, called. *)
Definition invoke (c : call) : M unit :=
  match c with
  | Discover o => void (discover_opportunities JSON_parse fraction_toString o)
  | ContributeQF o => void (contribute_qf JSON_parse fraction_toString o)
  | JoinPool o => void (join_pool JSON_parse fraction_toString o)
  | PostUpdate o => void (post_update JSON_parse fraction_toString o)
  | ListQFPools => void (list_qf_pools JSON_parse fraction_toString)
  | GetQFPool pool => void (get_qf_pool JSON_parse fraction_toString pool)
  | LeavePool pool => void (leave_pool JSON_parse fraction_toString pool)
  | ListJoinedPools => void (list_joined_pools JSON_parse fraction_toString)
  | AddComment post text parent =>
      void (add_comment JSON_parse fraction_toString post text parent)
  | UpvotePost post => void (upvote_post JSON_parse fraction_toString post)
  | DownvotePost post => void (downvote_post JSON_parse fraction_toString post)
  | SubscribeSubmolt name =>
      void (subscribe_submolt JSON_parse fraction_toString name)
  | GetProfile => void (get_profile JSON_parse fraction_toString)
  | GetStatus => void (get_status JSON_parse fraction_toString)
  | GetFeed sort limit submolt =>
      void (get_feed JSON_parse fraction_toString sort limit submolt)
  end.

(** A request as [apiRequest] addresses it in a world: to the host
    [www.moltbook.com], on a path under [/api/v1/], with the three headers
    built from the key the process resolves. *)
Definition well_addressed (w : World) (r : ClientRequest) : Prop :=
  hostname (options r) = "www.moltbook.com"
  /\ String.prefix "/api/v1/" (path (options r)) = true
  /\ exists k,
       getApiKey JSON_parse (process w) = Return k
       /\ headers (options r)
          = [ ("Authorization", "Bearer " ++ JS.ToString fraction_toString k);
              ("Content-Type", "application/json");
              ("User-Agent", "OpenClaw-Moltbook-Skill/1.0.0") ].

(** The two requests of [discover_opportunities]: the search, and the posts
    of the submolt of the options. *)
Definition search_request (apiKey : value) (o : DiscoverOptions.t)
  : ClientRequest :=
  client_request fraction_toString apiKey GET
    ("/search?q="
       ++ encodeURIComponent
            (JS.ToString fraction_toString (opt_str (DiscoverOptions.query o)))
       ++ "&limit="
       ++ JS.Number_toString fraction_toString
            (default (DiscoverOptions.limit o) (of_Z 25)))
    VUndefined.

Definition scoped_request (apiKey : value) (o : DiscoverOptions.t)
  : ClientRequest :=
  client_request fraction_toString apiKey GET
    ("/submolts/"
       ++ JS.ToString fraction_toString (opt_str (DiscoverOptions.submolt o))
       ++ "/posts?sort=" ++ default (DiscoverOptions.sort o) "hot"
       ++ "&limit="
       ++ JS.Number_toString fraction_toString
            (default (DiscoverOptions.limit o) (of_Z 25)))
    VUndefined.

(** The request of [get_feed]. *)
Definition feed_request (apiKey : value) (sort : option string)
  (limit : option number) (submolt : option string) : ClientRequest :=
  client_request fraction_toString apiKey GET
    (if truthy (opt_str submolt) then
       "/submolts/" ++ JS.ToString fraction_toString (opt_str submolt)
         ++ "/posts?sort=" ++ default sort "hot" ++ "&limit="
         ++ JS.Number_toString fraction_toString (default limit (of_Z 25))
     else
       "/posts?sort=" ++ default sort "hot" ++ "&limit="
         ++ JS.Number_toString fraction_toString (default limit (of_Z 25)))
    VUndefined.

End Runtime.

(** Every request a function hands to the transport satisfies [P] in the
    world it runs in. *)
Definition sends_in {A : Type} (P : World -> ClientRequest -> Prop)
  (c : M A) : Prop :=
  forall w log, exists extra out,
    c w log = ((log ++ extra)%list, out) /\ Forall (P w) extra.




(** The value of a hexadecimal digit. *)
Definition hex_value (c : ascii) : option nat :=
  let n := nat_of_ascii c in
  if Str.in_range 48 57 c then Some (n - 48)
  else if Str.in_range 65 70 c then Some (n - 55)
  else if Str.in_range 97 102 c then Some (n - 87)
  else None.

(** Percent-decoding, as the receiver of a URL does it: [%XX] is the byte
    [XX], every other character is itself. *)
Fixpoint percent_decode (s : string) : string :=
  match s with
  | EmptyString => EmptyString
  | String c rest =>
      if Ascii.eqb c "%" then
        match rest with
        | String a (String b tail) =>
            match hex_value a, hex_value b with
            | Some x, Some y =>
                String (ascii_of_nat (16 * x + y)) (percent_decode tail)
            | _, _ => String c (percent_decode rest)
            end
        | _ => String c (percent_decode rest)
        end
      else String c (percent_decode rest)
  end.

(** The words the command router of the script knows. *)
Definition known_commands : list string :=
  [ "discover"; "search"; "feed"; "qf_list"; "qf_info"; "qf_contribute";
    "pool_join"; "pool_list"; "pool_leave"; "post"; "post_link"; "comment";
    "reply"; "upvote"; "downvote"; "submolts"; "submolt_info";
    "submolt_create"; "subscribe"; "unsubscribe"; "status"; "profile";
    "profile_update"; "follow"; "unfollow"; "agent_info"; "help"; "--help";
    "-h" ]%list.

(** The commands of the script that use the network and take no required
    argument. *)
Definition plain_commands : list string :=
  ["feed"; "qf_list"; "pool_list"; "submolts"; "status"; "profile"]%list.

(** The methods the script gives [curl]. *)
Definition script_methods : list string := ["GET"; "POST"; "PATCH"; "DELETE"]%list.

End Behaviour.

(** ** More sample worlds *)

Module Scenario.
Import JS Host.


(** A network that answers by the path of the request: a search with
    [Sample.search_answer], the posts of a submolt with the given status and
    text, anything else with a status 404. *)
Definition community (status : Z) (posts : string) : Wire.server :=
  fun req =>
    if String.prefix "/api/v1/search?" (Wire.path (Wire.target req)) then
      Some {| Wire.status := 200; Wire.location := None;
              Wire.payload := Sample.search_answer |}
    else if String.prefix "/api/v1/submolts/" (Wire.path (Wire.target req))
    then
      Some {| Wire.status := status; Wire.location := None;
              Wire.payload := posts |}
    else
      Some {| Wire.status := 404; Wire.location := None;
              Wire.payload := Sample.object1 "error" "not found" |}.

(** The plugin with the sample key, on the transport of the runtime, over
    that network. *)
Definition community_world (status : Z) (posts : string) : Index.World :=
  {| Index.process := Sample.process_with_key;
     Index.https_request := Index.node_https (community status posts) |}.

(** Two posts, as a bare array. *)
Definition two_posts : list value :=
  [VObj [("id", VStr "p7")]; VObj [("id", VStr "p8")]].

(** A discovery of [funding] in the submolt [automation]. *)
Definition funding_in_automation : Index.DiscoverOptions.t :=
  {| Index.DiscoverOptions.query := Some "funding";
     Index.DiscoverOptions.limit := None;
     Index.DiscoverOptions.sort := None;
     Index.DiscoverOptions.submolt := Some "automation" |}.

(** An environment of the script whose variable holds an option word of
    [echo], with a configuration file that holds a key. *)
Definition env_with_option_word : Script.Env :=
  {| Script.MOLTBOOK_API_KEY := "-n";
     Script.HOME := "/home/agent";
     Script.fs := fun _ =>
       File (Sample.object1 "api_key" "moltbook_sk_file") |}.

(** The environment of a run of the script without a key: no variable, no
    configuration file. *)
Definition env_without_key : Script.Env :=
  {| Script.MOLTBOOK_API_KEY := EmptyString;
     Script.HOME := "/home/agent";
     Script.fs := fun _ => NoFile |}.

(** A [jq] whose [@uri] filter finds nothing to escape, and one that prints
    nothing. *)
Definition jq_uri : string -> string := fun input => input.

Definition jq_n : list (string * string) -> string -> string :=
  fun _ _ => EmptyString.

Definition help_text : string := "Moltbook API Client".

(** The script under the sample environment with the key. *)
Definition main (argv : list string) : Script.run :=
  Script.main Sample.no_jq_api_key jq_uri jq_n help_text Sample.script_env
    argv.

End Scenario.

(** * Properties *)

(** ** Strings *)

Module StrFacts.
Import Str.

Lemma prefix_app (s t : string) : String.prefix s (s ++ t) = true.
Proof.
  induction s as [|c s IH]; simpl.
  - destruct t; reflexivity.
  - rewrite IH. destruct (ascii_dec c c); [reflexivity | contradiction].
Qed.

Lemma contains_app_r (n a b : string) :
  contains n b = true -> contains n (a ++ b) = true.
Proof.
  intros H. induction a as [|c a IH]; simpl.
  - exact H.
  - rewrite IH. apply orb_true_r.
Qed.

Lemma contains_prefix (n b : string) :
  String.prefix n b = true -> contains n b = true.
Proof. intros H. destruct b; cbn [contains]; rewrite H; reflexivity. Qed.

(** A string occurs in every string built around it. *)
Lemma contains_middle (a s b : string) : contains s (a ++ s ++ b) = true.
Proof. apply contains_app_r, contains_prefix, prefix_app. Qed.

Lemma forallb_app (p : ascii -> bool) (s t : string) :
  forallb p (s ++ t) = forallb p s && forallb p t.
Proof.
  induction s as [|c s IH]; simpl; [reflexivity|].
  rewrite IH. apply andb_assoc.
Qed.

Lemma mem_false_of_forallb (p : ascii -> bool) (c : ascii) (s : string) :
  forallb p s = true -> p c = false -> mem c s = false.
Proof.
  intros Hs Hc. induction s as [|d s IH]; simpl in *; [reflexivity|].
  apply andb_true_iff in Hs. destruct Hs as [Hd Hs].
  rewrite (IH Hs), orb_false_r.
  destruct (Ascii.eqb_spec c d) as [->|]; [congruence | reflexivity].
Qed.

End StrFacts.

(** ** The dispatcher of the plugin *)

Section Dispatcher.

Import JS Index.

Variable JSON_parse : string -> option value.
Variable fraction_toString : Q -> string.

Local Abbreviation getApiKey := (Index.getApiKey JSON_parse).
Local Abbreviation on_end := (Index.on_end JSON_parse).
Local Abbreviation client_request := (Index.client_request fraction_toString).
Local Abbreviation apiRequest :=
  (Index.apiRequest JSON_parse fraction_toString).

(** Without a key, [apiRequest] throws what [getApiKey] throws and leaves the
    log as it is. *)
Lemma apiRequest_no_key method endpoint payload w log e :
  getApiKey (process w) = Throw e ->
  apiRequest method endpoint payload w log = (log, Throw e).
Proof.
  intros H. unfold Index.apiRequest, bind, lift. rewrite H. reflexivity.
Qed.

(** With a key, [apiRequest] makes one request and normalizes its answer. *)
Lemma apiRequest_with_key method endpoint payload w log k :
  getApiKey (process w) = Return k ->
  apiRequest method endpoint payload w log =
    ((log ++ [client_request k method endpoint payload])%list,
     match https_request w log (client_request k method endpoint payload) with
     | Response res => Return (on_end res)
     | Failure err => Throw err
     end).
Proof.
  intros H. unfold Index.apiRequest, bind, lift, request, ret. rewrite H.
  destruct (https_request w log _); reflexivity.
Qed.

(** A status outside 200..299 never gives a success. *)
Lemma on_end_not_2xx res :
  status_2xx (statusCode res) = false -> success (on_end res) = false.
Proof.
  intros H. unfold Index.on_end. rewrite H.
  destruct (JSON_parse (body res)) as [parsed|]; [|reflexivity].
  destruct (error_of parsed); reflexivity.
Qed.

Lemma status_2xx_spec (code : option Z) :
  status_2xx code = true <-> exists s, code = Some s /\ (200 <= s < 300)%Z.
Proof.
  unfold status_2xx. destruct code as [s|].
  - rewrite !andb_true_iff, negb_true_iff, Z.eqb_neq, Z.leb_le, Z.ltb_lt.
    split.
    + intros [[_ H1] H2]. exists s. split; [reflexivity | lia].
    + intros [s' [E H]]. injection E as <-. repeat split; lia.
  - split; [discriminate | intros [s [E _]]; discriminate].
Qed.

(** The body [null] under a status outside 200..299: reading [parsed.error]
    throws inside the [try], and the [catch] answers as for a body that does
    not parse. *)
Lemma on_end_null res :
  JSON_parse (body res) = Some VNull ->
  status_2xx (statusCode res) = false ->
  on_end res = parse_failure.
Proof. intros H1 H2. unfold Index.on_end. rewrite H1, H2. reflexivity. Qed.

(** C1 (as amended): once a key is resolved and the transport hands over a
    response, [apiRequest] returns an envelope and does not throw.  The
    envelope is [{success: false, error: 'Failed to parse response'}] when the
    body does not parse; [{success: true, data: parsed}] when the status is in
    200..299; and otherwise, for a parsed body other than [null],
    [{success: false, error: e}] where [e] is [parsed.error] when truthy, else
    [parsed.message] when truthy, else ['Request failed']. *)
Theorem C1_response_envelope w method endpoint payload k res :
  getApiKey (process w) = Return k ->
  https_request w [] (client_request k method endpoint payload) = Response res ->
  exists envelope,
    result (apiRequest method endpoint payload) w = Return envelope
    /\ (JSON_parse (body res) = None ->
        envelope = {| success := false; data := VUndefined;
                      error := VStr "Failed to parse response" |})
    /\ (forall parsed s,
          JSON_parse (body res) = Some parsed ->
          statusCode res = Some s -> (200 <= s < 300)%Z ->
          envelope = {| success := true; data := parsed;
                        error := VUndefined |})
    /\ (forall parsed,
          JSON_parse (body res) = Some parsed ->
          (forall s, statusCode res = Some s -> ~ (200 <= s < 300)%Z) ->
          parsed <> VNull -> parsed <> VUndefined ->
          envelope =
            {| success := false; data := VUndefined;
               error :=
                 if truthy (get_prop_opt "error" parsed) then
                   get_prop_opt "error" parsed
                 else if truthy (get_prop_opt "message" parsed) then
                   get_prop_opt "message" parsed
                 else VStr "Request failed" |}).
Proof.
  intros Hk Hres. exists (on_end res). split.
  - unfold result, run. rewrite (apiRequest_with_key _ _ _ _ _ Hk), Hres.
    reflexivity.
  - unfold Index.on_end. repeat split.
    + intros ->. reflexivity.
    + intros parsed s -> Hs Hr.
      assert (H : status_2xx (statusCode res) = true)
        by (apply status_2xx_spec; eauto).
      rewrite H. reflexivity.
    + intros parsed -> Hs Hn Hu.
      assert (H : status_2xx (statusCode res) = false).
      { destruct (status_2xx (statusCode res)) eqn:E; [|reflexivity].
        apply status_2xx_spec in E. destruct E as [s [E1 E2]].
        elim (Hs s E1 E2). }
      rewrite H. unfold error_of, get_prop_opt, or_else.
      destruct parsed as [| |b|n|s|l|fs]; try congruence; simpl;
        try reflexivity.
      destruct (assoc "error" fs) as [e|]; simpl.
      * destruct (truthy e); [reflexivity|].
        destruct (assoc "message" fs) as [m|]; simpl; [|reflexivity].
        destruct (truthy m); reflexivity.
      * destruct (assoc "message" fs) as [m|]; simpl; [|reflexivity].
        destruct (truthy m); reflexivity.
Qed.

End Dispatcher.

(** C1, witness: a 404 answer with body [{"error":"not found"}] gives
    [{success: false, error: "not found"}]. *)
Lemma C1_response_envelope_witness :
  Index.result
    (Index.apiRequest Reference.JSON_parse Reference.fraction_toString
       Index.GET "/posts/p1" JS.VUndefined)
    (Sample.world 404 (Sample.object1 "error" "not found"))
  = Index.Return {| Index.success := false; Index.data := JS.VUndefined;
                    Index.error := JS.VStr "not found" |}.
Proof.
  destruct (@C1_response_envelope Reference.JSON_parse
              Reference.fraction_toString
              (Sample.world 404 (Sample.object1 "error" "not found"))
              Index.GET "/posts/p1" JS.VUndefined
              (JS.VStr "moltbook_sk_env")
              {| Index.statusCode := Some 404%Z;
                 Index.body := Sample.object1 "error" "not found" |}
              eq_refl eq_refl)
    as [envelope [Hr [_ [_ H]]]].
  rewrite Hr. f_equal.
  apply (H (JS.VObj [("error", JS.VStr "not found")])).
  - reflexivity.
  - intros s E. injection E as <-. lia.
  - discriminate.
  - discriminate.
Defined.

(** C1, counterexample: on a 200 answer whose body is not JSON the envelope
    carries the error ['Failed to parse response'], not ["parse failure"]. *)
Lemma C1_parse_failure_text :
  Reference.JSON_parse "<html>" = None
  /\ Index.result
       (Index.apiRequest Reference.JSON_parse Reference.fraction_toString
          Index.GET "/agents/me" JS.VUndefined)
       (Sample.world 200 "<html>")
     = Index.Return {| Index.success := false; Index.data := JS.VUndefined;
                       Index.error := JS.VStr "Failed to parse response" |}
  /\ JS.VStr "Failed to parse response" <> JS.VStr "parse failure".
Proof. split; [reflexivity | split; [reflexivity | discriminate]]. Qed.

(** The vectors of the specification that the plugin meets: a 200 answer
    with body [{"id":"p1"}]. *)
Example response_200 :
  Index.result
    (Index.apiRequest Reference.JSON_parse Reference.fraction_toString
       Index.GET "/posts/p1" JS.VUndefined)
    (Sample.world 200 (Sample.object1 "id" "p1"))
  = Index.Return {| Index.success := true;
                    Index.data := JS.VObj [("id", JS.VStr "p1")];
                    Index.error := JS.VUndefined |}.
Proof. reflexivity. Qed.

(** A 404 answer with body [null]: the envelope of a body that does not
    parse. *)
Example response_404_null :
  Index.result
    (Index.apiRequest Reference.JSON_parse Reference.fraction_toString
       Index.GET "/posts/p1" JS.VUndefined)
    (Sample.world 404 "null")
  = Index.Return Index.parse_failure.
Proof. reflexivity. Qed.

(** ** Credential resolution *)

Lemma truthy_nonempty (k : string) :
  k <> EmptyString -> JS.truthy (JS.VStr k) = true.
Proof. destruct k; [congruence | reflexivity]. Qed.

Lemma is_empty_false (k : string) :
  k <> EmptyString -> Str.is_empty k = false.
Proof. destruct k; [congruence | reflexivity]. Qed.

(** What [$(echo "$x")] gives back for a word that does not end in a line
    feed and is printed as it is. *)
Lemma strip_trailing_newlines_app_nl (k : string) :
  Script.ends_with_newline k = false ->
  Script.strip_trailing_newlines (k ++ Host.nl) = k.
Proof.
  induction k as [|c k IH]; intros H; [reflexivity|].
  destruct k as [|c' k].
  - simpl in *. rewrite H. reflexivity.
  - specialize (IH H). change ((String c (String c' k) ++ Host.nl))
      with (String c (String c' k ++ Host.nl)).
    cbn [Script.strip_trailing_newlines]. rewrite IH. reflexivity.
Qed.

Lemma command_subst_echo (k : string) :
  Script.plain_word k = true -> Script.command_subst (Script.echo k) = k.
Proof.
  unfold Script.plain_word, Script.command_subst, Script.echo. intros H.
  apply andb_true_iff in H. destruct H as [H1 H2].
  apply negb_true_iff in H1. apply negb_true_iff in H2.
  rewrite H1. apply strip_trailing_newlines_app_nl, H2.
Qed.

(** Where the environment wins.  In the plugin [getApiKey] returns the value
    of the variable whenever it is set and not empty, whatever the file
    system holds.  In the script [get_api_key] is then [echo] of the
    variable, whatever the file system holds and whatever [jq] would print,
    and [API_KEY] is the variable itself for the words that [echo] prints as
    they are. *)
Lemma environment_wins_for_plain_words (k : string) :
  k <> EmptyString ->
  (forall (JSON_parse : string -> option JS.value) (p : Index.Process),
      Index.MOLTBOOK_API_KEY p = Some k ->
      Index.getApiKey JSON_parse p = Index.Return (JS.VStr k))
  /\ (forall (jq_api_key : Host.file -> string * Z) (env : Script.Env),
        Script.MOLTBOOK_API_KEY env = k ->
        Script.get_api_key jq_api_key env = (Script.echo k, 0%Z)
        /\ (Script.plain_word k = true ->
            Script.API_KEY jq_api_key env = k)).
Proof.
  intros Hk. split.
  - intros JSON_parse p Hp. unfold Index.getApiKey. rewrite Hp.
    cbn [Index.opt_str]. rewrite (truthy_nonempty Hk). reflexivity.
  - intros jq_api_key env Henv.
    assert (G : Script.get_api_key jq_api_key env = (Script.echo k, 0%Z)).
    { unfold Script.get_api_key. rewrite Henv, (is_empty_false Hk).
      reflexivity. }
    split; [exact G|].
    intros Hplain. unfold Script.API_KEY. rewrite G.
    apply command_subst_echo, Hplain.
Qed.

(** An option word of [echo] is not empty, and [echo] prints at most a line
    feed for it. *)
Lemma echo_option_word (k : string) :
  Script.is_echo_option k = true ->
  k <> EmptyString /\ Script.command_subst (Script.echo k) = EmptyString.
Proof.
  intros H. split.
  - intros ->. discriminate H.
  - unfold Script.echo. rewrite H. destruct (Str.mem "n"%char k); reflexivity.
Qed.

(** C4: the script does not resolve a key that [echo] takes for options.
    When the variable holds such a word ([-n], [-e], [-nE], ...) it is set
    and not empty, and the plugin returns it; in the script [get_api_key]
    takes the branch of the variable, the configuration file is not looked
    at, and yet [API_KEY] is empty, for [echo] prints nothing of the word:
    [check_auth] then ends every command with the message that no key was
    found. *)
Theorem C4_script_loses_option_word_key
  (jq_api_key : Host.file -> string * Z) (env : Script.Env) :
  Script.is_echo_option (Script.MOLTBOOK_API_KEY env) = true ->
  Script.MOLTBOOK_API_KEY env <> EmptyString
  /\ Script.get_api_key jq_api_key env
     = (Script.echo (Script.MOLTBOOK_API_KEY env), 0%Z)
  /\ Script.API_KEY jq_api_key env = EmptyString
  /\ (forall rest,
        Script.check_auth jq_api_key env rest
        = Script.Exit (Script.auth_error env) 1)
  /\ (forall (JSON_parse : string -> option JS.value) (p : Index.Process),
        Index.MOLTBOOK_API_KEY p = Some (Script.MOLTBOOK_API_KEY env) ->
        Index.getApiKey JSON_parse p
        = Index.Return (JS.VStr (Script.MOLTBOOK_API_KEY env))).
Proof.
  intros H. destruct (echo_option_word _ H) as [Hne He].
  assert (G : Script.get_api_key jq_api_key env
              = (Script.echo (Script.MOLTBOOK_API_KEY env), 0%Z)).
  { unfold Script.get_api_key. rewrite (is_empty_false Hne). reflexivity. }
  assert (K : Script.API_KEY jq_api_key env = EmptyString).
  { unfold Script.API_KEY. rewrite G. exact He. }
  split; [exact Hne|]. split; [exact G|]. split; [exact K|]. split.
  - intros rest. unfold Script.check_auth. rewrite K. reflexivity.
  - intros JSON_parse p Hp. unfold Index.getApiKey. rewrite Hp.
    cbn [Index.opt_str]. rewrite (truthy_nonempty Hne). reflexivity.
Qed.

(** C4, witness: with [-n] in the variable and the key [moltbook_sk_file] in
    the configuration file, the script resolves no key, whatever [jq] would
    print of the file. *)
Lemma C4_script_loses_option_word_key_witness :
  Script.API_KEY (fun _ => ("moltbook_sk_file", 0%Z))
    Scenario.env_with_option_word
  = EmptyString.
Proof.
  destruct (@C4_script_loses_option_word_key
              (fun _ => ("moltbook_sk_file", 0%Z))
              Scenario.env_with_option_word eq_refl) as [_ [_ [H _]]].
  exact H.
Defined.

(** The same run from the command line: the command [status] ends with the
    message of [check_auth] and the exit status 1. *)
Example status_with_option_word_key :
  Script.main (fun _ => ("moltbook_sk_file", 0%Z)) Scenario.jq_uri
    Scenario.jq_n Scenario.help_text Scenario.env_with_option_word
    ["status"]
  = Script.Exit (Script.auth_error Scenario.env_with_option_word) 1.
Proof. reflexivity. Qed.

Section Credentials.

Import JS Index.

Variable JSON_parse : string -> option value.
Variable fraction_toString : Q -> string.

Local Abbreviation getApiKey := (Index.getApiKey JSON_parse).
Local Abbreviation apiRequest :=
  (Index.apiRequest JSON_parse fraction_toString).

Lemma config_api_key_none p :
  no_file_credential JSON_parse p -> config_api_key JSON_parse p = None.
Proof.
  unfold config_api_key.
  intros [H | H | H | contents H Hp | contents config H Hp Hk]; rewrite H;
    try reflexivity.
  - rewrite Hp. reflexivity.
  - rewrite Hp. unfold get_prop_opt in Hk.
    destruct (get_prop "api_key" config) as [k|]; [|reflexivity].
    rewrite Hk. reflexivity.
Qed.

(** C5: when the environment variable is unset or empty and the
    configuration file yields no credential (it is missing, cannot be read,
    does not parse, or has no truthy [api_key]), [getApiKey] throws an
    [Error] whose message names the environment variable and the path of the
    configuration file; [apiRequest] throws it with the log of transport
    invocations unchanged, whatever the transport is. *)
Theorem C5_no_credential p :
  absent_or_empty (MOLTBOOK_API_KEY p) ->
  no_file_credential JSON_parse p ->
  getApiKey p = Throw (Error (no_api_key_message p))
  /\ Str.contains "Set MOLTBOOK_API_KEY environment variable"
       (no_api_key_message p) = true
  /\ Str.contains ("create " ++ CONFIG_FILE p) (no_api_key_message p) = true
  /\ forall transport method endpoint payload log,
       apiRequest method endpoint payload
         {| process := p; https_request := transport |} log
       = (log, Throw (Error (no_api_key_message p))).
Proof.
  intros Henv Hfile.
  assert (G : getApiKey p = Throw (Error (no_api_key_message p))).
  { unfold Index.getApiKey. rewrite (config_api_key_none Hfile).
    destruct Henv as [-> | ->]; reflexivity. }
  split; [exact G|]. split; [|split].
  - unfold no_api_key_message.
    apply (StrFacts.contains_middle "No API key found. "
             "Set MOLTBOOK_API_KEY environment variable").
  - unfold no_api_key_message.
    change ("No API key found. Set MOLTBOOK_API_KEY environment variable or create "
              ++ CONFIG_FILE p ++ " with {" ++ Str.dq ++ "api_key" ++ Str.dq
              ++ ": " ++ Str.dq ++ "your_key_here" ++ Str.dq ++ "}")
      with ("No API key found. Set MOLTBOOK_API_KEY environment variable or "
              ++ ("create " ++ CONFIG_FILE p) ++ " with {" ++ Str.dq
              ++ "api_key" ++ Str.dq ++ ": " ++ Str.dq ++ "your_key_here"
              ++ Str.dq ++ "}").
    apply StrFacts.contains_middle.
  - intros transport method endpoint payload log.
    apply apiRequest_no_key. exact G.
Qed.

End Credentials.

(** C5, witness: no variable and a configuration file that is not JSON. *)
Lemma C5_no_credential_witness :
  Index.getApiKey Reference.JSON_parse
    (Sample.process_with_file (Host.File "api_key=moltbook_sk_file"))
  = Index.Throw
      (Index.Error
         (Index.no_api_key_message
            (Sample.process_with_file (Host.File "api_key=moltbook_sk_file")))).
Proof.
  apply (@C5_no_credential Reference.JSON_parse Reference.fraction_toString
           (Sample.process_with_file (Host.File "api_key=moltbook_sk_file"))).
  - left. reflexivity.
  - apply Index.file_unparseable with (contents := "api_key=moltbook_sk_file");
      reflexivity.
Defined.

(** ** The actions of the plugin *)

Section Actions.

Import JS Index.

Variable JSON_parse : string -> option value.
Variable fraction_toString : Q -> string.

Local Abbreviation getApiKey := (Index.getApiKey JSON_parse).
Local Abbreviation on_end := (Index.on_end JSON_parse).
Local Abbreviation client_request := (Index.client_request fraction_toString).
Local Abbreviation apiRequest :=
  (Index.apiRequest JSON_parse fraction_toString).
Local Abbreviation post_update :=
  (Index.post_update JSON_parse fraction_toString).
Local Abbreviation JSON_stringify := (JS.JSON_stringify fraction_toString).

Lemma supplied_truthy (o : option string) :
  truthy (opt_str o) = supplied o.
Proof. destruct o as [[|c s]|]; reflexivity. Qed.

Lemma opt_str_truthy (o : option string) (text : string) :
  o = Some text -> text <> EmptyString -> truthy (opt_str o) = true.
Proof. intros -> H. apply truthy_nonempty, H. Qed.

Lemma postData_fields (sm t : value) (c u : option string) :
  postData sm t (opt_str c) (opt_str u)
  = ([("submolt", sm); ("title", t)]
       ++ supplied_field "content" c ++ supplied_field "url" u)%list.
Proof.
  unfold postData, supplied_field. rewrite !supplied_truthy.
  destruct c as [[|? ?]|], u as [[|? ?]|]; reflexivity.
Qed.

Lemma supplied_field_values (name : string) (o : option string) :
  Forall (fun f => exists text, snd f = VStr text /\ text <> EmptyString)
    (supplied_field name o).
Proof.
  unfold supplied_field. destruct o as [[|c s]|]; simpl; constructor.
  - exists (String c s). split; [reflexivity | discriminate].
  - constructor.
Qed.

(** C6: [post_update] with [submolt] and [title] given.  When neither
    [content] nor [url] is supplied it throws before anything reaches the
    transport.  When at least one is supplied and a key is resolved, it makes
    one request, a POST to [/api/v1/posts], whose body is the JSON text of the
    object with [submolt], [title] and exactly the supplied ones of [content]
    and [url], every field a non-empty string and none [null]; and it returns
    a result with [success: true] when the answer has a status in 200..299
    and a body that parses. *)
Theorem C6_post_update_either_or (o : PostUpdateOptions.t) (sm t : string) :
  PostUpdateOptions.submolt o = Some sm -> sm <> EmptyString ->
  PostUpdateOptions.title o = Some t -> t <> EmptyString ->
  (supplied (PostUpdateOptions.content o) = false ->
   supplied (PostUpdateOptions.url o) = false ->
   forall w log,
     post_update o w log
     = (log, Throw (Error "Either content or url is required")))
  /\ (supplied (PostUpdateOptions.content o)
        || supplied (PostUpdateOptions.url o) = true ->
      forall w log k,
        getApiKey (process w) = Return k ->
        let fields :=
          ([("submolt", VStr sm); ("title", VStr t)]
             ++ supplied_field "content" (PostUpdateOptions.content o)
             ++ supplied_field "url" (PostUpdateOptions.url o))%list in
        let sent :=
          {| options := {| hostname := "www.moltbook.com";
                          path := "/api/v1/posts";
                          method := POST;
                          headers := request_headers fraction_toString k |};
             written := JSON_stringify (VObj fields) |} in
        Forall (fun f => exists text, snd f = VStr text /\ text <> EmptyString)
          fields
        /\ exists outcome,
            post_update o w log = ((log ++ [sent])%list, outcome)
            /\ forall res parsed s,
                https_request w log sent = Response res ->
                JSON_parse (body res) = Some parsed ->
                statusCode res = Some s -> (200 <= s < 300)%Z ->
                exists r,
                  outcome = Return r /\ PostUpdateResult.success r = true).
Proof.
  intros Hsm Hsm' Ht Ht'. split.
  - intros Hc Hu w log. unfold Index.post_update.
    rewrite (opt_str_truthy Hsm Hsm'), (opt_str_truthy Ht Ht'),
      !supplied_truthy, Hc, Hu.
    reflexivity.
  - intros Hsup w log k Hk fields sent. split.
    + unfold fields. repeat constructor.
      * exists sm. split; [reflexivity | assumption].
      * exists t. split; [reflexivity | assumption].
      * apply Forall_app. split; apply supplied_field_values.
    + assert (E : negb (supplied (PostUpdateOptions.content o))
                  && negb (supplied (PostUpdateOptions.url o)) = false).
      { destruct (supplied (PostUpdateOptions.content o)),
          (supplied (PostUpdateOptions.url o)); try reflexivity;
          discriminate. }
      unfold Index.post_update.
      rewrite (opt_str_truthy Hsm Hsm'), (opt_str_truthy Ht Ht'),
        !supplied_truthy, E.
      cbn [negb]. unfold bind.
      rewrite (apiRequest_with_key JSON_parse fraction_toString _ _ _ _ _ Hk).
      rewrite Hsm, Ht. cbn [opt_str]. rewrite postData_fields.
      change (Index.client_request fraction_toString k POST "/posts"
                (VObj ([("submolt", VStr sm); ("title", VStr t)]
                         ++ supplied_field "content"
                              (PostUpdateOptions.content o)
                         ++ supplied_field "url" (PostUpdateOptions.url o))))
        with sent.
      destruct (https_request w log sent) as [res|err] eqn:Hnet.
      * destruct (success (on_end res)) eqn:Hs; cbn [negb].
        -- eexists. split; [reflexivity|].
           intros res' parsed s Hres. injection Hres as <-. intros _ _ _.
           eexists. split; reflexivity.
        -- eexists. split; [reflexivity|].
           intros res' parsed s Hres. injection Hres as <-.
           intros Hp Hc Hr. exfalso.
           unfold Index.on_end in Hs. rewrite Hp in Hs.
           assert (H2 : status_2xx (statusCode res) = true)
             by (apply status_2xx_spec; eauto).
           rewrite H2 in Hs. discriminate.
      * eexists. split; [reflexivity|]. intros res parsed s Hres.
        discriminate.
Qed.

(** *** What reaches the transport *)

Lemma sends_ret {A : Type} P (a : A) : sends P (ret a).
Proof.
  intros w log. exists [], (Return a). split; [|constructor].
  unfold ret. rewrite app_nil_r. reflexivity.
Qed.

Lemma sends_throw {A : Type} P e : sends P (@throw A e).
Proof.
  intros w log. exists [], (Throw e). split; [|constructor].
  unfold throw. rewrite app_nil_r. reflexivity.
Qed.

Lemma sends_bind {A B : Type} P (c : M A) (k : A -> M B) :
  sends P c -> (forall a, sends P (k a)) -> sends P (bind c k).
Proof.
  intros Hc Hk w log. unfold bind.
  destruct (Hc w log) as [extra [out [E F]]]. rewrite E.
  destruct out as [a|e].
  - destruct (Hk a w (log ++ extra)%list) as [extra' [out' [E' F']]].
    exists (extra ++ extra')%list, out'. rewrite E', app_assoc.
    split; [reflexivity | apply Forall_app; split; assumption].
  - exists extra, (Throw e). split; [reflexivity | assumption].
Qed.

Lemma sends_if {A : Type} P (b : bool) (c1 c2 : M A) :
  sends P c1 -> sends P c2 -> sends P (if b then c1 else c2).
Proof. destruct b; auto. Qed.

Lemma sends_apiRequest P method endpoint payload :
  (forall k, P (client_request k method endpoint payload)) ->
  sends P (apiRequest method endpoint payload).
Proof.
  intros HP w log. destruct (getApiKey (process w)) as [k|e] eqn:Hk.
  - rewrite (apiRequest_with_key JSON_parse fraction_toString _ _ _ _ _ Hk).
    eexists _, _. split; [reflexivity|]. constructor; [apply HP | constructor].
  - rewrite (apiRequest_no_key JSON_parse fraction_toString _ _ _ _ _ Hk).
    exists [], (Throw e). rewrite app_nil_r. split; [reflexivity|constructor].
Qed.

Lemma sends_calls {A : Type} P (c : M A) w :
  sends P c -> Forall P (calls c w).
Proof.
  intros H. unfold calls, run. destruct (H w []) as [extra [out [E F]]].
  rewrite E. exact F.
Qed.

Ltac sends_step :=
  match goal with
  | |- sends _ (bind _ _) => apply sends_bind; [| intros ?]
  | |- sends _ (ret _) => apply sends_ret
  | |- sends _ (throw _) => apply sends_throw
  | |- sends _ (Index.apiRequest _ _ _ _ _) =>
      apply sends_apiRequest; intros ?
  | |- sends _ (if ?b then _ else _) => destruct b
  | |- sends _ (match ?x with _ => _ end) => destruct x
  end.

Ltac sends_all := cbv zeta; repeat sends_step.

(** C9: a request made without [data] has no body at all, a request made
    with the empty object has the body [{}].  [join_pool] hands the transport
    nothing but requests with the body [{}], and exactly one of them once
    [pool_id] is given and a key is resolved; the actions that read
    ([list_qf_pools], [get_qf_pool], [list_joined_pools], [get_profile],
    [get_status], [get_feed], [discover_opportunities]) hand it nothing but
    GET requests without a body. *)
Theorem C9_no_body_versus_empty_object :
  (forall k method endpoint,
      written (client_request k method endpoint VUndefined) = None)
  /\ (forall k method endpoint,
        written (client_request k method endpoint (VObj [])) = Some "{}")
  /\ (forall o,
        sends (fun r => written r = Some "{}")
          (join_pool JSON_parse fraction_toString o))
  /\ (forall o w log pool k,
        JoinPoolOptions.pool_id o = Some pool -> pool <> EmptyString ->
        getApiKey (process w) = Return k ->
        exists out,
          join_pool JSON_parse fraction_toString o w log
          = ((log ++ [client_request k POST ("/pools/" ++ pool ++ "/join")
                        (VObj [])])%list, out))
  /\ sends bodiless_get (list_qf_pools JSON_parse fraction_toString)
  /\ (forall pool,
        sends bodiless_get (get_qf_pool JSON_parse fraction_toString pool))
  /\ sends bodiless_get (list_joined_pools JSON_parse fraction_toString)
  /\ sends bodiless_get (get_profile JSON_parse fraction_toString)
  /\ sends bodiless_get (get_status JSON_parse fraction_toString)
  /\ (forall sort limit submolt,
        sends bodiless_get
          (get_feed JSON_parse fraction_toString sort limit submolt))
  /\ (forall o,
        sends bodiless_get
          (discover_opportunities JSON_parse fraction_toString o)).
Proof.
  split; [reflexivity|]. split; [reflexivity|].
  split; [intros o; unfold Index.join_pool; sends_all; reflexivity|].
  split.
  { intros o w log pool k Hp Hne Hk. unfold Index.join_pool.
    rewrite (opt_str_truthy Hp Hne). cbn [negb]. unfold bind.
    rewrite (apiRequest_with_key JSON_parse fraction_toString _ _ _ _ _ Hk).
    rewrite Hp. cbn [opt_str JS.ToString].
    destruct (https_request w log _) as [res|err].
    - destruct (negb (success (on_end res))); eexists; reflexivity.
    - eexists; reflexivity. }
  unfold bodiless_get, bodiless.
  repeat split;
    try intros;
    unfold Index.list_qf_pools, Index.get_qf_pool, Index.list_joined_pools,
      Index.get_profile, Index.get_status, Index.get_feed,
      Index.discover_opportunities;
    sends_all; split; reflexivity.
Qed.

(** *** Required arguments *)

Lemma not_supplied_falsy (o : option string) :
  supplied o = false -> truthy (opt_str o) = false.
Proof. rewrite supplied_truthy. auto. Qed.

(** [contribute_qf] without [pool_id] throws before anything reaches the
    transport. *)
Lemma contribute_qf_requires_pool_id o w log :
  supplied (ContributeQFOptions.pool_id o) = false ->
  contribute_qf JSON_parse fraction_toString o w log
  = (log, Throw (Error "pool_id is required")).
Proof.
  intros H. unfold Index.contribute_qf. rewrite (not_supplied_falsy _ H).
  reflexivity.
Qed.

(** [join_pool] without [pool_id] throws before anything reaches the
    transport. *)
Lemma join_pool_requires_pool_id o w log :
  supplied (JoinPoolOptions.pool_id o) = false ->
  join_pool JSON_parse fraction_toString o w log
  = (log, Throw (Error "pool_id is required")).
Proof.
  intros H. unfold Index.join_pool. rewrite (not_supplied_falsy _ H).
  reflexivity.
Qed.

(** [post_update] without [submolt], or without [title], throws before
    anything reaches the transport. *)
Lemma post_update_requires_submolt_and_title o w log :
  supplied (PostUpdateOptions.submolt o) = false
  \/ supplied (PostUpdateOptions.title o) = false ->
  exists message,
    post_update o w log = (log, Throw (Error message)).
Proof.
  intros H. unfold Index.post_update. rewrite !supplied_truthy.
  destruct (supplied (PostUpdateOptions.submolt o)); cbn [negb].
  - destruct H as [H | H]; [discriminate|]. rewrite H. eexists. reflexivity.
  - eexists. reflexivity.
Qed.

(** *** The amount of a contribution *)

(** A number that [contribute_qf] lets through: not [NaN], not zero, and not
    below zero. *)
Lemma amount_accepted_iff (n : number) :
  negb (number_truthy n) || number_le0 n = false
  <-> n = Infinity false \/ exists q, n = Finite q /\ (0 < q)%Q.
Proof.
  destruct n as [|neg|q]; simpl.
  - split; [discriminate | intros [H | [q [H _]]]; discriminate].
  - destruct neg; split; auto; try discriminate.
    intros [H | [q [H _]]]; discriminate.
  - rewrite orb_false_iff, negb_false_iff, negb_true_iff. split.
    + intros [_ H]. right. exists q. split; [reflexivity|].
      apply Qnot_le_lt. intros Hle. apply Qle_bool_iff in Hle. congruence.
    + intros [H | [q' [E H]]]; [discriminate|]. injection E as <-.
      split.
      * destruct (Qeq_bool q 0) eqn:E; [|reflexivity].
        apply Qeq_bool_iff in E. rewrite E in H.
        elim (Qlt_irrefl _ H).
      * destruct (Qle_bool q 0) eqn:E; [|reflexivity].
        apply Qle_bool_iff in E. elim (Qlt_irrefl 0).
        eapply Qlt_le_trans; eassumption.
Qed.

(** [contribute_qf] with [pool_id] given and an amount that is absent, [NaN],
    zero or negative throws before anything reaches the transport. *)
Lemma contribute_qf_rejects_amount o w log :
  supplied (ContributeQFOptions.pool_id o) = true ->
  match ContributeQFOptions.amount o with
  | None | Some NaN | Some (Infinity true) => True
  | Some (Infinity false) => False
  | Some (Finite q) => (q <= 0)%Q
  end ->
  contribute_qf JSON_parse fraction_toString o w log
  = (log, Throw (Error "amount must be a positive number")).
Proof.
  intros Hp Ha. unfold Index.contribute_qf. rewrite supplied_truthy, Hp.
  cbn [negb].
  destruct (ContributeQFOptions.amount o) as [[|[|]|q]|]; try reflexivity;
    try contradiction.
  simpl. apply Qle_bool_iff in Ha. rewrite Ha, orb_true_r. reflexivity.
Qed.

(** [contribute_qf] with [pool_id] given, a positive amount and a key makes
    one request, whose body is the JSON text of [{ amount }]. *)
Lemma contribute_qf_sends_amount o w log pool q k :
  ContributeQFOptions.pool_id o = Some pool -> pool <> EmptyString ->
  ContributeQFOptions.amount o = Some (Finite q) -> (0 < q)%Q ->
  getApiKey (process w) = Return k ->
  exists out,
    contribute_qf JSON_parse fraction_toString o w log
    = ((log ++ [client_request k POST ("/qf/pools/" ++ pool ++ "/contribute")
                  (VObj [("amount", VNum (Finite q))])])%list, out).
Proof.
  intros Hp Hne Ha Hq Hk. unfold Index.contribute_qf.
  rewrite (opt_str_truthy Hp Hne), Ha. cbn [negb].
  assert (E : negb (number_truthy (Finite q)) || number_le0 (Finite q) = false)
    by (apply amount_accepted_iff; right; eauto).
  rewrite E. unfold bind.
  rewrite (apiRequest_with_key JSON_parse fraction_toString _ _ _ _ _ Hk).
  rewrite Hp. cbn [opt_str JS.ToString].
  destruct (https_request w log _) as [res|err].
  - destruct (negb (success (on_end res))); eexists; reflexivity.
  - eexists; reflexivity.
Qed.

(** *** Discovery *)

Lemma Qred_inject_Z (z : Z) : Qred (inject_Z z) = inject_Z z.
Proof.
  unfold Qred, inject_Z.
  pose proof (Z.ggcd_gcd z 1) as Hg.
  pose proof (Z.ggcd_correct_divisors z 1) as Hd.
  destruct (Z.ggcd z 1) as [g [a b]]. simpl in *.
  rewrite Z.gcd_1_r in Hg. subst g. destruct Hd as [Ha Hb].
  rewrite Z.mul_1_l in Ha, Hb. subst a b. reflexivity.
Qed.

Lemma number_add_of_nat (a b : nat) :
  number_add (of_nat a) (of_nat b) = of_nat (a + b).
Proof.
  unfold number_add, of_nat, of_Z. f_equal.
  rewrite Nat2Z.inj_add, <- (Qred_inject_Z (Z.of_nat a + Z.of_nat b)).
  apply Qred_complete. rewrite inject_Z_plus. reflexivity.
Qed.

Lemma js_add_of_nat (a b : nat) :
  JS.js_add fraction_toString (VNum (of_nat a)) (VNum (of_nat b))
  = VNum (of_nat (a + b)).
Proof.
  unfold JS.js_add, ToPrimitive, ToNumber. rewrite number_add_of_nat.
  reflexivity.
Qed.

Lemma truthy_of_nat (n : nat) :
  truthy (VNum (of_nat n)) = false -> n = O.
Proof.
  simpl. intros H. apply negb_false_iff, Qeq_bool_iff in H.
  unfold Qeq in H. simpl in H. lia.
Qed.

(** [data.k?.length || 0] on a list field. *)
Lemma length_of_list_field k found n :
  list_field k found n ->
  or_else (length_opt (get_prop_opt k found)) (VNum (of_Z 0))
  = VNum (of_nat n).
Proof.
  intros [[l [E <-]] | [[E | E] ->]]; rewrite E; try reflexivity.
  unfold or_else, length_opt.
  destruct (truthy (VNum (of_nat (List.length l)))) eqn:T; [reflexivity|].
  apply truthy_of_nat in T. rewrite T. reflexivity.
Qed.

(** [[...(data.k || [])]] on a list field. *)
Lemma spread_of_list_field k found n :
  list_field k found n ->
  exists l,
    spread (or_else (get_prop_opt k found) (VArr [])) = Some l
    /\ List.length l = n.
Proof.
  intros [[l [E <-]] | [[E | E] ->]]; rewrite E; eexists; split; reflexivity.
Qed.

Lemma on_end_2xx res parsed s :
  JSON_parse (body res) = Some parsed ->
  statusCode res = Some s -> (200 <= s < 300)%Z ->
  on_end res = {| success := true; data := parsed; error := VUndefined |}.
Proof.
  intros Hp Hs Hr. unfold Index.on_end. rewrite Hp.
  assert (H : status_2xx (statusCode res) = true)
    by (apply status_2xx_spec; eauto).
  rewrite H. reflexivity.
Qed.

(** A request that is answered with a success. *)
Lemma answered w log k method endpoint payload res parsed s :
  getApiKey (process w) = Return k ->
  https_request w log (client_request k method endpoint payload)
  = Response res ->
  JSON_parse (body res) = Some parsed ->
  statusCode res = Some s -> (200 <= s < 300)%Z ->
  apiRequest method endpoint payload w log
  = ((log ++ [client_request k method endpoint payload])%list,
     Return {| success := true; data := parsed; error := VUndefined |}).
Proof.
  intros Hk Hnet Hp Hs Hr.
  rewrite (apiRequest_with_key JSON_parse fraction_toString _ _ _ _ _ Hk).
  rewrite Hnet, (on_end_2xx _ Hp Hs Hr). reflexivity.
Qed.

Local Abbreviation discover_opportunities :=
  (Index.discover_opportunities JSON_parse fraction_toString).
Local Abbreviation search_request :=
  (Behaviour.search_request fraction_toString).
Local Abbreviation scoped_request :=
  (Behaviour.scoped_request fraction_toString).

(** [discover_opportunities] with a submolt filter, when the search and the
    scoped call are both answered with a success and the second answer is an
    object: [total_results] is the sum of the three lengths of the search,
    and the posts returned are those of the search followed by the [posts] of
    the object. *)
Lemma discover_merges_posts_of_object
  (o : DiscoverOptions.t) (w : World) (k : value) (filter : string)
  (res1 res2 : IncomingMessage) (found scoped : value) (s1 s2 : Z)
  (n_posts n_agents n_submolts : nat) (extra : list value) :
  getApiKey (process w) = Return k ->
  DiscoverOptions.submolt o = Some filter -> filter <> EmptyString ->
  https_request w [] (search_request k o) = Response res1 ->
  https_request w [search_request k o] (scoped_request k o) = Response res2 ->
  JSON_parse (body res1) = Some found -> truthy found = true ->
  statusCode res1 = Some s1 -> (200 <= s1 < 300)%Z ->
  list_field "posts" found n_posts ->
  list_field "agents" found n_agents ->
  list_field "submolts" found n_submolts ->
  JSON_parse (body res2) = Some scoped ->
  statusCode res2 = Some s2 -> (200 <= s2 < 300)%Z ->
  get_prop_opt "posts" scoped = VArr extra ->
  exists r,
    run (discover_opportunities o) w
    = ([search_request k o; scoped_request k o], Return r)
    /\ DiscoverResult.total_results r
       = VNum (of_nat (n_posts + n_agents + n_submolts))
    /\ List.length (DiscoverResult.posts r) = n_posts + List.length extra.
Proof.
  intros Hk Hf Hne H1 H2 Hp1 Ht1 Hs1 Hr1 Lp La Ls Hp2 Hs2 Hr2 Hx.
  assert (Tscoped : truthy scoped = true).
  { destruct scoped; try discriminate; reflexivity. }
  destruct (spread_of_list_field Lp) as [searched [Esp Elen]].
  unfold Behaviour.search_request, Behaviour.scoped_request in *.
  unfold run, Index.discover_opportunities. cbv zeta. unfold bind.
  rewrite (@answered w _ _ _ _ _ _ _ _ Hk H1 Hp1 Hs1 Hr1).
  cbn [success data negb orb app]. rewrite Ht1. cbn [negb].
  rewrite (opt_str_truthy Hf Hne).
  rewrite (@answered w _ _ _ _ _ _ _ _ Hk H2 Hp2 Hs2 Hr2). unfold ret.
  cbn [success data andb app]. rewrite Tscoped, Hx.
  cbn [or_else truthy spread]. rewrite Esp.
  eexists. split; [reflexivity|]. cbn [DiscoverResult.total_results
    DiscoverResult.posts].
  rewrite !length_of_list_field with (1 := Lp).
  rewrite !length_of_list_field with (1 := La).
  rewrite !length_of_list_field with (1 := Ls).
  rewrite !js_add_of_nat, length_app, Elen.
  split; reflexivity.
Qed.

(** C10: [discover_opportunities] drops the posts of the submolt when the
    scoped call answers them as a bare array, the form that [get_feed]
    accepts on the same path.  With a submolt filter, a search answered with
    a success whose lists have [n_posts], [n_agents] and [n_submolts]
    elements, and a scoped call answered with a success whose body is the
    array [extra]: the two requests are made, [total_results] is the sum of
    the three lengths, and the posts returned are [n_posts] in number,
    whatever [extra] holds, so that they do not outnumber [total_results]
    less the agents and the submolts.  [get_feed] with the same sort key,
    limit and submolt, given the same answer to the same request, returns
    [extra]. *)
Theorem C10_scoped_posts_in_an_array_are_dropped
  (o : DiscoverOptions.t) (w : World) (k : value) (filter : string)
  (res1 res2 : IncomingMessage) (found : value) (s1 s2 : Z)
  (n_posts n_agents n_submolts : nat) (extra : list value) :
  getApiKey (process w) = Return k ->
  DiscoverOptions.submolt o = Some filter -> filter <> EmptyString ->
  https_request w [] (search_request k o) = Response res1 ->
  https_request w [search_request k o] (scoped_request k o) = Response res2 ->
  JSON_parse (body res1) = Some found -> truthy found = true ->
  statusCode res1 = Some s1 -> (200 <= s1 < 300)%Z ->
  list_field "posts" found n_posts ->
  list_field "agents" found n_agents ->
  list_field "submolts" found n_submolts ->
  JSON_parse (body res2) = Some (VArr extra) ->
  statusCode res2 = Some s2 -> (200 <= s2 < 300)%Z ->
  (exists r,
      run (discover_opportunities o) w
      = ([search_request k o; scoped_request k o], Return r)
      /\ DiscoverResult.total_results r
         = VNum (of_nat (n_posts + n_agents + n_submolts))
      /\ spread (or_else (get_prop_opt "posts" found) (VArr []))
         = Some (DiscoverResult.posts r)
      /\ List.length (DiscoverResult.posts r) = n_posts
      /\ ~ List.length (DiscoverResult.posts r)
           > n_posts + n_agents + n_submolts - n_agents - n_submolts)
  /\ (forall w',
        getApiKey (process w') = Return k ->
        https_request w' [] (scoped_request k o) = Response res2 ->
        run
          (get_feed JSON_parse fraction_toString (DiscoverOptions.sort o)
             (DiscoverOptions.limit o) (DiscoverOptions.submolt o)) w'
        = ([scoped_request k o], Return (VArr extra))).
Proof.
  intros Hk Hf Hne H1 H2 Hp1 Ht1 Hs1 Hr1 Lp La Ls Hp2 Hs2 Hr2.
  destruct (spread_of_list_field Lp) as [searched [Esp Elen]].
  unfold Behaviour.search_request, Behaviour.scoped_request in *.
  split.
  - unfold run, Index.discover_opportunities. cbv zeta. unfold bind.
    rewrite (@answered w _ _ _ _ _ _ _ _ Hk H1 Hp1 Hs1 Hr1).
    cbn [success data negb orb app]. rewrite Ht1. cbn [negb].
    rewrite (opt_str_truthy Hf Hne).
    rewrite (@answered w _ _ _ _ _ _ _ _ Hk H2 Hp2 Hs2 Hr2). unfold ret.
    cbn [success data andb app truthy get_prop_opt get_prop or_else spread].
    rewrite Esp.
    eexists. split; [reflexivity|]. cbn [DiscoverResult.total_results
      DiscoverResult.posts].
    rewrite !length_of_list_field with (1 := Lp).
    rewrite !length_of_list_field with (1 := La).
    rewrite !length_of_list_field with (1 := Ls).
    rewrite !js_add_of_nat, app_nil_r, Elen.
    split; [reflexivity|]. split; [reflexivity|]. split; [reflexivity|]. lia.
  - intros w' Hk' H'.
    unfold run, Index.get_feed. cbv zeta. unfold bind.
    rewrite (opt_str_truthy Hf Hne).
    rewrite (@answered w' _ _ _ _ _ _ _ _ Hk' H' Hp2 Hs2 Hr2).
    reflexivity.
Qed.

End Actions.

(** ** The actions on sample worlds *)

(** C6, witness: a post with [content] only.  The body sent is
    [{"submolt":"general","title":"Hello","content":"First post"}], without
    [url]. *)
Lemma C6_post_update_either_or_witness :
  exists out,
    Index.post_update Reference.JSON_parse Reference.fraction_toString
      {| Index.PostUpdateOptions.submolt := Some "general";
         Index.PostUpdateOptions.title := Some "Hello";
         Index.PostUpdateOptions.content := Some "First post";
         Index.PostUpdateOptions.url := None |}
      (Sample.world 200 (Sample.object1 "id" "p1")) []
    = ([Sample.sent Index.POST "/api/v1/posts"
          (Some (Sample.json
                   (JS.VObj [ ("submolt", JS.VStr "general");
                              ("title", JS.VStr "Hello");
                              ("content", JS.VStr "First post") ])))],
       out).
Proof.
  destruct (@C6_post_update_either_or Reference.JSON_parse
              Reference.fraction_toString
              {| Index.PostUpdateOptions.submolt := Some "general";
                 Index.PostUpdateOptions.title := Some "Hello";
                 Index.PostUpdateOptions.content := Some "First post";
                 Index.PostUpdateOptions.url := None |}
              "general" "Hello" eq_refl ltac:(discriminate)
              eq_refl ltac:(discriminate)) as [_ H].
  destruct (H eq_refl (Sample.world 200 (Sample.object1 "id" "p1")) []
              (JS.VStr "moltbook_sk_env") eq_refl) as [_ [out [E _]]].
  exists out. exact E.
Defined.

(** The text of that body. *)
Example post_update_body_text :
  Sample.json
    (JS.VObj [ ("submolt", JS.VStr "general");
               ("title", JS.VStr "Hello");
               ("content", JS.VStr "First post") ])
  = "{" ++ Str.dq ++ "submolt" ++ Str.dq ++ ":" ++ Str.dq ++ "general"
    ++ Str.dq ++ "," ++ Str.dq ++ "title" ++ Str.dq ++ ":" ++ Str.dq
    ++ "Hello" ++ Str.dq ++ "," ++ Str.dq ++ "content" ++ Str.dq ++ ":"
    ++ Str.dq ++ "First post" ++ Str.dq ++ "}".
Proof. reflexivity. Qed.

(** C9, witness: [join_pool] of [pool456] makes one POST whose body is
    [{}]. *)
Lemma C9_no_body_versus_empty_object_witness :
  exists out,
    Index.join_pool Reference.JSON_parse Reference.fraction_toString
      {| Index.JoinPoolOptions.pool_id := Some "pool456" |}
      (Sample.world 200 "{}") []
    = ([Sample.sent Index.POST "/api/v1/pools/pool456/join" (Some "{}")], out).
Proof.
  destruct (@C9_no_body_versus_empty_object Reference.JSON_parse
              Reference.fraction_toString) as [_ [_ [_ [H _]]]].
  destruct (H {| Index.JoinPoolOptions.pool_id := Some "pool456" |}
              (Sample.world 200 "{}") [] "pool456"
              (JS.VStr "moltbook_sk_env") eq_refl ltac:(discriminate) eq_refl)
    as [out E].
  exists out. exact E.
Defined.

(** C10, witness: over a network that answers the search with one post, no
    agent and one submolt, and the posts of the submolt [automation] with a
    bare array of two posts, one post is returned and [total_results] is
    2. *)
Lemma C10_scoped_posts_in_an_array_are_dropped_witness :
  exists r,
    Index.result
      (Index.discover_opportunities Reference.JSON_parse
         Reference.fraction_toString Scenario.funding_in_automation)
      (Scenario.community_world 200
         (Sample.json (JS.VArr Scenario.two_posts)))
    = Index.Return r
    /\ Index.DiscoverResult.total_results r = JS.VNum (JS.of_nat 2)
    /\ List.length (Index.DiscoverResult.posts r) = 1.
Proof.
  destruct (@C10_scoped_posts_in_an_array_are_dropped Reference.JSON_parse
              Reference.fraction_toString Scenario.funding_in_automation
              (Scenario.community_world 200
                 (Sample.json (JS.VArr Scenario.two_posts)))
              (JS.VStr "moltbook_sk_env") "automation"
              {| Index.statusCode := Some 200%Z;
                 Index.body := Sample.search_answer |}
              {| Index.statusCode := Some 200%Z;
                 Index.body := Sample.json (JS.VArr Scenario.two_posts) |}
              (JS.VObj [ ("posts", JS.VArr [JS.VObj [("id", JS.VStr "p1")]]);
                         ("agents", JS.VArr []);
                         ("submolts",
                          JS.VArr [JS.VObj [("name", JS.VStr "automation")]]) ])
              200%Z 200%Z 1 0 1 Scenario.two_posts)
    as [[r [Hr [Ht [_ [Hl _]]]]] _];
    try reflexivity; try lia; try discriminate;
    try (left; eexists; split; reflexivity).
  exists r. unfold Index.result. rewrite Hr. repeat split; assumption.
Defined.

(** The same discovery when the posts of the submolt come wrapped in an
    object: three posts are returned, and [total_results] is 2. *)
Example discover_with_posts_in_an_object :
  exists r,
    Index.run
      (Index.discover_opportunities Reference.JSON_parse
         Reference.fraction_toString Scenario.funding_in_automation)
      (Scenario.community_world 200 Sample.scoped_answer)
    = ([ Sample.sent Index.GET "/api/v1/search?q=funding&limit=25" None;
         Sample.sent Index.GET
           "/api/v1/submolts/automation/posts?sort=hot&limit=25" None ],
       Index.Return r)
    /\ Index.DiscoverResult.total_results r = JS.VNum (JS.of_nat 2)
    /\ List.length (Index.DiscoverResult.posts r) = 3.
Proof.
  apply (@discover_merges_posts_of_object Reference.JSON_parse
           Reference.fraction_toString Scenario.funding_in_automation
           (Scenario.community_world 200 Sample.scoped_answer)
           (JS.VStr "moltbook_sk_env") "automation"
           {| Index.statusCode := Some 200%Z;
              Index.body := Sample.search_answer |}
           {| Index.statusCode := Some 200%Z;
              Index.body := Sample.scoped_answer |}
           (JS.VObj [ ("posts", JS.VArr [JS.VObj [("id", JS.VStr "p1")]]);
                      ("agents", JS.VArr []);
                      ("submolts",
                       JS.VArr [JS.VObj [("name", JS.VStr "automation")]]) ])
           (JS.VObj [("posts", JS.VArr Scenario.two_posts)])
           200%Z 200%Z 1 0 1 Scenario.two_posts);
    try reflexivity; try lia; try discriminate;
    try (left; eexists; split; reflexivity).
Qed.

(** C3: [discover_opportunities] called with an empty [query], in a process
    with a key and over any transport, hands the transport the request
    [GET /api/v1/search?q=&limit=25]: it has no test of its required
    argument, where [contribute_qf], [join_pool] and [post_update] throw
    before any request. *)
Theorem C3_discover_without_query_reaches_transport
  (JSON_parse : string -> option JS.value) (fraction_toString : Q -> string)
  (transport : Index.transport) :
  Index.calls
    (Index.discover_opportunities JSON_parse fraction_toString
       (Sample.query_only (Some EmptyString)))
    {| Index.process := Sample.process_with_key;
       Index.https_request := transport |}
  = [Sample.sent Index.GET "/api/v1/search?q=&limit=25" None].
Proof.
  unfold Index.calls, Index.run, Index.discover_opportunities. cbv zeta.
  unfold Index.bind.
  rewrite (@apiRequest_with_key JSON_parse fraction_toString _ _ _
             {| Index.process := Sample.process_with_key;
                Index.https_request := transport |} _
             (JS.VStr "moltbook_sk_env") eq_refl).
  cbn [Index.https_request].
  match goal with
  | |- context [transport [] ?r] => destruct (transport [] r) as [res|err]
  end; [|reflexivity].
  destruct (negb (Index.success (Index.on_end JSON_parse res))
            || negb (JS.truthy (Index.data (Index.on_end JSON_parse res))));
    [reflexivity|].
  cbn [Index.DiscoverOptions.submolt Sample.query_only Index.opt_str JS.truthy].
  unfold Index.ret.
  destruct (JS.spread _); reflexivity.
Qed.

(** With [query] absent the search is for the word [undefined]. *)
Example discover_absent_query (transport : Index.transport) :
  Index.calls
    (Index.discover_opportunities Reference.JSON_parse
       Reference.fraction_toString (Sample.query_only None))
    {| Index.process := Sample.process_with_key;
       Index.https_request := transport |}
  = [Sample.sent Index.GET "/api/v1/search?q=undefined&limit=25" None].
Proof.
  unfold Index.calls, Index.run, Index.discover_opportunities. cbv zeta.
  unfold Index.bind.
  rewrite (@apiRequest_with_key Reference.JSON_parse
             Reference.fraction_toString _ _ _
             {| Index.process := Sample.process_with_key;
                Index.https_request := transport |} _
             (JS.VStr "moltbook_sk_env") eq_refl).
  cbn [Index.https_request].
  match goal with
  | |- context [transport [] ?r] => destruct (transport [] r) as [res|err]
  end; [|reflexivity].
  destruct (negb (Index.success (Index.on_end Reference.JSON_parse res))
            || negb (JS.truthy
                       (Index.data (Index.on_end Reference.JSON_parse res))));
    [reflexivity|].
  cbn [Index.DiscoverOptions.submolt Sample.query_only Index.opt_str JS.truthy].
  unfold Index.ret.
  destruct (JS.spread _); reflexivity.
Qed.

(** ** Redirects *)

Section Redirects.

Import Script.

Lemma follow_starts trusted srv n req :
  exists rest, fst (follow trusted srv n req) = req :: rest.
Proof.
  destruct n; simpl; destruct (srv req) as [r|]; try (eexists; reflexivity);
    destruct (is_redirect r); try (eexists; reflexivity).
  destruct (follow trusted srv n _). eexists. reflexivity.
Qed.

(** With [--location-trusted] every hop of a chain carries the headers of the
    first request. *)
Lemma follow_trusted_headers srv n req :
  Forall (fun r => Wire.headers r = Wire.headers req)
    (fst (follow true srv n req)).
Proof.
  revert req. induction n as [|n IH]; intros req; simpl.
  - destruct (srv req) as [r|]; [destruct (is_redirect r)|];
      repeat constructor.
  - destruct (srv req) as [r|]; [|repeat constructor].
    destruct (is_redirect r) as [to|]; [|repeat constructor].
    specialize (IH (next_hop true req (Wire.status r) to)).
    destruct (follow true srv n _) as [hops last]. simpl in *.
    constructor; [reflexivity | exact IH].
Qed.

(** A redirect is followed: the second request of the chain goes where the
    [Location] header points. *)
Lemma follow_second_hop trusted srv n req answer to :
  srv req = Some answer -> is_redirect answer = Some to ->
  exists rest,
    fst (follow trusted srv (S n) req)
    = req :: next_hop trusted req (Wire.status answer) to :: rest.
Proof.
  intros Hs Hr. simpl. rewrite Hs, Hr.
  destruct (follow_starts trusted srv n
              (next_hop trusted req (Wire.status answer) to)) as [rest E].
  destruct (follow trusted srv n _) as [hops last]. simpl in *. subst hops.
  exists rest. reflexivity.
Qed.

End Redirects.

(** The plugin makes at most one exchange for a call of [apiRequest], with
    the host [www.moltbook.com].  It does not follow redirects: an answer
    with a status in 300..399 ends the call with a failure envelope.  A
    request that [https.request] refuses is not sent, and the call throws
    the exception. *)
Lemma apiRequest_one_exchange
  (JSON_parse : string -> option JS.value) (fraction_toString : Q -> string)
  (srv : Wire.server) (p : Index.Process) (method : Index.Method)
  (endpoint : string) (payload : JS.value) :
  let w := {| Index.process := p;
              Index.https_request := Index.node_https srv |} in
  let call := Index.apiRequest JSON_parse fraction_toString
                method endpoint payload in
  let hops := Index.exchanges (Index.calls call w) in
  List.length hops <= 1
  /\ Forall (fun r => Wire.origin (Wire.target r)
                      = "https://www.moltbook.com") hops
  /\ forall k,
       Index.getApiKey JSON_parse p = Index.Return k ->
       let req := Index.client_request fraction_toString k method endpoint
                    payload in
       (forall e, Index.refusal req = Some e ->
                  hops = [] /\ Index.result call w = Index.Throw e)
       /\ (forall answer,
             Index.refusal req = None ->
             srv (Index.wire_of req) = Some answer ->
             (300 <= Wire.status answer < 400)%Z ->
             hops = [Index.wire_of req]
             /\ exists envelope,
                 Index.result call w = Index.Return envelope
                 /\ Index.success envelope = false).
Proof.
  intros w call hops.
  unfold hops, Index.exchanges, Index.calls, Index.result, Index.run, call.
  destruct (Index.getApiKey JSON_parse p) as [k|e] eqn:Hk.
  - rewrite (@apiRequest_with_key JSON_parse fraction_toString _ _ _ w _ k Hk).
    cbn [fst snd app filter].
    set (req := Index.client_request fraction_toString k method endpoint
                  payload).
    unfold w. cbn [Index.https_request]. unfold Index.node_https.
    destruct (Index.refusal req) as [e|] eqn:Hr; cbn [map List.length].
    + split; [lia|]. split; [constructor|].
      intros k' Hk'. injection Hk' as <-. fold req. cbv zeta. split.
      * intros e' He'. rewrite Hr in He'. injection He' as <-.
        split; reflexivity.
      * intros answer Hn. rewrite Hr in Hn. discriminate.
    + split; [lia|]. split; [repeat constructor|].
      intros k' Hk'. injection Hk' as <-. fold req. cbv zeta. split.
      * intros e' He'. rewrite Hr in He'. discriminate.
      * intros answer _ Hsrv Hst. split; [reflexivity|].
        rewrite Hsrv. eexists. split; [reflexivity|].
        apply on_end_not_2xx. cbn [Index.statusCode Index.status_2xx].
        destruct (Z.ltb_spec (Wire.status answer) 300); [lia|].
        rewrite andb_false_r. reflexivity.
  - rewrite (@apiRequest_no_key JSON_parse fraction_toString _ _ _ w _ e Hk).
    cbn [fst filter map List.length]. split; [lia|]. split; [constructor|].
    intros k' Hk'. discriminate.
Qed.

(** Every request of the script goes first to [https://www.moltbook.com]:
    the endpoint comes after the path [/api/v1] and cannot change the
    host. *)
Lemma api_request_origin jq_api_key env method endpoint data :
  Wire.origin
    (Wire.target
       (Script.first_request
          (Script.api_request jq_api_key env method endpoint data)))
  = "https://www.moltbook.com".
Proof. reflexivity. Qed.

(** C2: the script sends the bearer token to another host.  For every
    request of the script that [curl] takes literally, and every network
    where the first request, to [https://www.moltbook.com], is answered with
    a redirect to another origin: [curl --location-trusted] makes a second
    request, to the target of the redirect, with the [Authorization] header
    and the token, as has every request of the chain.  With [--location]
    alone the request that follows the redirect has no [Authorization]
    header. *)
Theorem C2_script_sends_token_to_other_host
  (jq_api_key : Host.file -> string * Z) (env : Script.Env)
  (method endpoint data : string) (srv : Wire.server)
  (answer : Wire.Response) (to : Wire.Target) :
  let c := Script.api_request jq_api_key env method endpoint data in
  Script.taken_literally c = true ->
  srv (Script.first_request c) = Some answer ->
  Script.is_redirect answer = Some to ->
  Wire.origin to <> "https://www.moltbook.com" ->
  Script.location_trusted c = true
  /\ Wire.origin (Wire.target (Script.first_request c))
     = "https://www.moltbook.com"
  /\ (exists next rest last,
        Script.perform c srv
        = Some (Script.first_request c :: next :: rest, last)
        /\ Wire.target next = to
        /\ Forall (fun r => Wire.header "Authorization" (Wire.headers r)
                            = Some ("Bearer "
                                      ++ Script.API_KEY jq_api_key env))
             (Script.first_request c :: next :: rest))
  /\ Wire.header "Authorization"
       (Wire.headers
          (Script.next_hop false (Script.first_request c)
             (Wire.status answer) to))
     = None.
Proof.
  intros c Hlit Hs Hr Hto.
  assert (Ho : Wire.origin (Wire.target (Script.first_request c))
               = "https://www.moltbook.com")
    by apply api_request_origin.
  split; [reflexivity|]. split; [exact Ho|]. split.
  - unfold Script.perform. rewrite Hlit.
    pose proof (follow_trusted_headers srv Script.max_redirs
                  (Script.first_request c)) as Hall.
    destruct (@follow_second_hop true srv 49 (Script.first_request c)
                answer to Hs Hr) as [rest E].
    change (Script.location_trusted c) with true.
    change Script.max_redirs with 50 in *.
    destruct (Script.follow true srv 50 (Script.first_request c))
      as [hops last].
    cbn [fst] in *. subst hops.
    eexists _, rest, last. split; [reflexivity|]. split; [reflexivity|].
    eapply Forall_impl; [|exact Hall]. intros r ->. reflexivity.
  - unfold Script.next_hop, Wire.same_origin. cbn [Wire.headers orb].
    rewrite Ho.
    assert (E : String.eqb "https://www.moltbook.com" (Wire.origin to)
                = false).
    { apply String.eqb_neq. intros E. apply Hto. symmetry. exact E. }
    rewrite E. reflexivity.
Qed.

(** C2, witness: the profile request of the script, over a network where
    [www.moltbook.com] answers with a redirect to [evil.example]: the second
    request goes there with the token. *)
Lemma C2_script_sends_token_to_other_host_witness :
  exists next rest last,
    Script.perform
      (Script.api_request Sample.no_jq_api_key Sample.script_env
         "GET" "/agents/me" EmptyString)
      Sample.redirecting_elsewhere
    = Some (Script.first_request
              (Script.api_request Sample.no_jq_api_key Sample.script_env
                 "GET" "/agents/me" EmptyString) :: next :: rest, last)
    /\ Wire.target next = Sample.elsewhere
    /\ Forall (fun r => Wire.header "Authorization" (Wire.headers r)
                        = Some ("Bearer "
                                  ++ Script.API_KEY Sample.no_jq_api_key
                                       Sample.script_env))
         (Script.first_request
            (Script.api_request Sample.no_jq_api_key Sample.script_env
               "GET" "/agents/me" EmptyString) :: next :: rest).
Proof.
  destruct (@C2_script_sends_token_to_other_host Sample.no_jq_api_key
              Sample.script_env "GET" "/agents/me" EmptyString
              Sample.redirecting_elsewhere
              {| Wire.status := 302; Wire.location := Some Sample.elsewhere;
                 Wire.payload := EmptyString |}
              Sample.elsewhere eq_refl eq_refl eq_refl
              ltac:(discriminate)) as [_ [_ [H _]]].
  exact H.
Defined.

(** The two clients on sample networks.  Over a network that redirects
    within the trusted origin, the plugin makes the first request only and
    returns a failure, and the script follows the redirect.  Over a network
    where the trusted origin redirects to another host, the script makes
    two requests, the second to that host with the headers of the first. *)
Example redirects_on_sample_networks :
  Index.run
    (Index.apiRequest Reference.JSON_parse Reference.fraction_toString
       Index.GET "/agents/me" JS.VUndefined)
    {| Index.process := Sample.process_with_key;
       Index.https_request := Index.node_https Sample.redirecting_within |}
  = ([Sample.sent Index.GET "/api/v1/agents/me" None],
     Index.Return Index.parse_failure)
  /\ Script.perform
       (Script.api_request Sample.no_jq_api_key Sample.script_env
          "GET" "/agents/me" EmptyString)
       Sample.redirecting_within
     = Some ([ Sample.get_me Sample.script_headers
                 (Sample.moltbook "/api/v1/agents/me");
               Sample.get_me Sample.script_headers
                 (Sample.moltbook "/api/v1/agents/me/") ],
             Some {| Wire.status := 200; Wire.location := None;
                     Wire.payload := Sample.object1 "name" "agent" |})
  /\ Script.perform
       (Script.api_request Sample.no_jq_api_key Sample.script_env
          "GET" "/agents/me" EmptyString)
       Sample.redirecting_elsewhere
     = Some ([ Sample.get_me Sample.script_headers
                 (Sample.moltbook "/api/v1/agents/me");
               Sample.get_me Sample.script_headers Sample.elsewhere ],
             Some {| Wire.status := 200; Wire.location := None;
                     Wire.payload := "{}" |})
  /\ Wire.header "Authorization" Sample.script_headers
     = Some "Bearer moltbook_sk_env".
Proof. repeat split; reflexivity. Qed.

(** An agent name with a space: [curl] does not take the URL literally. *)
Example agent_info_with_space_not_literal :
  Script.taken_literally
    (Script.api_request Sample.no_jq_api_key Sample.script_env
       "GET" "/agents/some agent" EmptyString)
  = false.
Proof. reflexivity. Qed.

(** ** The commands of the script *)

Section ScriptCommands.

Import Script.

Variable jq_api_key : Host.file -> string * Z.
Variable jq_uri : string -> string.
Variable jq_n : list (string * string) -> string -> string.
Variable env : Env.


Lemma require_full (args : list string) (usage : string) (rest : run) :
  existsb Str.is_empty args = false -> require args usage rest = rest.
Proof. intros H. unfold require. rewrite H. reflexivity. Qed.

(** The contribution command tests that its arguments are not empty and
    nothing else about the amount: for every amount, a number or not,
    positive or not, it runs [curl] on the contribute path. *)
Lemma cmd_qf_contribute_any_amount (pool_id amount : string) :
  pool_id <> EmptyString -> amount <> EmptyString ->
  API_KEY jq_api_key env <> EmptyString ->
  exists data,
    cmd_qf_contribute jq_api_key jq_n env pool_id amount
    = Request EmptyString
        {| silent := true; location_trusted := true; X := "POST";
           url := BASE_URL ++ "/qf/pools/" ++ pool_id ++ "/contribute";
           H := [ ("Authorization", "Bearer " ++ API_KEY jq_api_key env);
                  ("Content-Type", "application/json") ];
           d := data |}.
Proof.
  intros Hp Ha Hk. unfold cmd_qf_contribute.
  rewrite require_full
    by (simpl; rewrite (is_empty_false Hp), (is_empty_false Ha); reflexivity).
  unfold check_auth. rewrite (is_empty_false Hk).
  eexists. reflexivity.
Qed.

(** The profile command puts the name in the query as it is. *)
Lemma cmd_agent_info_url (agent_name : string) :
  agent_name <> EmptyString ->
  API_KEY jq_api_key env <> EmptyString ->
  exists c,
    cmd_agent_info jq_api_key env agent_name = Request EmptyString c
    /\ url c = BASE_URL ++ "/agents/profile?name=" ++ agent_name.
Proof.
  intros Hn Hk. unfold cmd_agent_info.
  rewrite require_full by (simpl; rewrite (is_empty_false Hn); reflexivity).
  unfold check_auth. rewrite (is_empty_false Hk).
  eexists. split; reflexivity.
Qed.

Variable help_text : string.


(** The script tells a missing body from the body [{}] as well: no [-d] for
    an empty third argument, [-d '{}'] for the empty object. *)
Lemma api_request_data (method endpoint : string) :
  d (api_request jq_api_key env method endpoint EmptyString) = None
  /\ d (api_request jq_api_key env method endpoint "{}") = Some "{}".
Proof. split; reflexivity. Qed.

End ScriptCommands.

(** C7: the script run as [moltbook.sh qf_contribute pool123 -5], with a key,
    runs [curl] with a POST to the contribute path of the pool, whatever [jq]
    makes of the amount: the amount is not tested to be positive, where
    [contribute_qf] of the plugin throws for it before any request. *)
Theorem C7_script_sends_negative_amount
  (jq_uri : string -> string)
  (jq_n : list (string * string) -> string -> string) (help_text : string) :
  exists data,
    Script.main Sample.no_jq_api_key jq_uri jq_n help_text Sample.script_env
      ["qf_contribute"; "pool123"; "-5"]
    = Script.Request EmptyString
        (Sample.curl_with_key "POST"
           "https://www.moltbook.com/api/v1/qf/pools/pool123/contribute" data)
    /\ data = (let text := Script.command_subst
                             (jq_n [("amt", "-5")]
                                "{amount: ($amt | tonumber)}") in
               if negb (Str.is_empty text) then Some text else None).
Proof. eexists. split; reflexivity. Qed.

(** The plugin on the same input: an [Error], and nothing sent. *)
Example contribute_qf_negative_amount (w : Index.World) :
  Index.run
    (Index.contribute_qf Reference.JSON_parse Reference.fraction_toString
       {| Index.ContributeQFOptions.pool_id := Some "pool123";
          Index.ContributeQFOptions.amount := Some (JS.of_Z (-5)) |}) w
  = ([], Index.Throw (Index.Error "amount must be a positive number")).
Proof. reflexivity. Qed.

(** The plugin on the amount 100: one POST with the body
    [{"amount":100}]. *)
Example contribute_qf_100 :
  Index.calls
    (Index.contribute_qf Reference.JSON_parse Reference.fraction_toString
       {| Index.ContributeQFOptions.pool_id := Some "pool123";
          Index.ContributeQFOptions.amount := Some (JS.of_Z 100) |})
    (Sample.world 200 "{}")
  = [Sample.sent Index.POST "/api/v1/qf/pools/pool123/contribute"
       (Some ("{" ++ Str.dq ++ "amount" ++ Str.dq ++ ":100}"))].
Proof. reflexivity. Qed.

(** The end-to-end scenario: contributing 100 to [pool123] makes one POST to
    the contribute path with the body [{"amount":100}], and the object of the
    answer is returned as it is. *)
Example contribute_qf_end_to_end :
  Sample.json Sample.contribution
  = "{" ++ Str.dq ++ "success" ++ Str.dq ++ ":true," ++ Str.dq ++ "pool_id"
    ++ Str.dq ++ ":" ++ Str.dq ++ "pool123" ++ Str.dq ++ "," ++ Str.dq
    ++ "amount_contributed" ++ Str.dq ++ ":100," ++ Str.dq ++ "new_total"
    ++ Str.dq ++ ":500," ++ Str.dq ++ "matching_multiplier" ++ Str.dq
    ++ ":2.5," ++ Str.dq ++ "message" ++ Str.dq ++ ":" ++ Str.dq ++ "ok"
    ++ Str.dq ++ "}"
  /\ Index.run
       (Index.contribute_qf Reference.JSON_parse Reference.fraction_toString
          {| Index.ContributeQFOptions.pool_id := Some "pool123";
             Index.ContributeQFOptions.amount := Some (JS.of_Z 100) |})
       (Sample.world 200 (Sample.json Sample.contribution))
     = ([Sample.sent Index.POST "/api/v1/qf/pools/pool123/contribute"
           (Some ("{" ++ Str.dq ++ "amount" ++ Str.dq ++ ":100}"))],
        Index.Return Sample.contribution).
Proof. split; reflexivity. Qed.

(** The plugin on an infinite amount: it is let through, and the body is
    [{"amount":null}]. *)
Example contribute_qf_infinite :
  Index.calls
    (Index.contribute_qf Reference.JSON_parse Reference.fraction_toString
       {| Index.ContributeQFOptions.pool_id := Some "pool123";
          Index.ContributeQFOptions.amount := Some (JS.Infinity false) |})
    (Sample.world 200 "{}")
  = [Sample.sent Index.POST "/api/v1/qf/pools/pool123/contribute"
       (Some ("{" ++ Str.dq ++ "amount" ++ Str.dq ++ ":null}"))].
Proof. reflexivity. Qed.

(** ** Query values in URLs *)

Lemma encode_byte_safe (c : ascii) :
  Str.forallb JS.uri_safe
    (if JS.uri_unreserved c then Str.of_ascii c else "%" ++ Str.hex2 true c)
  = true.
Proof. destruct c as [[] [] [] [] [] [] [] []]; reflexivity. Qed.

(** The output of [encodeURIComponent] is made of unreserved characters and
    percent signs. *)
Lemma encodeURIComponent_safe (s : string) :
  Str.forallb JS.uri_safe (JS.encodeURIComponent s) = true.
Proof.
  induction s as [|c s IH]; [reflexivity|].
  cbn [JS.encodeURIComponent]. rewrite StrFacts.forallb_app, IH.
  rewrite encode_byte_safe. reflexivity.
Qed.

(** In particular it has no space, no ampersand, no equals sign, no hash and
    no question mark. *)
Lemma encodeURIComponent_no_separator (s : string) (c : ascii) :
  Str.mem c " &=#?+/" = true -> Str.mem c (JS.encodeURIComponent s) = false.
Proof.
  intros H. apply StrFacts.mem_false_of_forallb with (p := JS.uri_safe).
  - apply encodeURIComponent_safe.
  - destruct c as [[] [] [] [] [] [] [] []]; try reflexivity; discriminate.
Qed.

(** The search of the plugin for [a b&c]: the value is encoded. *)
Example discover_query_encoded (transport : Index.transport) :
  Index.calls
    (Index.discover_opportunities Reference.JSON_parse
       Reference.fraction_toString (Sample.query_only (Some "a b&c")))
    {| Index.process := Sample.process_with_key;
       Index.https_request := transport |}
  = [Sample.sent Index.GET "/api/v1/search?q=a%20b%26c&limit=25" None].
Proof.
  unfold Index.calls, Index.run, Index.discover_opportunities. cbv zeta.
  unfold Index.bind.
  rewrite (@apiRequest_with_key Reference.JSON_parse
             Reference.fraction_toString _ _ _
             {| Index.process := Sample.process_with_key;
                Index.https_request := transport |} _
             (JS.VStr "moltbook_sk_env") eq_refl).
  cbn [Index.https_request].
  match goal with
  | |- context [transport [] ?r] => destruct (transport [] r) as [res|err]
  end; [|reflexivity].
  destruct (negb (Index.success (Index.on_end Reference.JSON_parse res))
            || negb (JS.truthy
                       (Index.data (Index.on_end Reference.JSON_parse res))));
    [reflexivity|].
  cbn [Index.DiscoverOptions.submolt Sample.query_only Index.opt_str JS.truthy].
  unfold Index.ret.
  destruct (JS.spread _); reflexivity.
Qed.

(** C8: the script run as [moltbook.sh agent_info "a b&c"], with a key, runs
    [curl] on a URL that holds the name as it was given, with its space and
    its ampersand, where the search commands pass their query through
    [jq @uri]. *)
Theorem C8_script_agent_info_not_encoded
  (jq_uri : string -> string)
  (jq_n : list (string * string) -> string -> string) (help_text : string) :
  Script.main Sample.no_jq_api_key jq_uri jq_n help_text Sample.script_env
    ["agent_info"; "a b&c"]
  = Script.Request EmptyString
      (Sample.curl_with_key "GET"
         "https://www.moltbook.com/api/v1/agents/profile?name=a b&c" None)
  /\ Str.contains " " "https://www.moltbook.com/api/v1/agents/profile?name=a b&c"
     = true
  /\ Str.contains "&c" "https://www.moltbook.com/api/v1/agents/profile?name=a b&c"
     = true.
Proof. split; [reflexivity | split; reflexivity]. Qed.

(** * Further properties of the plugin *)

Section Envelope.

Import JS Index.

Variable JSON_parse : string -> option value.

Local Abbreviation on_end := (Index.on_end JSON_parse).
Local Abbreviation getApiKey := (Index.getApiKey JSON_parse).

Lemma error_of_truthy parsed e :
  error_of parsed = Some e -> truthy e = true.
Proof.
  unfold error_of. destruct (get_prop "error" parsed) as [x|]; [|discriminate].
  destruct (truthy x) eqn:Tx.
  - intros H. injection H as <-. exact Tx.
  - destruct (get_prop "message" parsed) as [m|]; [|discriminate].
    intros H. injection H as <-. unfold or_else.
    destruct (truthy m) eqn:Tm; [exact Tm | reflexivity].
Qed.

(** X13: the envelope of a response is a success exactly when the body
    parses and the status is in 200..299.  A success carries the parsed body
    and no error; a failure carries no data and an error that is truthy, so
    that [result.error || fallback] is [result.error] on every failure. *)
Theorem on_end_classifies (res : IncomingMessage) :
  (success (on_end res) = true <->
   exists parsed s,
     JSON_parse (body res) = Some parsed
     /\ statusCode res = Some s /\ (200 <= s < 300)%Z)
  /\ (success (on_end res) = true ->
      JSON_parse (body res) = Some (data (on_end res))
      /\ error (on_end res) = VUndefined)
  /\ (success (on_end res) = false ->
      data (on_end res) = VUndefined
      /\ truthy (error (on_end res)) = true).
Proof.
  unfold Index.on_end.
  destruct (JSON_parse (body res)) as [parsed|] eqn:Hp.
  - destruct (status_2xx (statusCode res)) eqn:Hs.
    + split; [|split]; cbn [success data error].
      * split; [intros _|reflexivity].
        apply status_2xx_spec in Hs. destruct Hs as [s [E H]].
        exists parsed, s. auto.
      * intros _. split; reflexivity.
      * discriminate.
    + assert (F : success
                    match error_of parsed with
                    | Some e => {| success := false; data := VUndefined;
                                   error := e |}
                    | None => parse_failure
                    end = false)
        by (destruct (error_of parsed); reflexivity).
      split; [|split].
      * rewrite F. split; [discriminate|].
        intros [parsed' [s [E1 [E2 E3]]]].
        assert (H : status_2xx (statusCode res) = true)
          by (apply status_2xx_spec; eauto).
        congruence.
      * rewrite F. discriminate.
      * intros _. destruct (error_of parsed) as [e|] eqn:He.
        -- split; [reflexivity|]. exact (error_of_truthy _ He).
        -- split; reflexivity.
  - split; [|split]; cbn [success data error parse_failure].
    + split; [discriminate|]. intros [parsed [s [E _]]]. discriminate.
    + discriminate.
    + intros _. split; reflexivity.
Qed.

(** X1: [getApiKey] returns a key exactly in two cases: the environment
    variable is set and not empty, and the key is its value; or the variable
    is unset or empty, the configuration file can be read and parses, and the
    key is its truthy [api_key].  In every other case it throws. *)
Theorem getApiKey_resolution (p : Process) (key : value) :
  getApiKey p = Return key <->
  (exists k, MOLTBOOK_API_KEY p = Some k /\ k <> EmptyString /\ key = VStr k)
  \/ (absent_or_empty (MOLTBOOK_API_KEY p)
      /\ exists contents config,
          fs p (CONFIG_FILE p) = Host.File contents
          /\ JSON_parse contents = Some config
          /\ get_prop_opt "api_key" config = key
          /\ truthy key = true).
Proof.
  unfold Index.getApiKey, config_api_key, absent_or_empty. split.
  - destruct (MOLTBOOK_API_KEY p) as [[|c k]|] eqn:Henv; cbn [opt_str truthy
      Str.is_empty negb].
    2:{ intros H. injection H as <-. left. exists (String c k).
        repeat split. discriminate. }
    all: intros H; right; split; [auto|];
      destruct (fs p (CONFIG_FILE p)) as [| | |contents]; try discriminate;
      destruct (JSON_parse contents) as [config|] eqn:Hp; try discriminate;
      unfold get_prop_opt;
      destruct (get_prop "api_key" config) as [x|] eqn:Hg; try discriminate;
      destruct (truthy x) eqn:Tx; try discriminate;
      injection H as <-; exists contents, config; rewrite Hg; auto.
  - intros [[k [Henv [Hk ->]]] | [Henv [contents [config [Hf [Hp [Hg Ht]]]]]]].
    + rewrite Henv. cbn [opt_str]. rewrite (truthy_nonempty Hk). reflexivity.
    + assert (E : truthy (opt_str (MOLTBOOK_API_KEY p)) = false)
        by (destruct Henv as [-> | ->]; reflexivity).
      rewrite E, Hf, Hp. unfold get_prop_opt in Hg.
      destruct (get_prop "api_key" config) as [x|].
      * subst x. rewrite Ht. reflexivity.
      * subst key. discriminate.
Qed.

End Envelope.

(** ** Query values *)

Lemma percent_decode_byte (c : ascii) (t : string) :
  Behaviour.percent_decode
    ((if JS.uri_unreserved c then Str.of_ascii c
      else "%" ++ Str.hex2 true c) ++ t)
  = String c (Behaviour.percent_decode t).
Proof. destruct c as [[] [] [] [] [] [] [] []]; reflexivity. Qed.

Lemma percent_decode_encode (s : string) :
  Behaviour.percent_decode (JS.encodeURIComponent s) = s.
Proof.
  induction s as [|c s IH]; [reflexivity|].
  cbn [JS.encodeURIComponent]. rewrite percent_decode_byte, IH. reflexivity.
Qed.

Lemma split_at_ampersand (a b x y : string) :
  Str.mem "&" a = false -> Str.mem "&" b = false ->
  a ++ String "&" x = b ++ String "&" y -> a = b.
Proof.
  revert b. induction a as [|c a IH]; intros [|c' b] Ha Hb H; simpl in *.
  - reflexivity.
  - injection H as <- _. simpl in Hb. discriminate.
  - injection H as -> _. simpl in Ha. discriminate.
  - injection H as <- H. apply orb_false_iff in Ha, Hb.
    f_equal. apply IH; tauto.
Qed.

(** X12: the search request determines the query.  [encodeURIComponent]
    loses nothing (percent-decoding its output gives the string back), and
    its output has no ampersand, so two searches whose paths are equal are
    searches for the same query, whatever their limits. *)
Theorem search_path_determines_query (q : string) :
  Behaviour.percent_decode (JS.encodeURIComponent q) = q
  /\ forall q' limit limit',
      "/search?q=" ++ JS.encodeURIComponent q ++ "&limit=" ++ limit
      = "/search?q=" ++ JS.encodeURIComponent q' ++ "&limit=" ++ limit' ->
      q = q'.
Proof.
  split; [apply percent_decode_encode|].
  intros q' limit limit' H. simpl in H. injection H as H.
  apply split_at_ampersand in H;
    try (apply encodeURIComponent_no_separator; reflexivity).
  rewrite <- (percent_decode_encode q), H. apply percent_decode_encode.
Qed.

(** ** Whole runs of the exported actions *)

Section WholeRuns.

Import JS Index Behaviour.

Variable JSON_parse : string -> option value.
Variable fraction_toString : Q -> string.

Local Abbreviation getApiKey := (Index.getApiKey JSON_parse).
Local Abbreviation on_end := (Index.on_end JSON_parse).
Local Abbreviation client_request := (Index.client_request fraction_toString).
Local Abbreviation apiRequest :=
  (Index.apiRequest JSON_parse fraction_toString).
Local Abbreviation invoke := (Behaviour.invoke JSON_parse fraction_toString).
Local Abbreviation ToString := (JS.ToString fraction_toString).

Lemma sends_in_ret {A : Type} P (a : A) : sends_in P (ret a).
Proof.
  intros w log. exists [], (Return a). split; [|constructor].
  unfold ret. rewrite app_nil_r. reflexivity.
Qed.

Lemma sends_in_throw {A : Type} P e : sends_in P (@throw A e).
Proof.
  intros w log. exists [], (Throw e). split; [|constructor].
  unfold throw. rewrite app_nil_r. reflexivity.
Qed.

Lemma sends_in_bind {A B : Type} P (c : M A) (k : A -> M B) :
  sends_in P c -> (forall a, sends_in P (k a)) -> sends_in P (bind c k).
Proof.
  intros Hc Hk w log. unfold bind.
  destruct (Hc w log) as [extra [out [E F]]]. rewrite E.
  destruct out as [a|e].
  - destruct (Hk a w (log ++ extra)%list) as [extra' [out' [E' F']]].
    exists (extra ++ extra')%list, out'. rewrite E', app_assoc.
    split; [reflexivity | apply Forall_app; split; assumption].
  - exists extra, (Throw e). split; [reflexivity | assumption].
Qed.

Lemma sends_in_apiRequest P method endpoint payload :
  (forall w k, getApiKey (process w) = Return k ->
               P w (client_request k method endpoint payload)) ->
  sends_in P (apiRequest method endpoint payload).
Proof.
  intros HP w log. destruct (getApiKey (process w)) as [k|e] eqn:Hk.
  - rewrite (apiRequest_with_key JSON_parse fraction_toString _ _ _ _ _ Hk).
    eexists _, _. split; [reflexivity|].
    constructor; [apply HP, Hk | constructor].
  - rewrite (apiRequest_no_key JSON_parse fraction_toString _ _ _ _ _ Hk).
    exists [], (Throw e). rewrite app_nil_r. split; [reflexivity|constructor].
Qed.

Lemma client_request_well_addressed w k method endpoint payload :
  getApiKey (process w) = Return k ->
  String.prefix "/" endpoint = true ->
  well_addressed JSON_parse fraction_toString w
    (client_request k method endpoint payload).
Proof.
  intros Hk Hp. unfold well_addressed. split; [reflexivity|]. split.
  - destruct endpoint as [|c rest]; [discriminate|].
    assert (E : c = "/"%char).
    { unfold String.prefix in Hp.
      destruct (ascii_dec "/" c) as [<-|]; [reflexivity | discriminate]. }
    subst c. destruct rest; reflexivity.
  - exists k. split; [exact Hk | reflexivity].
Qed.

Ltac sends_in_step :=
  match goal with
  | |- sends_in _ (bind _ _) => apply sends_in_bind; [| intros ?]
  | |- sends_in _ (ret _) => apply sends_in_ret
  | |- sends_in _ (throw _) => apply sends_in_throw
  | |- sends_in _ (Index.apiRequest _ _ _ _ _) =>
      apply sends_in_apiRequest; intros ? ? ?
  | |- sends_in _ (if ?b then _ else _) => destruct b
  | |- sends_in _ (match ?x with _ => _ end) => destruct x
  end.

(** X2: every request that an exported action hands to the transport is for
    the host [www.moltbook.com], on a path under [/api/v1/], and carries the
    headers [Authorization: Bearer <key>] (with the key the process
    resolves), [Content-Type: application/json] and [User-Agent]; this
    whatever the arguments of the action and the answers of the transport. *)
Theorem every_request_well_addressed (c : call) :
  sends_in (well_addressed JSON_parse fraction_toString) (invoke c).
Proof.
  destruct c; unfold Behaviour.invoke, void;
    unfold Index.discover_opportunities, Index.contribute_qf, Index.join_pool,
      Index.post_update, Index.list_qf_pools, Index.get_qf_pool,
      Index.leave_pool, Index.list_joined_pools, Index.add_comment,
      Index.upvote_post, Index.downvote_post, Index.subscribe_submolt,
      Index.post_empty, Index.get_profile, Index.get_status, Index.get_feed;
    cbv zeta; repeat sends_in_step;
    try (apply client_request_well_addressed; [assumption|];
         try reflexivity;
         match goal with
         | |- context [if ?b then _ else _] => destruct b; reflexivity
         end).
Qed.

(** *** Failures *)













End WholeRuns.

(** ** Results of the actions *)

Section Results.

Import JS Index Behaviour.

Variable JSON_parse : string -> option value.
Variable fraction_toString : Q -> string.

Local Abbreviation getApiKey := (Index.getApiKey JSON_parse).
Local Abbreviation on_end := (Index.on_end JSON_parse).
Local Abbreviation client_request := (Index.client_request fraction_toString).
Local Abbreviation apiRequest :=
  (Index.apiRequest JSON_parse fraction_toString).
Local Abbreviation ToString := (JS.ToString fraction_toString).
Local Abbreviation Number_toString := (JS.Number_toString fraction_toString).

Local Abbreviation search_request :=
  (Behaviour.search_request fraction_toString).
Local Abbreviation scoped_request :=
  (Behaviour.scoped_request fraction_toString).
Local Abbreviation feed_request :=
  (Behaviour.feed_request fraction_toString).

(** X5: [discover_opportunities] with a submolt filter, when the search is
    answered with a success and the scoped call with a failure (a status
    outside 200..299 or a body that does not parse): the failure is
    swallowed.  The two requests are made, the action returns, and the posts
    returned are the posts of the search alone. *)
Theorem discover_survives_scoped_failure
  (o : DiscoverOptions.t) (w : World) (k : value) (filter : string)
  (res1 res2 : IncomingMessage) (found : value) (s1 : Z) (l : list value) :
  getApiKey (process w) = Return k ->
  DiscoverOptions.submolt o = Some filter -> filter <> EmptyString ->
  https_request w [] (search_request k o) = Response res1 ->
  https_request w [search_request k o] (scoped_request k o) = Response res2 ->
  JSON_parse (body res1) = Some found -> truthy found = true ->
  statusCode res1 = Some s1 -> (200 <= s1 < 300)%Z ->
  get_prop_opt "posts" found = VArr l ->
  success (on_end res2) = false ->
  exists r,
    run (discover_opportunities JSON_parse fraction_toString o) w
    = ([search_request k o; scoped_request k o], Return r)
    /\ DiscoverResult.posts r = l.
Proof.
  intros Hk Hf Hne H1 H2 Hp1 Ht1 Hs1 Hr1 Hl Hfail.
  unfold Behaviour.search_request, Behaviour.scoped_request in *.
  unfold run, Index.discover_opportunities. cbv zeta. unfold bind.
  rewrite (@answered JSON_parse fraction_toString w _ _ _ _ _ _ _ _ Hk H1 Hp1 Hs1 Hr1).
  cbn [success data negb orb app]. rewrite Ht1. cbn [negb].
  rewrite (opt_str_truthy Hf Hne).
  rewrite (apiRequest_with_key JSON_parse fraction_toString _ _ _ _ _ Hk).
  rewrite H2. unfold ret. rewrite Hfail. cbn [andb app].
  rewrite Hl. cbn [or_else truthy spread].
  eexists. split; [reflexivity|].
  cbn [DiscoverResult.posts]. apply app_nil_r.
Qed.

(** X6: [get_feed] makes one request, a GET without body, on the path of the
    submolt ([/api/v1/submolts/<name>/posts]) when a submolt is supplied and
    on the global path ([/api/v1/posts]) otherwise; the sort key defaults to
    [hot], the limit to 25, and a sort key that is given goes into the query
    as it is, whatever it is. *)
Theorem get_feed_request (sort : option string) (limit : option number)
  (submolt : option string) (w : World) (k : value) :
  getApiKey (process w) = Return k ->
  calls (get_feed JSON_parse fraction_toString sort limit submolt) w
  = [ {| options :=
           {| hostname := "www.moltbook.com";
              path :=
                match submolt with
                | Some (String c name) =>
                    "/api/v1/submolts/" ++ String c name ++ "/posts?sort="
                      ++ match sort with Some key => key | None => "hot" end
                      ++ "&limit="
                      ++ Number_toString
                           match limit with
                           | Some n => n
                           | None => of_Z 25
                           end
                | _ =>
                    "/api/v1/posts?sort="
                      ++ match sort with Some key => key | None => "hot" end
                      ++ "&limit="
                      ++ Number_toString
                           match limit with
                           | Some n => n
                           | None => of_Z 25
                           end
                end;
              method := GET;
              headers := request_headers fraction_toString k |};
         written := None |} ].
Proof.
  intros Hk. unfold calls, run, Index.get_feed. cbv zeta. unfold bind.
  rewrite (apiRequest_with_key JSON_parse fraction_toString _ _ _ _ _ Hk).
  destruct (https_request w [] _) as [res|e].
  - destruct (negb (success (on_end res)));
      [|destruct (data (on_end res))];
      destruct submolt as [[|c name]|]; reflexivity.
  - destruct submolt as [[|c name]|]; reflexivity.
Qed.

(** X7: [get_feed] gives one list for the two shapes of a successful answer
    to its request: a bare array is returned as it is, an object is replaced
    by its [posts] array, and an answer with neither is the empty list. *)
Theorem get_feed_normalizes (sort : option string) (limit : option number)
  (submolt : option string) (w : World) (k : value)
  (res : IncomingMessage) (parsed : value) (s : Z) :
  getApiKey (process w) = Return k ->
  https_request w [] (feed_request k sort limit submolt) = Response res ->
  JSON_parse (body res) = Some parsed ->
  statusCode res = Some s -> (200 <= s < 300)%Z ->
  calls (get_feed JSON_parse fraction_toString sort limit submolt) w
  = [feed_request k sort limit submolt]
  /\ (forall l, parsed = VArr l \/ get_prop_opt "posts" parsed = VArr l ->
        result (get_feed JSON_parse fraction_toString sort limit submolt) w
        = Return (VArr l))
  /\ ((forall l, parsed <> VArr l) ->
      truthy (get_prop_opt "posts" parsed) = false ->
      result (get_feed JSON_parse fraction_toString sort limit submolt) w
      = Return (VArr [])).
Proof.
  intros Hk Hnet Hp Hs Hr.
  unfold Behaviour.feed_request in *.
  unfold calls, result, run, Index.get_feed. cbv zeta. unfold bind.
  rewrite (@answered JSON_parse fraction_toString w _ _ _ _ _ _ _ _ Hk Hnet Hp Hs Hr).
  cbn [success data negb fst snd app]. split; [|split].
  - destruct parsed; reflexivity.
  - intros l [-> | Hl]; [reflexivity|].
    destruct parsed; try (rewrite Hl; reflexivity).
    unfold get_prop_opt in Hl. simpl in Hl. discriminate.
  - intros Hn Hf. destruct parsed; unfold ret, or_else; try rewrite Hf;
      try reflexivity.
    elim (Hn elements). reflexivity.
Qed.

(** X8: a successful answer to the request of an action whose body is falsy
    ([null], [false], [0] or the empty string).  [contribute_qf],
    [join_pool] and [leave_pool] return an object of their own, built from
    their arguments; the two list actions return the empty list;
    [get_qf_pool], [get_profile] and [get_status] throw, each with its own
    message. *)
Theorem falsy_success_body (w : World) (k : value) (res : IncomingMessage)
  (parsed : value) (s : Z) :
  getApiKey (process w) = Return k ->
  JSON_parse (body res) = Some parsed ->
  statusCode res = Some s -> (200 <= s < 300)%Z ->
  truthy parsed = false ->
  (forall pool q,
      pool <> EmptyString -> (0 < q)%Q ->
      https_request w []
        (client_request k POST ("/qf/pools/" ++ pool ++ "/contribute")
           (VObj [("amount", VNum (Finite q))]))
      = Response res ->
      result
        (contribute_qf JSON_parse fraction_toString
           {| ContributeQFOptions.pool_id := Some pool;
              ContributeQFOptions.amount := Some (Finite q) |}) w
      = Return (VObj [ ("success", VBool true);
                       ("pool_id", VStr pool);
                       ("amount_contributed", VNum (Finite q));
                       ("new_total", VNum (Finite q));
                       ("matching_multiplier", VNum (of_Z 1));
                       ("message", VStr "Contribution successful") ]))
  /\ (forall pool,
        pool <> EmptyString ->
        https_request w []
          (client_request k POST ("/pools/" ++ pool ++ "/join") (VObj []))
        = Response res ->
        result
          (join_pool JSON_parse fraction_toString
             {| JoinPoolOptions.pool_id := Some pool |}) w
        = Return (VObj [ ("success", VBool true);
                         ("pool_id", VStr pool);
                         ("pool_name", VStr "Unknown");
                         ("member_count", VNum (of_Z 1));
                         ("message", VStr "Successfully joined pool") ]))
  /\ (forall pool,
        https_request w []
          (client_request k DELETE ("/pools/" ++ pool ++ "/leave") VUndefined)
        = Response res ->
        result (leave_pool JSON_parse fraction_toString pool) w
        = Return (VObj [ ("success", VBool true);
                         ("message", VStr "Left pool successfully") ]))
  /\ (https_request w [] (client_request k GET "/qf/pools" VUndefined)
      = Response res ->
      result (list_qf_pools JSON_parse fraction_toString) w
      = Return (VArr []))
  /\ (https_request w [] (client_request k GET "/pools/joined" VUndefined)
      = Response res ->
      result (list_joined_pools JSON_parse fraction_toString) w
      = Return (VArr []))
  /\ (forall pool,
        https_request w []
          (client_request k GET ("/qf/pools/" ++ pool) VUndefined)
        = Response res ->
        result (get_qf_pool JSON_parse fraction_toString pool) w
        = Throw (Error "Failed to get QF pool details"))
  /\ (https_request w [] (client_request k GET "/agents/me" VUndefined)
      = Response res ->
      result (get_profile JSON_parse fraction_toString) w
      = Throw (Error "Failed to get profile"))
  /\ (https_request w [] (client_request k GET "/agents/status" VUndefined)
      = Response res ->
      result (get_status JSON_parse fraction_toString) w
      = Throw (Error "Failed to get status")).
Proof.
  intros Hk Hp Hs Hr Hf.
  assert (G : forall name, truthy (get_prop_opt name parsed) = false).
  { intros name. destruct parsed; try discriminate; reflexivity. }
  repeat split; intros;
    unfold result, run, Index.contribute_qf, Index.join_pool,
      Index.leave_pool, Index.list_qf_pools, Index.list_joined_pools,
      Index.get_qf_pool, Index.get_profile, Index.get_status;
    cbv zeta;
    cbn [ContributeQFOptions.pool_id ContributeQFOptions.amount
           JoinPoolOptions.pool_id opt_str];
    try match goal with
        | H : ?pool <> EmptyString |- _ => rewrite (truthy_nonempty H)
        end;
    try match goal with
        | H : (0 < ?q)%Q |- _ =>
            let A := fresh in
            assert (A : negb (number_truthy (Finite q))
                        || number_le0 (Finite q) = false)
              by (apply amount_accepted_iff; right; eauto);
            rewrite A
        end;
    cbn [negb JS.ToString]; unfold bind;
    match goal with
    | N : https_request w [] _ = Response res |- _ =>
        rewrite (@answered JSON_parse fraction_toString w _ _ _ _ _ _ _ _ Hk N Hp Hs Hr)
    end;
    cbn [success data error negb orb snd]; unfold ret, throw, or_else;
    rewrite ?Hf, ?G; reflexivity.
Qed.

(** X9: what [post_update] returns for a successful answer to its request,
    the POST on [/posts] with the data of the post.  [submolt] and
    [title] come back as given.  [post_id] is the [id] of the answer, and the
    empty string when the answer has none.  [url] is the [url] of the answer
    when it has one; otherwise it is built from the submolt and the [id], and
    ends in [/posts/undefined] when the answer has no [id] either. *)
Theorem post_update_result (o : PostUpdateOptions.t) (sm t : string)
  (w : World) (k : value) (res : IncomingMessage) (parsed : value) (s : Z) :
  PostUpdateOptions.submolt o = Some sm -> sm <> EmptyString ->
  PostUpdateOptions.title o = Some t -> t <> EmptyString ->
  supplied (PostUpdateOptions.content o)
    || supplied (PostUpdateOptions.url o) = true ->
  getApiKey (process w) = Return k ->
  https_request w []
    (client_request k POST "/posts"
       (VObj (postData (VStr sm) (VStr t)
                (opt_str (PostUpdateOptions.content o))
                (opt_str (PostUpdateOptions.url o)))))
  = Response res ->
  JSON_parse (body res) = Some parsed ->
  statusCode res = Some s -> (200 <= s < 300)%Z ->
  exists r,
    result (post_update JSON_parse fraction_toString o) w = Return r
    /\ PostUpdateResult.success r = true
    /\ PostUpdateResult.submolt r = VStr sm
    /\ PostUpdateResult.title r = VStr t
    /\ (forall id, get_prop_opt "id" parsed = VStr id -> id <> EmptyString ->
        PostUpdateResult.post_id r = VStr id
        /\ (truthy (get_prop_opt "url" parsed) = false ->
            PostUpdateResult.url r
            = VStr ("https://www.moltbook.com/m/" ++ sm ++ "/posts/" ++ id)))
    /\ (forall link, get_prop_opt "url" parsed = VStr link ->
        link <> EmptyString -> PostUpdateResult.url r = VStr link)
    /\ (get_prop_opt "id" parsed = VUndefined ->
        PostUpdateResult.post_id r = VStr EmptyString
        /\ (truthy (get_prop_opt "url" parsed) = false ->
            PostUpdateResult.url r
            = VStr ("https://www.moltbook.com/m/" ++ sm
                      ++ "/posts/undefined"))).
Proof.
  intros Hsm Hsm' Ht Ht' Hsup Hk Hnet Hp Hs Hr.
  unfold result, run, Index.post_update.
  rewrite (opt_str_truthy Hsm Hsm'), (opt_str_truthy Ht Ht'), !supplied_truthy.
  assert (E : negb (supplied (PostUpdateOptions.content o))
              && negb (supplied (PostUpdateOptions.url o)) = false).
  { destruct (supplied (PostUpdateOptions.content o)),
      (supplied (PostUpdateOptions.url o)); try reflexivity; discriminate. }
  rewrite E. cbn [negb]. unfold bind.
  rewrite Hsm, Ht. cbn [opt_str].
  rewrite (@answered JSON_parse fraction_toString w _ _ _ _ _ _ _ _ Hk Hnet Hp Hs Hr).
  cbn [success data negb snd]. unfold ret.
  eexists. split; [reflexivity|].
  cbn [PostUpdateResult.success PostUpdateResult.submolt
         PostUpdateResult.title PostUpdateResult.post_id PostUpdateResult.url].
  cbn [opt_str JS.ToString].
  split; [reflexivity|]. split; [reflexivity|]. split; [reflexivity|].
  unfold or_else. split; [|split].
  - intros id Hid Hne. rewrite Hid, (truthy_nonempty Hne).
    split; [reflexivity|]. intros ->. reflexivity.
  - intros link Hl Hne. rewrite Hl, (truthy_nonempty Hne). reflexivity.
  - intros Hid. rewrite Hid. cbn [truthy].
    split; [reflexivity|]. intros ->. reflexivity.
Qed.

(** X10: [add_comment] makes one POST on [/api/v1/posts/<post_id>/comments]
    whose body is the JSON text of [{ content }], with [parent_id] added
    exactly when it is supplied; [content] is sent as it is, empty or not.
    For a successful answer to that request it returns [success: true] and
    the [id] of the answer as [comment_id], or the empty string when there
    is none. *)
Theorem add_comment_request (post_id content : string)
  (parent_id : option string) (w : World) (k : value) :
  getApiKey (process w) = Return k ->
  exists out,
    run (add_comment JSON_parse fraction_toString post_id content parent_id) w
    = ([client_request k POST ("/posts/" ++ post_id ++ "/comments")
          (VObj ([("content", VStr content)]
                   ++ supplied_field "parent_id" parent_id)%list)],
       out)
    /\ forall res parsed s,
        https_request w []
          (client_request k POST ("/posts/" ++ post_id ++ "/comments")
             (VObj ([("content", VStr content)]
                      ++ supplied_field "parent_id" parent_id)%list))
        = Response res ->
        JSON_parse (body res) = Some parsed ->
        statusCode res = Some s -> (200 <= s < 300)%Z ->
        out = Return
                (VObj [ ("success", VBool true);
                        ("comment_id",
                         if truthy (get_prop_opt "id" parsed) then
                           get_prop_opt "id" parsed
                         else VStr EmptyString) ]).
Proof.
  intros Hk. unfold run, Index.add_comment. cbv zeta. unfold bind.
  assert (F : (if truthy (opt_str parent_id) then
                 [("parent_id", opt_str parent_id)]
               else []) = supplied_field "parent_id" parent_id)
    by (destruct parent_id as [[|c p]|]; reflexivity).
  rewrite F.
  rewrite (apiRequest_with_key JSON_parse fraction_toString _ _ _ _ _ Hk).
  destruct (https_request w [] _) as [res|e] eqn:Hnet.
  - destruct (success (on_end res)) eqn:Hs; cbn [negb];
      (eexists; split; [reflexivity|]);
      intros res' parsed s Hall Hp Hc Hr; injection Hall as <-.
    + rewrite (on_end_2xx _ _ Hp Hc Hr). reflexivity.
    + rewrite (on_end_2xx _ _ Hp Hc Hr) in Hs. discriminate.
  - eexists. split; [reflexivity|].
    intros res parsed s Hall. discriminate Hall.
Qed.

(** X11: the first request of [discover_opportunities] is a GET on
    [/api/v1/search?q=<query>&limit=<limit>] where the query is passed
    through [encodeURIComponent], so that none of the characters that
    separate the parts of a URL (space, [&], [=], [#], [?], [+], [/]) occurs
    in it; at most one more request follows. *)
Theorem discover_search_request (o : DiscoverOptions.t) (w : World)
  (k : value) :
  getApiKey (process w) = Return k ->
  exists value_text rest,
    calls (discover_opportunities JSON_parse fraction_toString o) w
    = client_request k GET
        ("/search?q=" ++ value_text ++ "&limit="
           ++ Number_toString
                match DiscoverOptions.limit o with
                | Some n => n
                | None => of_Z 25
                end)
        VUndefined :: rest
    /\ value_text
       = encodeURIComponent
           match DiscoverOptions.query o with
           | Some q => q
           | None => "undefined"
           end
    /\ (forall c, Str.mem c " &=#?+/" = true -> Str.mem c value_text = false)
    /\ List.length rest <= 1.
Proof.
  intros Hk.
  set (text := match DiscoverOptions.query o with
               | Some q => q
               | None => "undefined"
               end).
  assert (Et : ToString (opt_str (DiscoverOptions.query o)) = text)
    by (unfold text; destruct (DiscoverOptions.query o); reflexivity).
  exists (encodeURIComponent text).
  assert (Hsep : forall c, Str.mem c " &=#?+/" = true ->
                           Str.mem c (encodeURIComponent text) = false)
    by (intros c Hc; apply encodeURIComponent_no_separator; exact Hc).
  unfold calls, run, Index.discover_opportunities. cbv zeta. unfold bind.
  rewrite (apiRequest_with_key JSON_parse fraction_toString _ _ _ _ _ Hk).
  rewrite Et. change (default (DiscoverOptions.limit o) (of_Z 25))
    with (match DiscoverOptions.limit o with
          | Some n => n
          | None => of_Z 25
          end).
  destruct (https_request w [] _) as [res|e].
  2:{ eexists. split; [reflexivity|]. repeat split; auto. }
  destruct (negb (success (on_end res))
            || negb (truthy (data (on_end res)))).
  { eexists. split; [reflexivity|]. repeat split; auto. }
  destruct (truthy (opt_str (DiscoverOptions.submolt o))).
  - rewrite (apiRequest_with_key JSON_parse fraction_toString _ _ _ _ _ Hk).
    destruct (https_request w _ _) as [res2|e2].
    + unfold ret.
      repeat match goal with
             | |- context [match spread ?x with _ => _ end] =>
                 destruct (spread x)
             end;
        (eexists; split; [reflexivity|]; repeat split; auto).
    + eexists. split; [reflexivity|]. repeat split; auto.
  - unfold ret.
    repeat match goal with
           | |- context [match spread ?x with _ => _ end] =>
               destruct (spread x)
           end;
      (eexists; split; [reflexivity|]; repeat split; auto).
Qed.

(** X20: with a key, [contribute_qf] reaches the transport exactly when
    [pool_id] is supplied and the amount is a number above zero; it then
    makes one POST on the contribute path of the pool with the body
    [{ amount }], and otherwise throws with nothing sent. *)
Theorem contribute_qf_reaches_transport_iff (o : ContributeQFOptions.t)
  (w : World) (k : value) :
  getApiKey (process w) = Return k ->
  (calls (contribute_qf JSON_parse fraction_toString o) w <> [] <->
   supplied (ContributeQFOptions.pool_id o) = true
   /\ exists n,
       ContributeQFOptions.amount o = Some n
       /\ (n = Infinity false \/ exists q, n = Finite q /\ (0 < q)%Q))
  /\ (forall pool n,
        ContributeQFOptions.pool_id o = Some pool ->
        ContributeQFOptions.amount o = Some n ->
        calls (contribute_qf JSON_parse fraction_toString o) w <> [] ->
        calls (contribute_qf JSON_parse fraction_toString o) w
        = [client_request k POST ("/qf/pools/" ++ pool ++ "/contribute")
             (VObj [("amount", VNum n)])])
  /\ (calls (contribute_qf JSON_parse fraction_toString o) w = [] ->
      exists message,
        result (contribute_qf JSON_parse fraction_toString o) w
        = Throw (Error message)).
Proof.
  intros Hk. unfold calls, result, run, Index.contribute_qf. cbv zeta.
  rewrite supplied_truthy.
  destruct (supplied (ContributeQFOptions.pool_id o)) eqn:Hp; cbn [negb].
  2:{ split; [|split].
      - split; [intros H; elim H; reflexivity | intros [H _]; discriminate].
      - intros pool n _ _ H. elim H. reflexivity.
      - intros _. eexists. reflexivity. }
  destruct (ContributeQFOptions.amount o) as [n|] eqn:Ha.
  2:{ split; [|split].
      - split; [intros H; elim H; reflexivity
               | intros [_ [n [H _]]]; discriminate].
      - intros pool n _ H. discriminate.
      - intros _. eexists. reflexivity. }
  destruct (negb (number_truthy n) || number_le0 n) eqn:Hn.
  - split; [|split].
    + split; [intros H; elim H; reflexivity|].
      intros [_ [n' [E H]]]. injection E as <-.
      apply amount_accepted_iff in H. congruence.
    + intros pool n' _ _ H. elim H. reflexivity.
    + intros _. eexists. reflexivity.
  - unfold bind.
    rewrite (apiRequest_with_key JSON_parse fraction_toString _ _ _ _ _ Hk).
    destruct (https_request w [] _) as [res|e];
      [destruct (negb (success (on_end res)))|];
      (split; [|split];
       [ split; [intros _; split; [reflexivity|];
                 exists n; split; [reflexivity|];
                 apply amount_accepted_iff, Hn
                | intros _; discriminate]
       | intros pool n' Hpool Hn' _; injection Hn' as <-;
         rewrite Hpool; reflexivity
       | intros H; discriminate H ]).
Qed.

End Results.

(** * Further properties of the script *)

Section ScriptRuns.

Import Script.

Variable jq_api_key : Host.file -> string * Z.
Variable jq_uri : string -> string.
Variable jq_n : list (string * string) -> string -> string.
Variable help_text : string.
Variable env : Env.

Local Abbreviation main := (Script.main jq_api_key jq_uri jq_n help_text env).
Local Abbreviation API_KEY := (Script.API_KEY jq_api_key env).

Ltac unfold_commands :=
  unfold cmd_discover, cmd_search, cmd_feed, cmd_qf_list, cmd_qf_info,
    cmd_qf_contribute, cmd_pool_join, cmd_pool_list, cmd_pool_leave,
    cmd_post, cmd_post_link, cmd_comment, cmd_reply, cmd_upvote,
    cmd_downvote, cmd_submolts, cmd_submolt_info, cmd_submolt_create,
    cmd_subscribe, cmd_unsubscribe, cmd_status, cmd_profile,
    cmd_profile_update, cmd_follow, cmd_unfollow, cmd_agent_info, show_help,
    require, check_auth.

Ltac split_router :=
  repeat match goal with
         | |- context [if String.eqb ?a ?b then _ else _] =>
             destruct (String.eqb a b)
         | |- context [if ?x || ?y then _ else _] => destruct (x || y)
         | H : context [if String.eqb ?a ?b then _ else _] |- _ =>
             destruct (String.eqb a b)
         | H : context [if ?x || ?y then _ else _] |- _ => destruct (x || y)
         end.


(** X15: without a credential the script never runs [curl].  When the key
    assignment fails, or the key it yields is empty, every invocation ends in
    an exit: with the usage line of the command, the message of [check_auth],
    the help text or the message for an unknown command. *)
Theorem script_needs_credential (argv : list string) :
  snd (get_api_key jq_api_key env) <> 0%Z \/ API_KEY = EmptyString ->
  exists out status, main argv = Exit out status.
Proof.
  intros H. unfold Script.main.
  destruct (Z.eqb_spec (snd (get_api_key jq_api_key env)) 0) as [E|E];
    cbn [negb]; [|eexists _, _; reflexivity].
  destruct H as [H | Hkey]; [contradiction|].
  cbv zeta. split_router; unfold_commands; rewrite ?Hkey;
    cbn [Str.is_empty];
    repeat match goal with
           | |- context [if existsb ?f ?l then _ else _] =>
               destruct (existsb f l)
           end;
    eexists _, _; reflexivity.
Qed.

(** X16: every [curl] invocation the script makes, whatever its arguments:
    it is silent and follows redirects with [--location-trusted]; its method
    is GET, POST, PATCH or DELETE; its URL is under
    [https://www.moltbook.com/api/v1/]; its headers are
    [Authorization: Bearer <API_KEY>], with a key that is not empty, and
    [Content-Type: application/json]; and a GET or a DELETE never has a
    body. *)
Theorem script_request_shape (argv : list string) (out : string) (c : curl) :
  main argv = Request out c ->
  silent c = true
  /\ location_trusted c = true
  /\ In (X c) Behaviour.script_methods
  /\ String.prefix (BASE_URL ++ "/") (url c) = true
  /\ H c = [ ("Authorization", "Bearer " ++ API_KEY);
             ("Content-Type", "application/json") ]
  /\ API_KEY <> EmptyString
  /\ (X c = "GET" \/ X c = "DELETE" -> d c = None).
Proof.
  unfold Script.main.
  destruct (negb (Z.eqb (snd (get_api_key jq_api_key env)) 0));
    [discriminate|].
  cbv zeta. intros Hrun.
  assert (K : Str.is_empty API_KEY = false -> API_KEY <> EmptyString)
    by (intros E Q; rewrite Q in E; discriminate E).
  split_router; revert Hrun; unfold_commands;
    repeat match goal with
           | |- context [if existsb ?f ?l then _ else _] =>
               destruct (existsb f l)
           end;
    try (intros Hrun; discriminate Hrun);
    (destruct (Str.is_empty API_KEY) eqn:Hkey;
     [intros Hrun; discriminate Hrun|]);
    intros Hrun; injection Hrun as <- <-;
    unfold api_request, Behaviour.script_methods;
    cbn [silent location_trusted X url H d In Str.is_empty negb];
    (split; [reflexivity|]); (split; [reflexivity|]);
    (split; [auto 6|]);
    (split; [try reflexivity;
             match goal with
             | |- context [if ?b then _ else _] => destruct b; reflexivity
             end|]);
    (split; [reflexivity|]); (split; [exact (K eq_refl)|]);
    intros [G | G]; try discriminate G; reflexivity.
Qed.

(** X17: the feed command, with a key.  It runs one GET without body, on
    the path of the submolt when the third argument is given and on the
    global path otherwise; the sort key is [hot] when the second argument is
    empty or missing and is otherwise put in the query as it is; the limit
    is always 25. *)
Theorem script_feed_request (rest : list string) :
  snd (get_api_key jq_api_key env) = 0%Z ->
  API_KEY <> EmptyString ->
  let sort := nth 0 rest EmptyString in
  let submolt := nth 1 rest EmptyString in
  let key := if Str.is_empty sort then "hot" else sort in
  main ("feed" :: rest)
  = Request EmptyString
      {| silent := true; location_trusted := true; X := "GET";
         url :=
           if Str.is_empty submolt then
             "https://www.moltbook.com/api/v1/posts?sort=" ++ key
               ++ "&limit=25"
           else
             "https://www.moltbook.com/api/v1/submolts/" ++ submolt
               ++ "/posts?sort=" ++ key ++ "&limit=25";
         H := [ ("Authorization", "Bearer " ++ API_KEY);
                ("Content-Type", "application/json") ];
         d := None |}.
Proof.
  intros Hst Hkey sort submolt key. unfold Script.main. rewrite Hst.
  cbn [Z.eqb negb arg nth Nat.sub Str.is_empty String.eqb Ascii.eqb Bool.eqb].
  unfold cmd_feed, check_auth. rewrite (is_empty_false Hkey).
  fold sort submolt key. unfold api_request.
  destruct (Str.is_empty submolt); reflexivity.
Qed.

(** X18: the command router, once the key assignment has succeeded.  A first
    argument that is none of the words it knows gives the message for an
    unknown command and exit status 1; no argument, an empty one, [help],
    [--help] and [-h] print the help text and exit with status 0.  Neither
    needs a key. *)
Theorem script_unknown_command_and_help (command : string)
  (argv : list string) :
  snd (get_api_key jq_api_key env) = 0%Z ->
  (~ In command Behaviour.known_commands -> command <> EmptyString ->
   main (command :: argv)
   = Exit (echo ("Unknown command: " ++ command)
             ++ echo "Run 'moltbook.sh help' for usage") 1)
  /\ main [] = Exit help_text 0
  /\ main (EmptyString :: argv) = Exit help_text 0
  /\ main ("help" :: argv) = Exit help_text 0
  /\ main ("--help" :: argv) = Exit help_text 0
  /\ main ("-h" :: argv) = Exit help_text 0.
Proof.
  intros Hst. split.
  - intros Hnot Hne. unfold Script.main. rewrite Hst.
    cbn [Z.eqb negb arg nth Nat.sub]. rewrite (is_empty_false Hne).
    cbv zeta.
    repeat match goal with
           | |- context [String.eqb command ?word] =>
               destruct (String.eqb_spec command word) as [E|_];
               [ exfalso; apply Hnot; rewrite E;
                 unfold Behaviour.known_commands; simpl;
                 repeat (first [left; reflexivity | right])
               | ]
           end.
    reflexivity.
  - unfold Script.main. rewrite Hst. repeat split; reflexivity.
Qed.

End ScriptRuns.

(** * The further properties on sample worlds *)



(** X5, witness: over a network that answers the search with one post and
    the posts of the submolt with a status 500, the post of the search is
    returned. *)
Lemma discover_survives_scoped_failure_witness :
  exists r,
    Index.run
      (Index.discover_opportunities Reference.JSON_parse
         Reference.fraction_toString Scenario.funding_in_automation)
      (Scenario.community_world 500 (Sample.object1 "error" "overloaded"))
    = ([ Sample.sent Index.GET "/api/v1/search?q=funding&limit=25" None;
         Sample.sent Index.GET
           "/api/v1/submolts/automation/posts?sort=hot&limit=25" None ],
       Index.Return r)
    /\ Index.DiscoverResult.posts r = [JS.VObj [("id", JS.VStr "p1")]].
Proof.
  apply (@discover_survives_scoped_failure Reference.JSON_parse
           Reference.fraction_toString Scenario.funding_in_automation
           (Scenario.community_world 500
              (Sample.object1 "error" "overloaded"))
           (JS.VStr "moltbook_sk_env") "automation"
           {| Index.statusCode := Some 200%Z;
              Index.body := Sample.search_answer |}
           {| Index.statusCode := Some 500%Z;
              Index.body := Sample.object1 "error" "overloaded" |}
           (JS.VObj [ ("posts", JS.VArr [JS.VObj [("id", JS.VStr "p1")]]);
                      ("agents", JS.VArr []);
                      ("submolts",
                       JS.VArr [JS.VObj [("name", JS.VStr "automation")]]) ])
           200%Z);
    try reflexivity; try lia; discriminate.
Defined.

(** X6, witness: the feed of the submolt [automation], sorted by [new]. *)
Lemma get_feed_request_witness :
  Index.calls
    (Index.get_feed Reference.JSON_parse Reference.fraction_toString
       (Some "new") None (Some "automation"))
    (Sample.world 200 "[]")
  = [Sample.sent Index.GET
       "/api/v1/submolts/automation/posts?sort=new&limit=25" None].
Proof.
  apply (@get_feed_request Reference.JSON_parse Reference.fraction_toString
           (Some "new") None (Some "automation") (Sample.world 200 "[]")
           (JS.VStr "moltbook_sk_env")).
  reflexivity.
Defined.

(** X7, witness: the feed of the submolt [automation], over a network that
    answers it with an object that wraps two posts and every other request
    differently. *)
Lemma get_feed_normalizes_witness :
  Index.result
    (Index.get_feed Reference.JSON_parse Reference.fraction_toString
       None None (Some "automation"))
    (Scenario.community_world 200 Sample.scoped_answer)
  = Index.Return (JS.VArr Scenario.two_posts).
Proof.
  destruct (@get_feed_normalizes Reference.JSON_parse
              Reference.fraction_toString None None (Some "automation")
              (Scenario.community_world 200 Sample.scoped_answer)
              (JS.VStr "moltbook_sk_env")
              {| Index.statusCode := Some 200%Z;
                 Index.body := Sample.scoped_answer |}
              (JS.VObj [("posts", JS.VArr Scenario.two_posts)])
              200%Z eq_refl eq_refl eq_refl eq_refl
              ltac:(lia)) as [_ [H _]].
  apply H. right. reflexivity.
Defined.

(** X8, witness: [leave_pool] answered with a 200 and the body [null]. *)
Lemma falsy_success_body_witness :
  Index.result
    (Index.leave_pool Reference.JSON_parse Reference.fraction_toString
       "pool456")
    (Sample.world 200 "null")
  = Index.Return
      (JS.VObj [ ("success", JS.VBool true);
                 ("message", JS.VStr "Left pool successfully") ]).
Proof.
  destruct (@falsy_success_body Reference.JSON_parse
              Reference.fraction_toString (Sample.world 200 "null")
              (JS.VStr "moltbook_sk_env")
              {| Index.statusCode := Some 200%Z; Index.body := "null" |}
              JS.VNull 200%Z eq_refl eq_refl eq_refl
              ltac:(lia) eq_refl) as [_ [_ [H _]]].
  apply H. reflexivity.
Defined.

(** X9, witness: a post answered with [{"id":"p1"}]: the URL is built from
    the submolt and the identifier. *)
Lemma post_update_result_witness :
  exists r,
    Index.result
      (Index.post_update Reference.JSON_parse Reference.fraction_toString
         {| Index.PostUpdateOptions.submolt := Some "general";
            Index.PostUpdateOptions.title := Some "Hello";
            Index.PostUpdateOptions.content := Some "First post";
            Index.PostUpdateOptions.url := None |})
      (Sample.world 200 (Sample.object1 "id" "p1"))
    = Index.Return r
    /\ Index.PostUpdateResult.post_id r = JS.VStr "p1"
    /\ Index.PostUpdateResult.url r
       = JS.VStr "https://www.moltbook.com/m/general/posts/p1".
Proof.
  destruct (@post_update_result Reference.JSON_parse
              Reference.fraction_toString
              {| Index.PostUpdateOptions.submolt := Some "general";
                 Index.PostUpdateOptions.title := Some "Hello";
                 Index.PostUpdateOptions.content := Some "First post";
                 Index.PostUpdateOptions.url := None |}
              "general" "Hello"
              (Sample.world 200 (Sample.object1 "id" "p1"))
              (JS.VStr "moltbook_sk_env")
              {| Index.statusCode := Some 200%Z;
                 Index.body := Sample.object1 "id" "p1" |}
              (JS.VObj [("id", JS.VStr "p1")]) 200%Z
              eq_refl ltac:(discriminate) eq_refl ltac:(discriminate)
              eq_refl eq_refl eq_refl eq_refl eq_refl ltac:(lia))
    as [r [Hr [_ [_ [_ [Hid _]]]]]].
  destruct (Hid "p1" eq_refl ltac:(discriminate)) as [H1 H2].
  exists r. split; [exact Hr|]. split; [exact H1 | exact (H2 eq_refl)].
Defined.

(** X10, witness: a comment without parent, answered with [{"id":"c9"}]:
    the body sent is [{"content":"Nice"}] and [comment_id] is [c9]. *)
Lemma add_comment_request_witness :
  Index.run
    (Index.add_comment Reference.JSON_parse Reference.fraction_toString
       "p1" "Nice" None)
    (Sample.world 200 (Sample.object1 "id" "c9"))
  = ([Sample.sent Index.POST "/api/v1/posts/p1/comments"
        (Some (Sample.object1 "content" "Nice"))],
     Index.Return
       (JS.VObj [ ("success", JS.VBool true);
                  ("comment_id", JS.VStr "c9") ])).
Proof.
  destruct (@add_comment_request Reference.JSON_parse
              Reference.fraction_toString "p1" "Nice" None
              (Sample.world 200 (Sample.object1 "id" "c9"))
              (JS.VStr "moltbook_sk_env") eq_refl) as [out [E H]].
  rewrite E.
  rewrite (H {| Index.statusCode := Some 200%Z;
                Index.body := Sample.object1 "id" "c9" |}
             (JS.VObj [("id", JS.VStr "c9")]) 200%Z
             eq_refl eq_refl eq_refl ltac:(lia)).
  reflexivity.
Defined.

(** X11, witness: the search for [a b&c]. *)
Lemma discover_search_request_witness :
  exists rest,
    Index.calls
      (Index.discover_opportunities Reference.JSON_parse
         Reference.fraction_toString (Sample.query_only (Some "a b&c")))
      (Sample.world 200 "{}")
    = Sample.sent Index.GET "/api/v1/search?q=a%20b%26c&limit=25" None
        :: rest.
Proof.
  destruct (@discover_search_request Reference.JSON_parse
              Reference.fraction_toString (Sample.query_only (Some "a b&c"))
              (Sample.world 200 "{}") (JS.VStr "moltbook_sk_env") eq_refl)
    as [text [rest [E [Et _]]]].
  exists rest. rewrite E, Et. reflexivity.
Defined.

(** X20, witness: a contribution of 100 reaches the transport. *)
Lemma contribute_qf_reaches_transport_iff_witness :
  Index.calls
    (Index.contribute_qf Reference.JSON_parse Reference.fraction_toString
       {| Index.ContributeQFOptions.pool_id := Some "pool123";
          Index.ContributeQFOptions.amount := Some (JS.of_Z 100) |})
    (Sample.world 200 "{}")
  <> [].
Proof.
  apply (@contribute_qf_reaches_transport_iff Reference.JSON_parse
           Reference.fraction_toString
           {| Index.ContributeQFOptions.pool_id := Some "pool123";
              Index.ContributeQFOptions.amount := Some (JS.of_Z 100) |}
           (Sample.world 200 "{}") (JS.VStr "moltbook_sk_env") eq_refl).
  split; [reflexivity|]. exists (JS.of_Z 100). split; [reflexivity|].
  right. exists (inject_Z 100). split; reflexivity.
Defined.


(** X15, witness: [moltbook.sh pool_list] without a key. *)
Lemma script_needs_credential_witness :
  exists out status,
    Script.main Sample.no_jq_api_key Scenario.jq_uri Scenario.jq_n
      Scenario.help_text Scenario.env_without_key ["pool_list"]
    = Script.Exit out status.
Proof.
  apply (@script_needs_credential Sample.no_jq_api_key Scenario.jq_uri
           Scenario.jq_n Scenario.help_text Scenario.env_without_key
           ["pool_list"]).
  right. reflexivity.
Defined.

(** X16, witness: [moltbook.sh upvote p1]. *)
Lemma script_request_shape_witness :
  Script.X (Sample.curl_with_key "POST"
              "https://www.moltbook.com/api/v1/posts/p1/upvote" (Some "{}"))
  = "POST"
  /\ String.prefix "https://www.moltbook.com/api/v1/"
       "https://www.moltbook.com/api/v1/posts/p1/upvote" = true.
Proof.
  destruct (@script_request_shape Sample.no_jq_api_key Scenario.jq_uri
              Scenario.jq_n Scenario.help_text Sample.script_env
              ["upvote"; "p1"] EmptyString
              (Sample.curl_with_key "POST"
                 "https://www.moltbook.com/api/v1/posts/p1/upvote"
                 (Some "{}")) eq_refl)
    as [_ [_ [_ [Hp _]]]].
  split; [reflexivity | exact Hp].
Defined.

(** X17, witness: [moltbook.sh feed new automation]. *)
Lemma script_feed_request_witness :
  Scenario.main ["feed"; "new"; "automation"]
  = Script.Request EmptyString
      (Sample.curl_with_key "GET"
         "https://www.moltbook.com/api/v1/submolts/automation/posts?sort=new&limit=25"
         None).
Proof.
  apply (@script_feed_request Sample.no_jq_api_key Scenario.jq_uri
           Scenario.jq_n Scenario.help_text Sample.script_env
           ["new"; "automation"]).
  - reflexivity.
  - discriminate.
Defined.

(** X18, witness: [moltbook.sh frobnicate]. *)
Lemma script_unknown_command_and_help_witness :
  Scenario.main ["frobnicate"]
  = Script.Exit
      (Script.echo "Unknown command: frobnicate"
         ++ Script.echo "Run 'moltbook.sh help' for usage") 1.
Proof.
  apply (@script_unknown_command_and_help Sample.no_jq_api_key
           Scenario.jq_uri Scenario.jq_n Scenario.help_text
           Sample.script_env "frobnicate" []).
  - reflexivity.
  - unfold Behaviour.known_commands. simpl.
    intros H. repeat (destruct H as [H | H]; [discriminate H|]). exact H.
  - discriminate.
Defined.

(** * Missing credentials and arguments, in both clients *)

Lemma prefix_app_l (n a b : string) :
  String.prefix n a = true -> String.prefix n (a ++ b) = true.
Proof.
  revert a. induction n as [|c n IH]; intros a H.
  - destruct (a ++ b); reflexivity.
  - destruct a as [|c' a]; [discriminate|]. simpl in *.
    destruct (ascii_dec c c'); [apply IH, H | discriminate].
Qed.

Lemma prefix_refl (s : string) : String.prefix s s = true.
Proof.
  induction s as [|c s IH]; [reflexivity|]. simpl.
  destruct (ascii_dec c c); [exact IH | contradiction].
Qed.

Lemma contains_app_l (n a b : string) :
  Str.contains n a = true -> Str.contains n (a ++ b) = true.
Proof.
  induction a as [|c a IH]; intros H.
  - cbn [Str.contains] in H. rewrite orb_false_r in H.
    apply StrFacts.contains_prefix. apply (@prefix_app_l n EmptyString b H).
  - cbn [Str.contains] in H. apply orb_true_iff in H.
    change (String c a ++ b) with (String c (a ++ b)). cbn [Str.contains].
    apply orb_true_iff. destruct H as [H | H].
    + left. apply (@prefix_app_l n (String c a) b H).
    + right. apply IH, H.
Qed.

Section ScriptCredential.

Import Script.

Variable jq_api_key : Host.file -> string * Z.
Variable jq_uri : string -> string.
Variable jq_n : list (string * string) -> string -> string.
Variable help_text : string.
Variable env : Env.

Local Abbreviation main := (Script.main jq_api_key jq_uri jq_n help_text env).
Local Abbreviation API_KEY := (Script.API_KEY jq_api_key env).

Lemma auth_error_names_both :
  Str.contains "Set MOLTBOOK_API_KEY environment variable" (auth_error env)
  = true
  /\ Str.contains (CONFIG_FILE env) (auth_error env) = true.
Proof.
  unfold auth_error. split.
  - apply StrFacts.contains_app_r, contains_app_l.
    unfold echo. cbn [is_echo_option].
    apply contains_app_l, StrFacts.contains_prefix. reflexivity.
  - apply StrFacts.contains_app_r, contains_app_l.
    unfold echo. cbn [is_echo_option].
    apply contains_app_l, StrFacts.contains_app_r, StrFacts.contains_prefix.
    apply prefix_refl.
Qed.

(** X19: a command of the script that uses the network, with its arguments
    given but with an empty key, prints the message of [check_auth] and
    exits with status 1; the message names the environment variable and the
    path of the configuration file under [$HOME]. *)
Theorem script_reports_missing_key (command : string) (argv : list string) :
  snd (get_api_key jq_api_key env) = 0%Z ->
  API_KEY = EmptyString ->
  (exists n, In (command, n) required_arguments
             /\ lacks_argument n (command :: argv) = false)
  \/ In command Behaviour.plain_commands ->
  main (command :: argv) = Exit (auth_error env) 1
  /\ Str.contains "Set MOLTBOOK_API_KEY environment variable" (auth_error env)
     = true
  /\ Str.contains (HOME env ++ "/.config/moltbook/credentials.json")
       (auth_error env) = true.
Proof.
  intros Hst Hkey Hc. split; [|exact auth_error_names_both].
  unfold Script.main. rewrite Hst.
  destruct Hc as [[n [Hin Hfull]] | Hin].
  - unfold required_arguments in Hin. simpl In in Hin.
    unfold lacks_argument in Hfull.
    repeat (destruct Hin as [Hin | Hin];
            [ injection Hin as <- <-;
              cbn [Z.eqb negb arg nth Nat.sub Str.is_empty String.eqb
                     Ascii.eqb Bool.eqb];
              unfold cmd_discover, cmd_search, cmd_qf_info,
                cmd_qf_contribute, cmd_pool_join, cmd_pool_leave, cmd_post,
                cmd_post_link, cmd_comment, cmd_reply, cmd_upvote,
                cmd_downvote, cmd_submolt_info, cmd_submolt_create,
                cmd_subscribe, cmd_unsubscribe, cmd_profile_update,
                cmd_follow, cmd_unfollow, cmd_agent_info, require,
                check_auth;
              cbn [map seq arg nth Nat.sub] in Hfull; rewrite Hfull, Hkey;
              reflexivity
            | ]).
    contradiction.
  - unfold Behaviour.plain_commands in Hin. simpl In in Hin.
    repeat (destruct Hin as [Hin | Hin];
            [ subst command;
              cbn [Z.eqb negb arg nth Nat.sub Str.is_empty String.eqb
                     Ascii.eqb Bool.eqb];
              unfold cmd_feed, cmd_qf_list, cmd_pool_list, cmd_submolts,
                cmd_status, cmd_profile, check_auth;
              rewrite Hkey; reflexivity
            | ]).
    contradiction.
Qed.

End ScriptCredential.

(** X19, witness: [moltbook.sh upvote p1] without a key. *)
Lemma script_reports_missing_key_witness :
  Script.main Sample.no_jq_api_key Scenario.jq_uri Scenario.jq_n
    Scenario.help_text Scenario.env_without_key ["upvote"; "p1"]
  = Script.Exit (Script.auth_error Scenario.env_without_key) 1.
Proof.
  apply (@script_reports_missing_key Sample.no_jq_api_key Scenario.jq_uri
           Scenario.jq_n Scenario.help_text Scenario.env_without_key
           "upvote" ["p1"]).
  - reflexivity.
  - reflexivity.
  - left. exists 1. split; [|reflexivity].
    unfold Script.required_arguments. simpl. tauto.
Defined.

Section PluginCredential.

Import JS Index Behaviour.

Variable JSON_parse : string -> option value.
Variable fraction_toString : Q -> string.

Local Abbreviation getApiKey := (Index.getApiKey JSON_parse).
Local Abbreviation apiRequest :=
  (Index.apiRequest JSON_parse fraction_toString).
Local Abbreviation invoke := (Behaviour.invoke JSON_parse fraction_toString).

Lemma bind_throws {A B : Type} (c : M A) (k : A -> M B) w log x :
  c w log = (log, Throw x) -> bind c k w log = (log, Throw x).
Proof. intros H. unfold bind. rewrite H. reflexivity. Qed.

(** X22: when no key can be resolved, no exported action reaches the
    transport: each one throws, with the log of transport invocations as it
    was, whatever its arguments. *)
Theorem no_key_no_request (c : call) (w : World) (log : list ClientRequest)
  (e : exn) :
  getApiKey (process w) = Throw e ->
  exists x, invoke c w log = (log, Throw x).
Proof.
  intros Hk.
  assert (L : forall A method endpoint payload (k : ApiResponse -> M A),
             bind (apiRequest method endpoint payload) k w log
             = (log, Throw e)).
  { intros. apply bind_throws.
    apply (apiRequest_no_key JSON_parse fraction_toString _ _ _ _ _ Hk). }
  destruct c; unfold Behaviour.invoke, void;
    unfold Index.discover_opportunities, Index.contribute_qf, Index.join_pool,
      Index.post_update, Index.list_qf_pools, Index.get_qf_pool,
      Index.leave_pool, Index.list_joined_pools, Index.add_comment,
      Index.upvote_post, Index.downvote_post, Index.subscribe_submolt,
      Index.post_empty, Index.get_profile, Index.get_status, Index.get_feed;
    cbv zeta;
    repeat match goal with
           | |- context [if ?b then _ else _] => destruct b
           | |- context [match ?x with Some _ => _ | None => _ end] =>
               destruct x
           end;
    eexists; apply bind_throws; first [apply L | reflexivity].
Qed.

(** X21: the three actions that test their arguments do so before they look
    for a key, in a fixed order, each failure with its own message: in any
    world, [post_update] asks for [submolt], then for [title], then for one
    of [content] and [url]; [contribute_qf] asks for [pool_id], then for a
    positive amount; [join_pool] asks for [pool_id]. *)
Theorem validation_messages (w : World) (log : list ClientRequest) :
  (forall o,
      supplied (PostUpdateOptions.submolt o) = false ->
      post_update JSON_parse fraction_toString o w log
      = (log, Throw (Error "submolt is required")))
  /\ (forall o,
        supplied (PostUpdateOptions.submolt o) = true ->
        supplied (PostUpdateOptions.title o) = false ->
        post_update JSON_parse fraction_toString o w log
        = (log, Throw (Error "title is required")))
  /\ (forall o,
        supplied (PostUpdateOptions.submolt o) = true ->
        supplied (PostUpdateOptions.title o) = true ->
        supplied (PostUpdateOptions.content o) = false ->
        supplied (PostUpdateOptions.url o) = false ->
        post_update JSON_parse fraction_toString o w log
        = (log, Throw (Error "Either content or url is required")))
  /\ (forall o,
        supplied (ContributeQFOptions.pool_id o) = false ->
        contribute_qf JSON_parse fraction_toString o w log
        = (log, Throw (Error "pool_id is required")))
  /\ (forall o,
        supplied (ContributeQFOptions.pool_id o) = true ->
        (forall n, ContributeQFOptions.amount o = Some n ->
                   n = NaN \/ n = Infinity true
                   \/ exists q, n = Finite q /\ (q <= 0)%Q) ->
        contribute_qf JSON_parse fraction_toString o w log
        = (log, Throw (Error "amount must be a positive number")))
  /\ (forall o,
        supplied (JoinPoolOptions.pool_id o) = false ->
        join_pool JSON_parse fraction_toString o w log
        = (log, Throw (Error "pool_id is required"))).
Proof.
  repeat split; intros o;
    unfold Index.post_update, Index.contribute_qf, Index.join_pool;
    rewrite ?supplied_truthy.
  - intros ->. reflexivity.
  - intros -> ->. reflexivity.
  - intros -> -> -> ->. reflexivity.
  - intros ->. reflexivity.
  - intros -> Ha. cbn [negb].
    destruct (ContributeQFOptions.amount o) as [n|]; [|reflexivity].
    destruct (Ha n eq_refl) as [-> | [-> | [q [-> Hq]]]]; try reflexivity.
    simpl. apply Qle_bool_iff in Hq. rewrite Hq, orb_true_r. reflexivity.
  - intros ->. reflexivity.
Qed.

End PluginCredential.

(** X22, witness: [list_joined_pools] in a process without variable and
    without configuration file. *)
Lemma no_key_no_request_witness :
  exists x,
    Behaviour.invoke Reference.JSON_parse Reference.fraction_toString
      Behaviour.ListJoinedPools
      {| Index.process := Sample.process_with_file Host.NoFile;
         Index.https_request := Sample.answering 200 "{}" |} []
    = ([], Index.Throw x).
Proof.
  apply (@no_key_no_request Reference.JSON_parse Reference.fraction_toString
           Behaviour.ListJoinedPools
           {| Index.process := Sample.process_with_file Host.NoFile;
              Index.https_request := Sample.answering 200 "{}" |} []
           (Index.Error
              (Index.no_api_key_message
                 (Sample.process_with_file Host.NoFile)))).
  reflexivity.
Defined.
